(** * WireGuard.js: the tunnel registry of wg-easy

    A shallow embedding of [src/lib/WireGuard.js].  The class keeps one
    configuration object per process (memoised by [__configPromise]), renders
    it to [wg0.json] / [wg0.conf], and drives the [wg] command line.

    - JavaScript strings are [string]; a template literal is a concatenation.
    - The configuration object lives in a heap of objects and is referred to
      by its location, so that "the same object" is a statement about
      locations.  The [clients] object is an association list in insertion
      order (the order of [Object.entries] for non-numeric keys such as
      UUIDs) that holds its own properties; reading [config.clients[id]]
      goes through the prototype chain, to [Object.prototype] and to what
      the class itself has assigned there ([property], [Realm]).
    - Asynchronous methods are computations in a state-and-exception monad
      over a [World]: the files, the heap, the memoised promise, and the
      outcomes of the external commands, the clock and the UUID generator.
      A thrown exception keeps the mutations made before it. *)

From Stdlib Require Import String Ascii List ZArith Lia Bool DecimalString.
Import ListNotations.
Open Scope string_scope.
Open Scope Z_scope.

Set Implicit Arguments.

(** ** JavaScript primitives used by the module *)

Definition LF : string := String "010"%char EmptyString.
Definition TAB : string := String "009"%char EmptyString.
Definition DQUOTE : string := String "034"%char EmptyString.

(** Truthiness of a string: only the empty string is falsy. *)
Definition truthy (s : string) : bool :=
  match s with EmptyString => false | String _ _ => true end.

(** Truthiness of a property that may be absent ([undefined]). *)
Definition truthyOpt (o : option string) : bool :=
  match o with None => false | Some s => truthy s end.

(** A value interpolated in a template literal. *)
Definition interp (o : option string) : string :=
  match o with None => "undefined" | Some s => s end.

(** [s.split(sep)] for a one-character separator. *)
Fixpoint split (sep : ascii) (s : string) : list string :=
  match s with
  | EmptyString => [EmptyString]
  | String c r =>
      if Ascii.eqb c sep then EmptyString :: split sep r
      else match split sep r with
           | h :: t => String c h :: t
           | [] => [String c EmptyString]
           end
  end.

(** Elements of the arrays the module builds: the strings produced by
    [split], a number or a string stored by index, and the holes left when an
    index past the end is assigned. *)
Inductive elem : Type :=
| EStr (s : string)
| ENum (n : Z)
| EHole.

Definition Z_to_string (n : Z) : string := NilZero.string_of_int (Z.to_int n).

Definition elemToString (e : elem) : string :=
  match e with
  | EStr s => s
  | ENum n => Z_to_string n
  | EHole => EmptyString
  end.

(** [a[n] = v]: overwrites in range, extends with holes out of range. *)
Fixpoint assignIndex (n : nat) (v : elem) (a : list elem) : list elem :=
  match n, a with
  | O, [] => [v]
  | O, _ :: t => v :: t
  | S n', [] => EHole :: assignIndex n' v []
  | S n', h :: t => h :: assignIndex n' v t
  end.

(** [a.join(sep)] *)
Fixpoint join (sep : string) (a : list elem) : string :=
  match a with
  | [] => EmptyString
  | [x] => elemToString x
  | x :: r => elemToString x ++ sep ++ join sep r
  end.

(** [s.includes(p)] *)
Fixpoint includes (p s : string) : bool :=
  if String.prefix p s then true
  else match s with
       | EmptyString => false
       | String _ r => includes p r
       end.

(** White space removed by [trim] (the ASCII part of it). *)
Definition isSpace (c : ascii) : bool :=
  let n := nat_of_ascii c in
  (Nat.eqb n 32 || (Nat.leb 9 n && Nat.leb n 13))%bool.

Fixpoint trimStart (s : string) : string :=
  match s with
  | EmptyString => EmptyString
  | String c r => if isSpace c then trimStart r else s
  end.

Fixpoint trimEnd (s : string) : string :=
  match s with
  | EmptyString => EmptyString
  | String c r =>
      match trimEnd r with
      | EmptyString => if isSpace c then EmptyString else String c EmptyString
      | r' => String c r'
      end
  end.

Definition trim (s : string) : string := trimEnd (trimStart s).

(** Numbers.  [Number(s)] is interpreted on the strings the daemon prints
    (decimal digits, exact below 2^53) and on the empty string; on any other
    string it is kept as the symbolic value [NumOf s]. *)
Inductive jsnum : Type :=
| Int (z : Z)
| NaN
| NumOf (s : string).

Definition isDigit (c : ascii) : bool :=
  let n := nat_of_ascii c in (Nat.leb 48 n && Nat.leb n 57)%bool.

Fixpoint allDigits (s : string) : bool :=
  match s with
  | EmptyString => true
  | String c r => (isDigit c && allDigits r)%bool
  end.

Fixpoint digitsValue (acc : Z) (s : string) : Z :=
  match s with
  | EmptyString => acc
  | String c r => digitsValue (10 * acc + (Z.of_nat (nat_of_ascii c) - 48)) r
  end.

Definition Number_ (s : string) : jsnum :=
  if allDigits s then
    let v := digitsValue 0 s in
    if v <? 2 ^ 53 then Int v else NumOf s
  else NumOf s.

(** [Number(x)] where [x] may be [undefined]. *)
Definition NumberOpt (o : option string) : jsnum :=
  match o with None => NaN | Some s => Number_ s end.

(** [parseInt(x)] on an array element, as far as the module needs it. *)
Definition parseInt (e : elem) : jsnum :=
  match e with
  | ENum n => Int n
  | EHole => NaN
  | EStr s => match s with
              | EmptyString => NaN
              | _ => if allDigits s then Number_ s else NumOf s
              end
  end.

(** Dates: a time value in milliseconds, or an invalid date. *)
Inductive jsdate : Type :=
| DateMs (ms : Z)
| InvalidDate
| DateOf (n : jsnum).

Definition newDate (n : jsnum) : jsdate :=
  match n with
  | Int z => if Z.abs z <=? 8640000000000000 then DateMs z else InvalidDate
  | NaN => InvalidDate
  | NumOf s => DateOf (NumOf s)
  end.

(** ** Errors *)

(** Modelled from the spec: [ServerError] (module [./ServerError], whose code
    is not available) is an error that carries a message and an
    HTTP-equivalent status code, as in [new ServerError(message, 404)]. *)
Inductive error : Type :=
| Error_ (message : string)
| ServerError (message : string) (statusCode : Z)
| TypeError (message : string)
| ReferenceError (message : string).

Definition message (e : error) : string :=
  match e with
  | Error_ m | ServerError m _ | TypeError m | ReferenceError m => m
  end.

(** The status an HTTP layer can read off an error: only [ServerError]
    carries one. *)
Definition statusCode (e : error) : option Z :=
  match e with
  | ServerError _ c => Some c
  | _ => None
  end.

Inductive result (A : Type) : Type :=
| Ok (a : A)
| Err (e : error).
Arguments Ok {A} a.
Arguments Err {A} e.

(** ** Configuration constants ([require('../config')]) *)

(** Modelled from the spec: the code of the module [../config] is not
    available; its constants are taken as parameters.  Each is a string; a
    constant that is unset ([undefined] or [null]) is only ever tested for
    truthiness before use and is represented by the empty string. *)
Record Settings : Type := {
  WG_PATH : string;
  WG_HOST : string;
  WG_PORT : string;
  WG_CONFIG_PORT : string;
  WG_MTU : string;
  WG_DEFAULT_DNS : string;
  WG_DEFAULT_ADDRESS : string;
  WG_PERSISTENT_KEEPALIVE : string;
  WG_ALLOWED_IPS : string;
  WG_PRE_UP : string;
  WG_POST_UP : string;
  WG_PRE_DOWN : string;
  WG_POST_DOWN : string
}.

(** ** Data model *)

Record Server : Type := {
  s_privateKey : string;
  s_publicKey : string;
  s_address : string;
  s_cidrSubnet : option string      (* [undefined] when the property is absent *)
}.

Record Client : Type := {
  id : string;
  name : string;
  address : string;
  privateKey : option string;       (* absent when the peer keeps its own key *)
  publicKey : string;
  preSharedKey : option string;
  createdAt : Z;
  updatedAt : Z;
  enabled : bool;
  allowedIPs : option string;
  cidrSubnet : option string
}.

Record Config : Type := {
  server : Server;
  clients : list (string * Client)
}.

Definition set_enabled (b : bool) (c : Client) : Client :=
  {| id := id c; name := name c; address := address c;
     privateKey := privateKey c; publicKey := publicKey c;
     preSharedKey := preSharedKey c; createdAt := createdAt c;
     updatedAt := updatedAt c; enabled := b;
     allowedIPs := allowedIPs c; cidrSubnet := cidrSubnet c |}.

Definition set_name (n : string) (c : Client) : Client :=
  {| id := id c; name := n; address := address c;
     privateKey := privateKey c; publicKey := publicKey c;
     preSharedKey := preSharedKey c; createdAt := createdAt c;
     updatedAt := updatedAt c; enabled := enabled c;
     allowedIPs := allowedIPs c; cidrSubnet := cidrSubnet c |}.

Definition set_address (a : string) (c : Client) : Client :=
  {| id := id c; name := name c; address := a;
     privateKey := privateKey c; publicKey := publicKey c;
     preSharedKey := preSharedKey c; createdAt := createdAt c;
     updatedAt := updatedAt c; enabled := enabled c;
     allowedIPs := allowedIPs c; cidrSubnet := cidrSubnet c |}.

Definition set_updatedAt (t : Z) (c : Client) : Client :=
  {| id := id c; name := name c; address := address c;
     privateKey := privateKey c; publicKey := publicKey c;
     preSharedKey := preSharedKey c; createdAt := createdAt c;
     updatedAt := t; enabled := enabled c;
     allowedIPs := allowedIPs c; cidrSubnet := cidrSubnet c |}.

(** The [clients] object as a map: own-property lookup, assignment (in place
    for an existing key, appended for a new one) and [delete]. *)
Fixpoint lookup (k : string) (m : list (string * Client)) : option Client :=
  match m with
  | [] => None
  | (k', c) :: r => if String.eqb k' k then Some c else lookup k r
  end.

Fixpoint assign (k : string) (c : Client) (m : list (string * Client))
  : list (string * Client) :=
  match m with
  | [] => [(k, c)]
  | (k', c') :: r =>
      if String.eqb k' k then (k, c) :: r else (k', c') :: assign k c r
  end.

Fixpoint remove (k : string) (m : list (string * Client))
  : list (string * Client) :=
  match m with
  | [] => []
  | (k', c') :: r =>
      if String.eqb k' k then r else (k', c') :: remove k r
  end.

Definition set_clients (m : list (string * Client)) (c : Config) : Config :=
  {| server := server c; clients := m |}.

(** The last component of an address assigned in the fallback branch:
    [parseInt(x) + 1] stored back in the array. *)
Definition plusOne (n : jsnum) : elem :=
  match n with
  | Int z => ENum (z + 1)
  | NaN => EStr "NaN"
  | NumOf s => EStr ("(" ++ s ++ ")+1")
  end.

(** ** Objects outside the configuration *)

(** [config.clients] is an ordinary object, so reading a property it does not
    own goes on to [Object.prototype].  A name given by a caller can reach
    there the members of [Object.prototype] and whatever the assignments of
    this class ([enabled], [updatedAt], [name], [address]) have added to
    [Object.prototype] before. *)

(** The function-valued members of [Object.prototype]. *)
Definition prototypeFunctions : list string :=
  [ "constructor"; "__defineGetter__"; "__defineSetter__"; "hasOwnProperty";
    "__lookupGetter__"; "__lookupSetter__"; "isPrototypeOf";
    "propertyIsEnumerable"; "toString"; "valueOf"; "toLocaleString" ].

(** The [name] of such a function, as it appears in its source text. *)
Definition functionName (member : string) : string :=
  if String.eqb member "constructor" then "Object" else member.

(** The properties this class assigns, as own properties of an object that
    is not a stored peer; [o_updatedAt] is the index of a [Date] object.  A
    stored peer owns each of the four, so that what is added to
    [Object.prototype] never shows through a stored peer. *)
Record Props : Type := {
  o_enabled : option bool;
  o_updatedAt : option nat;
  o_name : option string;
  o_address : option string
}.

Definition noProps : Props :=
  {| o_enabled := None; o_updatedAt := None; o_name := None;
     o_address := None |}.

Record Realm : Type := {
  prototypeProps : Props;                 (* added to [Object.prototype] *)
  functionProps : list (string * Props);  (* added to its functions, by member *)
  dateObjects : list (Z * Props)          (* [Date] objects those objects hold:
                                             time value and own properties *)
}.

(** The objects as a new process finds them. *)
Definition pristine : Realm :=
  {| prototypeProps := noProps; functionProps := []; dateObjects := [] |}.

(** ** The world of one process *)

(** What the process does to its environment, most recent first. *)
Inductive event : Type :=
| EvExec (cmd : string)
| EvReadFile (file : string)
| EvWriteFile (file : string)
| EvNow
| EvRandomUUID.

Definition loc : Type := nat.

Record World : Type := {
  wg0_json : option Config;   (* what reading and parsing wg0.json yields *)
  wg0_conf : option string;   (* the daemon's configuration file *)
  heap : list Config;         (* configuration objects, by location *)
  configPromise : option (result loc);   (* this.__configPromise *)
  realm : Realm;              (* the objects outside the configuration *)
  trace : list event;
  (* outcomes of the n-th interaction with the environment *)
  execOutcome : nat -> string -> result string;
  writeOutcome : nat -> string -> option error;
  clock : nat -> Z;
  uuidSource : nat -> string
}.

Definition M (A : Type) : Type := World -> result A * World.

Definition ret {A} (a : A) : M A := fun w => (Ok a, w).
Definition throw {A} (e : error) : M A := fun w => (Err e, w).
Definition bind {A B} (m : M A) (f : A -> M B) : M B :=
  fun w => match m w with
           | (Ok a, w') => f a w'
           | (Err e, w') => (Err e, w')
           end.
(** [try { m } catch (err) { h(err) }] *)
Definition catch {A} (m : M A) (h : error -> M A) : M A :=
  fun w => match m w with
           | (Ok a, w') => (Ok a, w')
           | (Err e, w') => h e w'
           end.

Declare Scope js_scope.
Delimit Scope js_scope with js.
Notation "x <- m ;; k" := (bind m (fun x => k))
  (at level 61, m at next level, right associativity) : js_scope.
Notation "m ;;; k" := (bind m (fun _ => k))
  (at level 61, right associativity) : js_scope.
Open Scope js_scope.

Definition log (e : event) (w : World) : World :=
  {| wg0_json := wg0_json w; wg0_conf := wg0_conf w; heap := heap w;
     configPromise := configPromise w; realm := realm w;
     trace := e :: trace w;
     execOutcome := execOutcome w; writeOutcome := writeOutcome w;
     clock := clock w; uuidSource := uuidSource w |}.

Definition set_json (c : Config) (w : World) : World :=
  {| wg0_json := Some c; wg0_conf := wg0_conf w; heap := heap w;
     configPromise := configPromise w; realm := realm w;
     trace := trace w;
     execOutcome := execOutcome w; writeOutcome := writeOutcome w;
     clock := clock w; uuidSource := uuidSource w |}.

Definition set_conf (s : string) (w : World) : World :=
  {| wg0_json := wg0_json w; wg0_conf := Some s; heap := heap w;
     configPromise := configPromise w; realm := realm w;
     trace := trace w;
     execOutcome := execOutcome w; writeOutcome := writeOutcome w;
     clock := clock w; uuidSource := uuidSource w |}.

Definition set_heap (h : list Config) (w : World) : World :=
  {| wg0_json := wg0_json w; wg0_conf := wg0_conf w; heap := h;
     configPromise := configPromise w; realm := realm w;
     trace := trace w;
     execOutcome := execOutcome w; writeOutcome := writeOutcome w;
     clock := clock w; uuidSource := uuidSource w |}.

Definition set_configPromise (p : option (result loc)) (w : World) : World :=
  {| wg0_json := wg0_json w; wg0_conf := wg0_conf w; heap := heap w;
     configPromise := p; realm := realm w; trace := trace w;
     execOutcome := execOutcome w; writeOutcome := writeOutcome w;
     clock := clock w; uuidSource := uuidSource w |}.

Definition set_realm (r : Realm) (w : World) : World :=
  {| wg0_json := wg0_json w; wg0_conf := wg0_conf w; heap := heap w;
     configPromise := configPromise w; realm := r; trace := trace w;
     execOutcome := execOutcome w; writeOutcome := writeOutcome w;
     clock := clock w; uuidSource := uuidSource w |}.

(** Modelled from the spec: [Util.exec] (module [./Util], whose code is not
    available) runs a shell command and resolves to its trimmed standard
    output, or rejects.  The outcome of each run is a parameter of the
    world. *)
Definition exec (cmd : string) : M string :=
  fun w => (execOutcome w (length (trace w)) cmd, log (EvExec cmd) w).

(** [new Date()] as a time value. *)
Definition now : M Z :=
  fun w => (Ok (clock w (length (trace w))), log EvNow w).

(** [crypto.randomUUID()] *)
Definition randomUUID : M string :=
  fun w => (Ok (uuidSource w (length (trace w))), log EvRandomUUID w).

(** [JSON.parse(await fs.readFile(path.join(WG_PATH, 'wg0.json'), 'utf8'))];
    the document, when it parses, has the persisted shape. *)
Definition readConfigFile : M Config :=
  fun w => (match wg0_json w with
            | Some c => Ok c
            | None => Err (Error_ "ENOENT: no such file or directory")
            end, log (EvReadFile "wg0.json") w).

Definition writeJson (c : Config) : M unit :=
  fun w => match writeOutcome w (length (trace w)) "wg0.json" with
           | None => (Ok tt, set_json c (log (EvWriteFile "wg0.json") w))
           | Some e => (Err e, log (EvWriteFile "wg0.json") w)
           end.

Definition writeConf (s : string) : M unit :=
  fun w => match writeOutcome w (length (trace w)) "wg0.conf" with
           | None => (Ok tt, set_conf s (log (EvWriteFile "wg0.conf") w))
           | Some e => (Err e, log (EvWriteFile "wg0.conf") w)
           end.

(** Objects: allocation of a new configuration object, reading it through
    its location, and updating it in place. *)
Definition alloc (c : Config) : M loc :=
  fun w => (Ok (length (heap w)), set_heap (heap w ++ [c]) w).

Definition deref (l : loc) : M Config :=
  fun w => match nth_error (heap w) l with
           | Some c => (Ok c, w)
           | None => (Err (ReferenceError "dangling object"), w)
           end.

Fixpoint replaceNth {A} (n : nat) (x : A) (l : list A) : list A :=
  match n, l with
  | _, [] => []
  | O, _ :: t => x :: t
  | S n', h :: t => h :: replaceNth n' x t
  end.

Definition update (l : loc) (f : Config -> Config) : M unit :=
  fun w => match nth_error (heap w) l with
           | Some c => (Ok tt, set_heap (replaceNth l (f c) (heap w)) w)
           | None => (Err (ReferenceError "dangling object"), w)
           end.

(** A block of a dotted-quad: a non-empty run of decimal digits with a value
    of at most 255. *)
Definition validBlock (b : string) : bool :=
  (truthy b && allDigits b && (digitsValue 0 b <=? 255))%bool.

(** Modelled from the spec: [Util.isValidIPv4] (module [./Util], whose code is
    not available) accepts exactly the syntactically valid IPv4
    dotted-quads: four blocks separated by dots. *)
Definition isValidIPv4 (str : string) : bool :=
  let blocks := split "." str in
  (Nat.eqb (length blocks) 4 && forallb validBlock blocks)%bool.

(** ** The class [WireGuard] *)

Section WireGuard.

Variable env : Settings.

(** *** [__saveConfig]: rendering and writing *)

Definition interfaceSection (config : Config) : string :=
  LF ++ "# Note: Do not edit this file directly." ++ LF ++
  "# Your changes will be overwritten!" ++ LF ++
  LF ++
  "# Server" ++ LF ++
  "[Interface]" ++ LF ++
  "PrivateKey = " ++ s_privateKey (server config) ++ LF ++
  "Address = " ++ s_address (server config) ++ "/"
     ++ interp (s_cidrSubnet (server config)) ++ LF ++
  "ListenPort = " ++ WG_PORT env ++ LF ++
  "PreUp = " ++ WG_PRE_UP env ++ LF ++
  "PostUp = " ++ WG_POST_UP env ++ LF ++
  "PreDown = " ++ WG_PRE_DOWN env ++ LF ++
  "PostDown = " ++ WG_POST_DOWN env ++ LF.

Definition presharedKeyLine (client : Client) : string :=
  if truthyOpt (preSharedKey client)
  then "PresharedKey = " ++ interp (preSharedKey client) ++ LF
  else EmptyString.

Definition peerSection (clientId : string) (client : Client) : string :=
  LF ++ LF ++
  "# Client: " ++ name client ++ " (" ++ clientId ++ ")" ++ LF ++
  "[Peer]" ++ LF ++
  "PublicKey = " ++ publicKey client ++ LF ++
  presharedKeyLine client ++
  "AllowedIPs = " ++ address client ++ "/32".

(** The loop over [Object.entries(config.clients)]: [result +=] one section
    per entry, skipping ([continue]) the entries that are not enabled. *)
Fixpoint renderPeers (result : string) (entries : list (string * Client))
  : string :=
  match entries with
  | [] => result
  | (clientId, client) :: rest =>
      if negb (enabled client) then renderPeers result rest
      else renderPeers (result ++ peerSection clientId client) rest
  end.

(** The text written to [wg0.conf]. *)
Definition renderConfig (config : Config) : string :=
  renderPeers (interfaceSection config) (clients config).

Definition __saveConfig (config : loc) : M unit :=
  c <- deref config ;;
  let result := renderConfig c in
  writeJson c ;;;
  writeConf result.

Definition __syncConfig : M unit :=
  exec "wg syncconf wg0 <(wg-quick strip wg0)" ;;; ret tt.

(** *** [getConfig]: memoised loading or bootstrap *)

Definition deviceNotFound : string :=
  "Cannot find device " ++ DQUOTE ++ "wg0" ++ DQUOTE.

Definition kernelDiagnostic : string :=
  "WireGuard exited with the error: " ++ deviceNotFound ++ LF ++
  "This usually means that your host's kernel does not support WireGuard!".

(** The server address of a fresh configuration: the part of
    [WG_DEFAULT_ADDRESS] before the first slash, with index 3 of its
    dot-separated components set to ['1']. *)
Definition bootstrapAddress : string :=
  let ipAddress := hd EmptyString (split "/" (WG_DEFAULT_ADDRESS env)) in
  let tempAddress := map EStr (split "." ipAddress) in
  let tempAddress := assignIndex 3 (EStr "1") tempAddress in
  join "." tempAddress.

(** The [catch] branch of the loader.  The local [cidrSubnet] is computed
    from the address block but is not stored in the configuration. *)
Definition generateConfig : M Config :=
  privateKey <- exec "wg genkey" ;;
  publicKey <- exec ("echo " ++ privateKey ++ " | wg pubkey") ;;
  let subnetIp := nth_error (split "/" (WG_DEFAULT_ADDRESS env)) 1 in
  let address := bootstrapAddress in
  let cidrSubnet := subnetIp in
  ret {| server := {| s_privateKey := privateKey;
                      s_publicKey := publicKey;
                      s_address := address;
                      s_cidrSubnet := None |};
         clients := [] |}.

(** The body of the promise stored in [__configPromise]. *)
Definition loadConfig : M loc :=
  if negb (truthy (WG_HOST env))
  then throw (Error_ "WG_HOST Environment Variable Not Set!")
  else
    c <- catch readConfigFile (fun _ => generateConfig) ;;
    config <- alloc c ;;
    __saveConfig config ;;;
    catch (exec "wg-quick down wg0") (fun _ => ret EmptyString) ;;;
    catch (exec "wg-quick up wg0")
          (fun err =>
             if (truthy (message err) && includes deviceNotFound (message err))%bool
             then throw (Error_ kernelDiagnostic)
             else throw err) ;;;
    __syncConfig ;;;
    ret config.

Definition getConfig : M loc :=
  fun w =>
    match configPromise w with
    | Some r => (r, w)
    | None =>
        let (r, w') := loadConfig w in
        (r, set_configPromise (Some r) w')
    end.

Definition saveConfig : M unit :=
  config <- getConfig ;;
  __saveConfig config ;;;
  __syncConfig.

(** *** [getClients]: listing with the live status merged in *)

Inductive jsfield : Type :=
| Null
| Undefined
| Str (s : string).

Definition fieldOf (o : option string) : jsfield :=
  match o with None => Undefined | Some s => Str s end.

Record Entry : Type := {
  e_id : string;
  e_name : string;
  e_enabled : bool;
  e_address : string;
  e_publicKey : string;
  e_createdAt : jsdate;
  e_updatedAt : jsdate;
  e_allowedIPs : option string;
  e_downloadableConfig : bool;
  e_persistentKeepalive : jsfield;
  e_latestHandshakeAt : option jsdate;     (* [None] is [null] *)
  e_transferRx : option jsnum;
  e_transferTx : option jsnum
}.

Definition isSome {A} (o : option A) : bool :=
  match o with Some _ => true | None => false end.

(** The callback of [Object.entries(config.clients).map]. *)
Definition toEntry (kv : string * Client) : Entry :=
  let (clientId, client) := kv in
  {| e_id := clientId;
     e_name := name client;
     e_enabled := enabled client;
     e_address := address client;
     e_publicKey := publicKey client;
     e_createdAt := newDate (Int (createdAt client));
     e_updatedAt := newDate (Int (updatedAt client));
     e_allowedIPs := allowedIPs client;
     e_downloadableConfig := isSome (privateKey client);
     e_persistentKeepalive := Null;
     e_latestHandshakeAt := None;
     e_transferRx := None;
     e_transferTx := None |}.

(** [x === s] for a value that may be [undefined]. *)
Definition strictEq (x : option string) (s : string) : bool :=
  match x with
  | Some x' => String.eqb x' s
  | None => false
  end.

(** [latestHandshakeAt === '0' ? null : new Date(Number(`${latestHandshakeAt}000`))] *)
Definition handshakeOf (latestHandshakeAt : option string) : option jsdate :=
  if strictEq latestHandshakeAt "0" then None
  else Some (newDate (Number_ (interp latestHandshakeAt ++ "000"))).

(** The assignments made to the entry found for a dump line. *)
Definition mergeStatus (fields : list string) (client : Entry) : Entry :=
  {| e_id := e_id client;
     e_name := e_name client;
     e_enabled := e_enabled client;
     e_address := e_address client;
     e_publicKey := e_publicKey client;
     e_createdAt := e_createdAt client;
     e_updatedAt := e_updatedAt client;
     e_allowedIPs := e_allowedIPs client;
     e_downloadableConfig := e_downloadableConfig client;
     e_persistentKeepalive := fieldOf (nth_error fields 7);
     e_latestHandshakeAt := handshakeOf (nth_error fields 4);
     e_transferRx := Some (NumberOpt (nth_error fields 5));
     e_transferTx := Some (NumberOpt (nth_error fields 6)) |}.

(** [clients.find(p)] followed by assignments to the object found: the first
    entry satisfying [p] is updated in place, and nothing happens when there
    is none. *)
Fixpoint updateFound (p : Entry -> bool) (f : Entry -> Entry)
         (l : list Entry) : list Entry :=
  match l with
  | [] => []
  | e :: r => if p e then f e :: r else e :: updateFound p f r
  end.

(** The callback of [forEach] over the dump lines. *)
Definition mergeLine (clients : list Entry) (line : string) : list Entry :=
  let fields := split "009"%char line in
  let publicKey := hd EmptyString fields in
  updateFound (fun client => String.eqb (e_publicKey client) publicKey)
              (mergeStatus fields) clients.

(** [dump.trim().split('\n').slice(1)] *)
Definition dumpLines (dump : string) : list string :=
  tl (split "010"%char (trim dump)).

Definition mergeDump (clients : list Entry) (dump : string) : list Entry :=
  fold_left mergeLine (dumpLines dump) clients.

Definition getClients : M (list Entry) :=
  config <- getConfig ;;
  c <- deref config ;;
  let clients := map toEntry (clients c) in
  dump <- exec "wg show wg0 dump" ;;
  ret (mergeDump clients dump).

(** *** [getClient] and [getClientConfiguration] *)

(** What [config.clients[clientId]] can evaluate to, when it is not
    [undefined]: a stored peer (the object itself: the configuration object it
    belongs to, its key and its current content), a function of
    [Object.prototype], [Object.prototype] itself (through [__proto__]), or a
    value an earlier assignment has put on [Object.prototype]. *)
Inductive target : Type :=
| TStored (config : loc) (clientId : string) (client : Client)
| TFunction (member : string)
| TPrototype
| TDate (d : nat)
| TBoolean (b : bool)
| TString (s : string).

(** The property as [Object.prototype] provides it. *)
Definition inherited (rl : Realm) (k : string) : option target :=
  if existsb (String.eqb k) prototypeFunctions then Some (TFunction k)
  else if String.eqb k "__proto__" then Some TPrototype
  else if String.eqb k "enabled"
       then option_map TBoolean (o_enabled (prototypeProps rl))
  else if String.eqb k "updatedAt"
       then option_map TDate (o_updatedAt (prototypeProps rl))
  else if String.eqb k "name"
       then option_map TString (o_name (prototypeProps rl))
  else if String.eqb k "address"
       then option_map TString (o_address (prototypeProps rl))
  else None.

(** [config.clients[k]]: the own property when there is one, the inherited
    one otherwise. *)
Definition property (config : loc) (c : Config) (rl : Realm) (k : string)
  : option target :=
  match lookup k (clients c) with
  | Some client => Some (TStored config k client)
  | None => inherited rl k
  end.

(** Truthiness of such a value: objects and functions are truthy,
    [undefined], [false] and the empty string are not. *)
Definition truthyTarget (x : option target) : bool :=
  match x with
  | None => false
  | Some (TBoolean b) => b
  | Some (TString s) => truthy s
  | Some _ => true
  end.

Definition getRealm : M Realm := fun w => (Ok (realm w), w).

Definition modifyRealm (f : Realm -> Realm) : M unit :=
  fun w => (Ok tt, set_realm (f (realm w)) w).

Definition getClient (clientId : string) : M target :=
  config <- getConfig ;;
  c <- deref config ;;
  rl <- getRealm ;;
  let client := property config c rl clientId in
  if negb (truthyTarget client)
  then throw (ServerError ("Client Not Found: " ++ clientId) 404)
  else match client with
       | Some x => ret x
       | None => throw (ServerError ("Client Not Found: " ++ clientId) 404)
       end.

Fixpoint modify (k : string) (f : Client -> Client)
         (m : list (string * Client)) : list (string * Client) :=
  match m with
  | [] => []
  | (k', c) :: r =>
      if String.eqb k' k then (k', f c) :: r else (k', c) :: modify k f r
  end.

Definition writeClient (config : loc) (clientId : string)
           (f : Client -> Client) : M unit :=
  update config (fun c => set_clients (modify clientId f (clients c)) c).

(** An assignment [client.<field> = <value>] of one of the mutations. *)
Inductive field : Type :=
| FEnabled (b : bool)
| FUpdatedAt (t : Z)
| FName (n : string)
| FAddress (a : string).

Definition fieldName (f : field) : string :=
  match f with
  | FEnabled _ => "enabled"
  | FUpdatedAt _ => "updatedAt"
  | FName _ => "name"
  | FAddress _ => "address"
  end.

(** On a stored peer. *)
Definition setter (f : field) : Client -> Client :=
  match f with
  | FEnabled b => set_enabled b
  | FUpdatedAt t => set_updatedAt t
  | FName n => set_name n
  | FAddress a => set_address a
  end.

(** On an object outside the configuration; [date] is the index of the
    [Date] object that [new Date()] has just made. *)
Definition put (f : field) (date : nat) (p : Props) : Props :=
  match f with
  | FEnabled b =>
      {| o_enabled := Some b; o_updatedAt := o_updatedAt p;
         o_name := o_name p; o_address := o_address p |}
  | FUpdatedAt _ =>
      {| o_enabled := o_enabled p; o_updatedAt := Some date;
         o_name := o_name p; o_address := o_address p |}
  | FName n =>
      {| o_enabled := o_enabled p; o_updatedAt := o_updatedAt p;
         o_name := Some n; o_address := o_address p |}
  | FAddress a =>
      {| o_enabled := o_enabled p; o_updatedAt := o_updatedAt p;
         o_name := o_name p; o_address := Some a |}
  end.

Definition newDates (f : field) (rl : Realm) : list (Z * Props) :=
  match f with
  | FUpdatedAt t => dateObjects rl ++ [(t, noProps)]
  | _ => dateObjects rl
  end.

Definition propsOfFunction (rl : Realm) (member : string) : Props :=
  match find (fun kv => String.eqb (fst kv) member) (functionProps rl) with
  | Some kv => snd kv
  | None => noProps
  end.

Definition propsOfDate (rl : Realm) (d : nat) : Props :=
  snd (nth d (dateObjects rl) (0, noProps)).

Definition assignOutside (x : target) (f : field) (rl : Realm) : Realm :=
  let date := length (dateObjects rl) in
  match x with
  | TPrototype =>
      {| prototypeProps := put f date (prototypeProps rl);
         functionProps := functionProps rl;
         dateObjects := newDates f rl |}
  | TFunction member =>
      {| prototypeProps := prototypeProps rl;
         functionProps :=
           (member, put f date (propsOfFunction rl member))
             :: filter (fun kv => negb (String.eqb (fst kv) member))
                  (functionProps rl);
         dateObjects := newDates f rl |}
  | TDate d =>
      {| prototypeProps := prototypeProps rl;
         functionProps := functionProps rl;
         dateObjects :=
           replaceNth d (fst (nth d (dateObjects rl) (0, noProps)),
                         put f date (propsOfDate rl d))
             (newDates f rl) |}
  | _ => rl
  end.

(** The assignment itself, in strict mode: to a stored peer it changes the
    peer; to [Object.prototype], to one of its functions or to a [Date] it
    adds or replaces an own property of that object, except that the [name]
    of a function is read-only; a boolean or a string takes no property.
    The failures are [TypeError]s; their messages are worded as Node
    words them. *)
Definition assignField (x : target) (f : field) : M unit :=
  match x with
  | TStored config clientId _ => writeClient config clientId (setter f)
  | TPrototype => modifyRealm (assignOutside x f)
  | TDate _ => modifyRealm (assignOutside x f)
  | TFunction member =>
      match f with
      | FName _ =>
          throw (TypeError ("Cannot assign to read only property 'name' of "
                            ++ "function 'function " ++ functionName member
                            ++ "() { [native code] }'"))
      | _ => modifyRealm (assignOutside x f)
      end
  | TBoolean b =>
      throw (TypeError ("Cannot create property '" ++ fieldName f
                        ++ "' on boolean '"
                        ++ (if b then "true" else "false") ++ "'"))
  | TString s =>
      throw (TypeError ("Cannot create property '" ++ fieldName f
                        ++ "' on string '" ++ s ++ "'"))
  end.

(** Reading the properties the configuration text is made of.  Nothing
    outside the configuration has a [privateKey], a [cidrSubnet] or a
    [preSharedKey]; an [address] is the object's own or the one
    [Object.prototype] has been given. *)
Definition read_privateKey (x : target) : option string :=
  match x with
  | TStored _ _ client => privateKey client
  | _ => None
  end.

Definition read_cidrSubnet (x : target) : option string :=
  match x with
  | TStored _ _ client => cidrSubnet client
  | _ => None
  end.

Definition read_preSharedKey (x : target) : option string :=
  match x with
  | TStored _ _ client => preSharedKey client
  | _ => None
  end.

Definition orInherited (own : option string) (rl : Realm) : option string :=
  match own with
  | Some a => Some a
  | None => o_address (prototypeProps rl)
  end.

Definition read_address (rl : Realm) (x : target) : option string :=
  match x with
  | TStored _ _ client => Some (address client)
  | TPrototype => o_address (prototypeProps rl)
  | TFunction member => orInherited (o_address (propsOfFunction rl member)) rl
  | TDate d => orInherited (o_address (propsOfDate rl d)) rl
  | TBoolean _ | TString _ => o_address (prototypeProps rl)
  end.

(** The template of [getClientConfiguration], over the four properties it
    reads off the client. *)
Definition configurationText (c : Config)
           (privateKey_ address_ cidrSubnet_ preSharedKey_ : option string)
  : string :=
  LF ++ "[Interface]" ++ LF ++
  "PrivateKey = " ++ (if truthyOpt privateKey_ then interp privateKey_
                      else "REPLACE_ME") ++ LF ++
  "Address = " ++ interp address_ ++ "/" ++ interp cidrSubnet_ ++ LF ++
  (if truthy (WG_DEFAULT_DNS env)
   then "DNS = " ++ WG_DEFAULT_DNS env ++ LF else EmptyString) ++
  (if truthy (WG_MTU env)
   then "MTU = " ++ WG_MTU env ++ LF else EmptyString) ++
  LF ++ "[Peer]" ++ LF ++
  "PublicKey = " ++ s_publicKey (server c) ++ LF ++
  (if truthyOpt preSharedKey_
   then "PresharedKey = " ++ interp preSharedKey_ ++ LF
   else EmptyString) ++
  "AllowedIPs = " ++ WG_ALLOWED_IPS env ++ LF ++
  "PersistentKeepalive = " ++ WG_PERSISTENT_KEEPALIVE env ++ LF ++
  "Endpoint = " ++ WG_HOST env ++ ":" ++ WG_CONFIG_PORT env.

Definition privateKeyOrPlaceholder (client : Client) : string :=
  if truthyOpt (privateKey client) then interp (privateKey client)
  else "REPLACE_ME".

(** The text for a stored peer. *)
Definition clientConfiguration (c : Config) (client : Client) : string :=
  configurationText c (privateKey client) (Some (address client))
    (cidrSubnet client) (preSharedKey client).

Definition getClientConfiguration (clientId : string) : M string :=
  config <- getConfig ;;
  client <- getClient clientId ;;
  c <- deref config ;;
  rl <- getRealm ;;
  ret (configurationText c (read_privateKey client) (read_address rl client)
         (read_cidrSubnet client) (read_preSharedKey client)).

(** *** [createClient] *)

(** Reading [.address] off the result of [find], which is [undefined] when
    nothing was found. *)
Definition addressOf (client : option Client) : M string :=
  match client with
  | Some c => ret (address c)
  | None =>
      throw (TypeError "Cannot read properties of undefined (reading 'address')")
  end.

(** Reading a [const] of the enclosing function before its declaration has
    been evaluated. *)
Definition uninitialised {A} (x : string) : M A :=
  throw (ReferenceError ("Cannot access '" ++ x ++ "' before initialization")).

(** The callback of [find] in the scan: the stored address, with index 3 of
    its components replaced by the candidate, compared with itself. *)
Definition sameWithSuffix (i : Z) (client : Client) : bool :=
  let tempAddress := map EStr (split "." (address client)) in
  let tempAddress := assignIndex 3 (ENum i) tempAddress in
  String.eqb (address client) (join "." tempAddress).

(** [for (let i = 2; i < 255; i++)], one candidate per iteration. *)
Definition candidates : list Z := map Z.of_nat (seq 2 253).

Fixpoint nextAddress (values : list Client) (cands : list Z)
  : M (option string) :=
  match cands with
  | [] => ret None
  | i :: rest =>
      let client := find (sameWithSuffix i) values in
      if negb (isSome client) then
        a <- addressOf client ;;
        let tempAddress := map EStr (split "." a) in
        let tempAddress := assignIndex 3 (ENum i) tempAddress in
        ret (Some (join "." tempAddress))
      else nextAddress values rest
  end.

(** [if (!address) { ... }]: the block reads the function's own [client],
    which is declared further down. *)
Definition fallbackAddress (address_ : option string) : M string :=
  if negb (truthyOpt address_) then
    client <- uninitialised (A := Client) "client" ;;
    let tempAddress := map EStr (split "." (address client)) in
    let tempAddress :=
      assignIndex 2 (plusOne (parseInt (nth 2 tempAddress EHole))) tempAddress in
    ret (join "." tempAddress)
  else ret (interp address_).

Definition createClient (name_ : string) : M Client :=
  if negb (truthy name_) then throw (Error_ "Missing: Name")
  else
    config <- getConfig ;;
    privateKey_ <- exec "wg genkey" ;;
    publicKey_ <- exec ("echo " ++ privateKey_ ++ " | wg pubkey") ;;
    preSharedKey_ <- exec "wg genpsk" ;;
    c <- deref config ;;
    address_ <- nextAddress (map snd (clients c)) candidates ;;
    address_ <- fallbackAddress address_ ;;
    id_ <- randomUUID ;;
    created <- now ;;
    updated <- now ;;
    let client := {| id := id_; name := name_; address := address_;
                     privateKey := Some privateKey_;
                     publicKey := publicKey_;
                     preSharedKey := Some preSharedKey_;
                     createdAt := created; updatedAt := updated;
                     enabled := true;
                     allowedIPs := None; cidrSubnet := None |} in
    update config (fun c => set_clients (assign id_ client (clients c)) c) ;;;
    saveConfig ;;;
    ret client.

(** *** The mutations *)

(** [delete] of a property the object does not own changes nothing. *)
Definition deleteClient (clientId : string) : M unit :=
  config <- getConfig ;;
  c <- deref config ;;
  rl <- getRealm ;;
  if truthyTarget (property config c rl clientId) then
    update config (fun c => set_clients (remove clientId (clients c)) c) ;;;
    saveConfig
  else ret tt.

Definition enableClient (clientId : string) : M unit :=
  client <- getClient clientId ;;
  assignField client (FEnabled true) ;;;
  t <- now ;;
  assignField client (FUpdatedAt t) ;;;
  saveConfig.

Definition disableClient (clientId : string) : M unit :=
  client <- getClient clientId ;;
  assignField client (FEnabled false) ;;;
  t <- now ;;
  assignField client (FUpdatedAt t) ;;;
  saveConfig.

Definition updateClientName (clientId : string) (name_ : string) : M unit :=
  client <- getClient clientId ;;
  assignField client (FName name_) ;;;
  t <- now ;;
  assignField client (FUpdatedAt t) ;;;
  saveConfig.

Definition updateClientAddress (clientId : string) (address_ : string)
  : M unit :=
  client <- getClient clientId ;;
  if negb (isValidIPv4 address_)
  then throw (ServerError ("Invalid Address: " ++ address_) 400)
  else
    assignField client (FAddress address_) ;;;
    t <- now ;;
    assignField client (FUpdatedAt t) ;;;
    saveConfig.

Definition Shutdown : M unit :=
  catch (exec "wg-quick down wg0") (fun _ => ret EmptyString) ;;; ret tt.

End WireGuard.

(** *** [getClientQRCodeSVG] *)

Section QRCode.

Variable env : Settings.

(** [QRCode.toString(text, { type: 'svg', width: 512 })] of the [qrcode]
    package, which resolves to the picture or rejects: a parameter. *)
Variable toSVG : string -> result string.

Definition getClientQRCodeSVG (clientId : string) : M string :=
  config <- getClientConfiguration env clientId ;;
  fun w => (toSVG config, w).

End QRCode.

(** ** States *)

(** [loaded w config c]: the process has loaded its configuration; the
    memoised promise is resolved with the object [config], which currently
    holds [c]. *)
Definition loaded (w : World) (config : loc) (c : Config) : Prop :=
  configPromise w = Some (Ok config) /\ nth_error (heap w) config = Some c.

(** A value that is not a stored peer. *)
Definition outside (x : target) : bool :=
  match x with
  | TStored _ _ _ => false
  | _ => true
  end.

(** The environment lets every file write go through. *)
Definition writesSucceed (w : World) : Prop :=
  forall n file, writeOutcome w n file = None.

(** The environment lets a command succeed whenever it is run. *)
Definition commandSucceeds (w : World) (cmd : string) : Prop :=
  forall n, exists out, execOutcome w n cmd = Ok out.

(** Number of lines of a text that are exactly a given section header. *)
Definition sectionCount (header text : string) : nat :=
  length (filter (String.eqb header) (split "010"%char text)).

(** A string in which a given character does not occur. *)
Fixpoint lacks (ch : ascii) (s : string) : bool :=
  match s with
  | EmptyString => true
  | String c r => (negb (Ascii.eqb c ch) && lacks ch r)%bool
  end.

(** A value that fits on one line. *)
Definition singleLine (s : string) : bool := lacks "010"%char s.

(** A component of a dotted address block: no dot and no slash. *)
Definition plainComponent (s : string) : bool :=
  (lacks "." s && lacks "/" s)%bool.

(** What [getClients] can depend on: a stored peer with the values of its
    keys blanked, their presence kept. *)
Definition redact (kv : string * Client) : string * Client :=
  let (k, c) := kv in
  (k, {| id := id c; name := name c; address := address c;
         privateKey := option_map (fun _ => EmptyString) (privateKey c);
         publicKey := publicKey c;
         preSharedKey := option_map (fun _ => EmptyString) (preSharedKey c);
         createdAt := createdAt c; updatedAt := updatedAt c;
         enabled := enabled c;
         allowedIPs := allowedIPs c; cidrSubnet := cidrSubnet c |}).


(** Every candidate of the scan is the suffix of some stored address. *)
Definition allTaken (values : list Client) (cands : list Z) : bool :=
  forallb (fun i => isSome (find (sameWithSuffix i) values)) cands.

Definition scanError (values : list Client) : error :=
  if allTaken values candidates
  then ReferenceError "Cannot access 'client' before initialization"
  else TypeError "Cannot read properties of undefined (reading 'address')".

(** The effect of the two assignments and the time stamp that precede
    [saveConfig] in every mutation of a stored peer. *)
Definition touched (f : Client -> Client) (t : Z) (clientId : string)
           (c : Config) : Config :=
  set_clients (modify clientId (set_updatedAt t)
                 (modify clientId f (clients c))) c.

(** The values [__saveConfig] interpolates into the interface section, and
    into the section of a peer. *)
Definition interfaceValues (env : Settings) (c : Config) : list string :=
  [ s_privateKey (server c); s_address (server c);
    interp (s_cidrSubnet (server c)); WG_PORT env; WG_PRE_UP env;
    WG_POST_UP env; WG_PRE_DOWN env; WG_POST_DOWN env ].

Definition peerValues (kv : string * Client) : list string :=
  [ name (snd kv); fst kv; publicKey (snd kv);
    interp (preSharedKey (snd kv)); address (snd kv) ].

(** The interpolated values of the interface section and of the sections of
    the enabled peers all fit on one line. *)
Definition singleLineValues (env : Settings) (c : Config) : bool :=
  (forallb singleLine (interfaceValues env c)
   && forallb (fun kv => implb (enabled (snd kv))
                           (forallb singleLine (peerValues kv)))
        (clients c))%bool.

(** The daemon's text line by line, one directive per line: the interface
    section, then the section of each enabled peer. *)
Definition interfaceLines (env : Settings) (c : Config) : list string :=
  [ EmptyString;
    "# Note: Do not edit this file directly.";
    "# Your changes will be overwritten!";
    EmptyString;
    "# Server";
    "[Interface]";
    "PrivateKey = " ++ s_privateKey (server c);
    "Address = " ++ s_address (server c) ++ "/"
      ++ interp (s_cidrSubnet (server c));
    "ListenPort = " ++ WG_PORT env;
    "PreUp = " ++ WG_PRE_UP env;
    "PostUp = " ++ WG_POST_UP env;
    "PreDown = " ++ WG_PRE_DOWN env;
    "PostDown = " ++ WG_POST_DOWN env;
    EmptyString ].

Definition peerLines (kv : string * Client) : list string :=
  let psk := if truthyOpt (preSharedKey (snd kv))
             then ["PresharedKey = " ++ interp (preSharedKey (snd kv))]
             else [] in
  List.app
    [ EmptyString;
      "# Client: " ++ name (snd kv) ++ " (" ++ fst kv ++ ")";
      "[Peer]";
      "PublicKey = " ++ publicKey (snd kv) ]
    (List.app psk [ "AllowedIPs = " ++ address (snd kv) ++ "/32" ]).

Definition enabledPeers (c : Config) : list (string * Client) :=
  filter (fun kv => enabled (snd kv)) (clients c).

Definition renderedLines (env : Settings) (c : Config) : list string :=
  List.app (interfaceLines env c) (concat (map peerLines (enabledPeers c))).

(** The sections of the enabled entries, one after the other. *)
Definition peerSections (entries : list (string * Client)) : string :=
  fold_right append EmptyString
    (map (fun kv => peerSection (fst kv) (snd kv))
         (filter (fun kv => enabled (snd kv)) entries)).






(** The lines of a peer's configuration, one per directive. *)
Definition clientConfigurationLines (env : Settings) (c : Config)
           (client : Client) : list string :=
  let dns := if truthy (WG_DEFAULT_DNS env)
             then ["DNS = " ++ WG_DEFAULT_DNS env] else [] in
  let mtu := if truthy (WG_MTU env) then ["MTU = " ++ WG_MTU env] else [] in
  let psk := if truthyOpt (preSharedKey client)
             then ["PresharedKey = " ++ interp (preSharedKey client)]
             else [] in
  List.app
    [ EmptyString; "[Interface]";
      "PrivateKey = " ++ privateKeyOrPlaceholder client;
      "Address = " ++ address client ++ "/" ++ interp (cidrSubnet client) ]
    (List.app dns
       (List.app mtu
          (List.app
             [ EmptyString; "[Peer]";
               "PublicKey = " ++ s_publicKey (server c) ]
             (List.app psk
                [ "AllowedIPs = " ++ WG_ALLOWED_IPS env;
                  "PersistentKeepalive = " ++ WG_PERSISTENT_KEEPALIVE env;
                  "Endpoint = " ++ WG_HOST env ++ ":" ++ WG_CONFIG_PORT env ])))).

(** Lines put together with a line feed between them. *)
Fixpoint unlines (l : list string) : string :=
  match l with
  | [] => EmptyString
  | [x] => x
  | x :: r => x ++ LF ++ unlines r
  end.

(** A computation that never replaces a promise that is set. *)
Definition keeps {A} (m : M A) : Prop :=
  forall w r, configPromise w = Some r -> configPromise (snd (m w)) = Some r.

(** The operations a caller can invoke, and their effect on the world. *)
Inductive operation : Type :=
| OpGetConfig
| OpSaveConfig
| OpGetClients
| OpGetClient (clientId : string)
| OpGetClientConfiguration (clientId : string)
| OpCreateClient (name_ : string)
| OpDeleteClient (clientId : string)
| OpEnableClient (clientId : string)
| OpDisableClient (clientId : string)
| OpUpdateClientName (clientId name_ : string)
| OpUpdateClientAddress (clientId address_ : string)
| OpShutdown.

Definition run (env : Settings) (o : operation) (w : World) : World :=
  match o with
  | OpGetConfig => snd (getConfig env w)
  | OpSaveConfig => snd (saveConfig env w)
  | OpGetClients => snd (getClients env w)
  | OpGetClient i => snd (getClient env i w)
  | OpGetClientConfiguration i => snd (getClientConfiguration env i w)
  | OpCreateClient n => snd (createClient env n w)
  | OpDeleteClient i => snd (deleteClient env i w)
  | OpEnableClient i => snd (enableClient env i w)
  | OpDisableClient i => snd (disableClient env i w)
  | OpUpdateClientName i n => snd (updateClientName env i n w)
  | OpUpdateClientAddress i a => snd (updateClientAddress env i a w)
  | OpShutdown => snd (Shutdown w)
  end.

Definition runAll (env : Settings) (ops : list operation) (w : World) : World :=
  fold_left (fun w o => run env o w) ops w.

(** A new process started on the files and in the environment an earlier
    one leaves behind: no object in memory, no promise, and the built-in
    objects as new. *)
Definition restart (w : World) : World :=
  set_configPromise None (set_heap [] (set_realm pristine w)).

(** What no operation is meant to change in a stored peer. *)
Definition immutablePart (c : Client)
  : string * string * option string * option string * Z :=
  (id c, publicKey c, privateKey c, preSharedKey c, createdAt c).

(** [descends c0 c]: the configuration [c] can have come from [c0] by
    removing peers and editing the others: same server record, identifiers
    stored once, and every stored peer was stored in [c0] under the same
    identifier with the same keys and creation time. *)
Definition descends (c0 c : Config) : Prop :=
  server c = server c0 /\
  NoDup (map fst (clients c)) /\
  forall k cl,
    lookup k (clients c) = Some cl ->
    exists cl0,
      lookup k (clients c0) = Some cl0 /\
      immutablePart cl = immutablePart cl0.

(** [settled config n c0 w]: the promise is resolved with the object
    [config], the heap holds [n] objects, and the object at [config]
    descends from [c0]. *)
Definition settled (config : loc) (n : nat) (c0 : Config) (w : World) : Prop :=
  configPromise w = Some (Ok config) /\
  length (heap w) = n /\
  exists c, nth_error (heap w) config = Some c /\ descends c0 c.

(** A computation that keeps a property of the world. *)
Definition preserves {A} (I : World -> Prop) (m : M A) : Prop :=
  forall w, I w -> I (snd (m w)).

(** ** Sample inputs *)

Definition sampleSettings : Settings :=
  {| WG_PATH := "/etc/wireguard/"; WG_HOST := "vpn.example.org";
     WG_PORT := "51820"; WG_CONFIG_PORT := "51820"; WG_MTU := EmptyString;
     WG_DEFAULT_DNS := "1.1.1.1"; WG_DEFAULT_ADDRESS := "10.8.0.0/24";
     WG_PERSISTENT_KEEPALIVE := "0"; WG_ALLOWED_IPS := "0.0.0.0/0, ::/0";
     WG_PRE_UP := EmptyString; WG_POST_UP := "iptables -A FORWARD -i wg0 -j ACCEPT";
     WG_PRE_DOWN := EmptyString;
     WG_POST_DOWN := "iptables -D FORWARD -i wg0 -j ACCEPT" |}.

Definition sampleDump : string :=
  "PRIV" ++ TAB ++ "PUB" ++ TAB ++ "51820" ++ TAB ++ "off" ++ LF ++
  "PUB-1" ++ TAB ++ "PSK-1" ++ TAB ++ "192.0.2.7:4000" ++ TAB ++ "10.8.0.2/32"
    ++ TAB ++ "1690000000" ++ TAB ++ "12" ++ TAB ++ "34" ++ TAB ++ "off" ++ LF ++
  "PUB-2" ++ TAB ++ "PSK-2" ++ TAB ++ "(none)" ++ TAB ++ "10.8.0.3/32"
    ++ TAB ++ "0" ++ TAB ++ "0" ++ TAB ++ "0" ++ TAB ++ "off" ++ LF ++
  "PUB-9" ++ TAB ++ "PSK-9" ++ TAB ++ "(none)" ++ TAB ++ "10.8.0.9/32"
    ++ TAB ++ "1" ++ TAB ++ "5" ++ TAB ++ "6" ++ TAB ++ "off" ++ LF.

Definition sampleExec (n : nat) (cmd : string) : result string :=
  if String.eqb cmd "wg genkey" then Ok "PRIV"
  else if String.eqb cmd "wg genpsk" then Ok "PSK"
  else if String.prefix "echo " cmd then Ok "PUB"
  else if String.eqb cmd "wg show wg0 dump" then Ok (trim sampleDump)
  else Ok EmptyString.

(** A process that has not loaded anything, with no [wg0.json] on disk. *)
Definition freshWorld : World :=
  {| wg0_json := None; wg0_conf := None; heap := []; configPromise := None;
     realm := pristine; trace := []; execOutcome := sampleExec;
     writeOutcome := fun _ _ => None;
     clock := fun n => Z.of_nat n + 1700000000000;
     uuidSource := fun _ => "3f0c0c52-7d0e-4c6b-9d55-0b6a58a0a001" |}.

Definition alice : Client :=
  {| id := "id-1"; name := "alice"; address := "10.8.0.2";
     privateKey := Some "PRIV-1"; publicKey := "PUB-1";
     preSharedKey := Some "PSK-1"; createdAt := 1690000000000;
     updatedAt := 1690000000000; enabled := true;
     allowedIPs := None; cidrSubnet := None |}.

Definition bob : Client :=
  {| id := "id-2"; name := "bob"; address := "10.8.0.3";
     privateKey := None; publicKey := "PUB-2";
     preSharedKey := Some "PSK-2"; createdAt := 1690000000001;
     updatedAt := 1690000000002; enabled := false;
     allowedIPs := None; cidrSubnet := None |}.

Definition sampleConfig : Config :=
  {| server := {| s_privateKey := "PRIV"; s_publicKey := "PUB";
                  s_address := "10.8.0.1"; s_cidrSubnet := None |};
     clients := [("id-1", alice); ("id-2", bob)] |}.

(** A process that has loaded [sampleConfig]. *)
Definition sampleWorld : World :=
  {| wg0_json := Some sampleConfig; wg0_conf := None;
     heap := [sampleConfig]; configPromise := Some (Ok 0%nat);
     realm := pristine; trace := []; execOutcome := sampleExec;
     writeOutcome := fun _ _ => None;
     clock := fun n => Z.of_nat n + 1700000000000;
     uuidSource := fun _ => "3f0c0c52-7d0e-4c6b-9d55-0b6a58a0a001" |}.

(** The sample state with every key replaced by another one. *)
Definition rekey (kv : string * Client) : string * Client :=
  let (k, c) := kv in
  (k, {| id := id c; name := name c; address := address c;
         privateKey := option_map (fun p => "other-" ++ p) (privateKey c);
         publicKey := publicKey c;
         preSharedKey := option_map (fun p => "other-" ++ p) (preSharedKey c);
         createdAt := createdAt c; updatedAt := updatedAt c;
         enabled := enabled c;
         allowedIPs := allowedIPs c; cidrSubnet := cidrSubnet c |}).

Definition rekeyedConfig : Config :=
  {| server := server sampleConfig;
     clients := map rekey (clients sampleConfig) |}.

Definition rekeyedWorld : World :=
  {| wg0_json := Some rekeyedConfig; wg0_conf := None;
     heap := [rekeyedConfig]; configPromise := Some (Ok 0%nat);
     realm := pristine; trace := []; execOutcome := sampleExec;
     writeOutcome := fun _ _ => None;
     clock := fun n => Z.of_nat n + 1700000000000;
     uuidSource := fun _ => "3f0c0c52-7d0e-4c6b-9d55-0b6a58a0a001" |}.




(** A name that runs over several lines and spells out the section of
    bob, given to alice through [updateClientName]; and the configuration
    that results. *)
Definition smuggledName : string :=
  "alice" ++ peerSection "id-2" bob ++ LF ++ "# alice".

Definition renamedConfig : Config :=
  {| server := server sampleConfig;
     clients :=
       [ ("id-1",
          {| id := "id-1"; name := smuggledName; address := "10.8.0.2";
             privateKey := Some "PRIV-1"; publicKey := "PUB-1";
             preSharedKey := Some "PSK-1"; createdAt := 1690000000000;
             updatedAt := 1700000000000; enabled := true;
             allowedIPs := None; cidrSubnet := None |});
         ("id-2", bob) ] |}.

(** Variations of the sample process. *)
Definition sampleWorldWith (json : option Config) (objects : list Config)
           (promise : option (result loc))
           (commands : nat -> string -> result string)
           (writes : nat -> string -> option error) : World :=
  {| wg0_json := json; wg0_conf := None;
     heap := objects; configPromise := promise;
     realm := pristine; trace := []; execOutcome := commands;
     writeOutcome := writes;
     clock := fun n => Z.of_nat n + 1700000000000;
     uuidSource := fun _ => "3f0c0c52-7d0e-4c6b-9d55-0b6a58a0a001" |}.

(** The sample commands, one of which fails. *)
Definition sampleExecFailing (bad : string) (e : error)
           (n : nat) (cmd : string) : result string :=
  if String.eqb cmd bad then Err e else sampleExec n cmd.

(** A process that has not loaded anything, with [sampleConfig] on disk. *)
Definition storedWorld : World :=
  sampleWorldWith (Some sampleConfig) [] None sampleExec (fun _ _ => None).

Definition noHostSettings : Settings :=
  {| WG_PATH := "/etc/wireguard/"; WG_HOST := EmptyString;
     WG_PORT := "51820"; WG_CONFIG_PORT := "51820"; WG_MTU := EmptyString;
     WG_DEFAULT_DNS := "1.1.1.1"; WG_DEFAULT_ADDRESS := "10.8.0.0/24";
     WG_PERSISTENT_KEEPALIVE := "0"; WG_ALLOWED_IPS := "0.0.0.0/0, ::/0";
     WG_PRE_UP := EmptyString; WG_POST_UP := EmptyString;
     WG_PRE_DOWN := EmptyString; WG_POST_DOWN := EmptyString |}.

(** ** Basic facts about the monad and the memoised loader *)

Unset Implicit Arguments.

Section Facts.

Variable env : Settings.

Lemma getConfig_cached (w : World) (r : result loc) :
  configPromise w = Some r -> getConfig env w = (r, w).
Proof.
  intros H. unfold getConfig. rewrite H. reflexivity.
Qed.

Lemma getConfig_sets_promise (w : World) :
  configPromise (snd (getConfig env w)) = Some (fst (getConfig env w)).
Proof.
  unfold getConfig. destruct (configPromise w) as [r|] eqn:E.
  - simpl. exact E.
  - destruct (loadConfig env w) as [r w']. reflexivity.
Qed.

Lemma deref_loaded (w : World) (l : loc) (c : Config) :
  nth_error (heap w) l = Some c -> deref l w = (Ok c, w).
Proof.
  intros H. unfold deref. rewrite H. reflexivity.
Qed.

Lemma sampleWorld_loaded : loaded sampleWorld 0%nat sampleConfig.
Proof. split; reflexivity. Qed.

End Facts.

(** ** Creating a peer *)

Section CreateClient.

Variable env : Settings.

(** The scan never produces an address: an iteration whose [find] comes back
    empty reads a property of [undefined], and the others move on to the
    next candidate. *)
Lemma nextAddress_outcome (values : list Client) (cands : list Z) (w : World) :
  nextAddress values cands w =
    (if allTaken values cands then Ok None
     else Err (TypeError "Cannot read properties of undefined (reading 'address')"),
     w).
Proof.
  induction cands as [|i rest IH]; simpl.
  - reflexivity.
  - destruct (find (sameWithSuffix i) values) as [c|]; simpl.
    + exact IH.
    + reflexivity.
Qed.

Lemma fallbackAddress_None (w : World) :
  fallbackAddress None w =
    (Err (ReferenceError "Cannot access 'client' before initialization"), w).
Proof. reflexivity. Qed.

(** From the scan onwards, [createClient] can only throw. *)
Lemma scan_then_fallback_throws (values : list Client) (w : World) :
  (address_ <- nextAddress values candidates ;; fallbackAddress address_) w
  = (Err (scanError values), w).
Proof.
  unfold bind, scanError. rewrite nextAddress_outcome.
  destruct (allTaken values candidates).
  - apply fallbackAddress_None.
  - reflexivity.
Qed.

Lemma bind_assoc {A B C} (m : M A) (f : A -> M B) (g : B -> M C) (w : World) :
  bind (bind m f) g w = bind m (fun a => bind (f a) g) w.
Proof.
  unfold bind. destruct (m w) as [[a|e] w']; reflexivity.
Qed.

Lemma bind_throws {A B} (m : M A) (f : A -> M B) (w w' : World) (e : error) :
  m w = (Err e, w') -> bind m f w = (Err e, w').
Proof.
  intros H. unfold bind. rewrite H. reflexivity.
Qed.

Lemma createClient_run
      (w : World) (config : loc) (c : Config) (name_ : string) :
  loaded w config c ->
  exists e w',
    createClient env name_ w = (Err e, w') /\
    (heap w' = heap w /\ wg0_json w' = wg0_json w /\ wg0_conf w' = wg0_conf w) /\
    (truthy name_ = true ->
     (forall n cmd, exists out, execOutcome w n cmd = Ok out) ->
     e = scanError (map snd (clients c))).
Proof.
  intros [Hp Hh]. unfold createClient.
  destruct (truthy name_) eqn:Hn; cbv beta iota delta [negb].
  2:{ do 2 eexists. split; [reflexivity|]. split; [repeat split|]. discriminate. }
  unfold bind at 1. rewrite (getConfig_cached env w _ Hp).
  unfold bind at 1, exec at 1.
  destruct (execOutcome w (length (trace w)) "wg genkey") as [k1|e1] eqn:E1.
  2:{ do 2 eexists. split; [reflexivity|]. split; [repeat split|].
      intros _ Hall. destruct (Hall (length (trace w)) "wg genkey") as [o Ho].
      congruence. }
  set (w1 := log (EvExec "wg genkey") w).
  unfold bind at 1, exec at 1.
  destruct (execOutcome w1 (length (trace w1)) ("echo " ++ k1 ++ " | wg pubkey"))
    as [k2|e2] eqn:E2.
  2:{ do 2 eexists. split; [reflexivity|]. split; [repeat split|].
      intros _ Hall.
      destruct (Hall (length (trace w1)) ("echo " ++ k1 ++ " | wg pubkey"))
        as [o Ho].
      change (execOutcome w1) with (execOutcome w) in E2. congruence. }
  set (w2 := log (EvExec ("echo " ++ k1 ++ " | wg pubkey")) w1).
  unfold bind at 1, exec at 1.
  destruct (execOutcome w2 (length (trace w2)) "wg genpsk") as [k3|e3] eqn:E3.
  2:{ do 2 eexists. split; [reflexivity|]. split; [repeat split|].
      intros _ Hall.
      destruct (Hall (length (trace w2)) "wg genpsk") as [o Ho].
      change (execOutcome w2) with (execOutcome w) in E3. congruence. }
  set (w3 := log (EvExec "wg genpsk") w2).
  unfold bind at 1. rewrite (deref_loaded w3 config c) by exact Hh.
  rewrite <- bind_assoc.
  rewrite (bind_throws _ _ _ _ _
             (scan_then_fallback_throws (map snd (clients c)) w3)).
  do 2 eexists. split; [reflexivity|]. split; [repeat split|].
  reflexivity.
Qed.

(** C1 (as the code has it).  [createClient] never returns a peer, whatever
    the state and the name: with an empty name it rejects the request, and
    otherwise the address scan throws.  On a loaded state the stored
    collection and both files are left as they were: no peer is inserted,
    nothing is persisted.  When the name is not empty and the key commands succeed, the error is a [TypeError] raised at
    the first candidate of 2..254 that is not the suffix of a stored address
    (reading [client.address] with [client] undefined), or, when every
    candidate is taken, a [ReferenceError] in the fallback. *)
Theorem createClient_never_returns_a_peer
        (w : World) (config : loc) (c : Config) (name_ : string) :
  loaded w config c ->
  (exists e, fst (createClient env name_ w) = Err e) /\
  (heap (snd (createClient env name_ w)) = heap w /\
   wg0_json (snd (createClient env name_ w)) = wg0_json w /\
   wg0_conf (snd (createClient env name_ w)) = wg0_conf w) /\
  (truthy name_ = true ->
   (forall n cmd, exists out, execOutcome w n cmd = Ok out) ->
   fst (createClient env name_ w) = Err (scanError (map snd (clients c)))).
Proof.
  intros Hl.
  destruct (createClient_run w config c name_ Hl) as (e & w' & E & Hsame & Hty).
  rewrite E. simpl. split; [exists e; reflexivity|]. split; [exact Hsame|].
  intros H1 H2. rewrite (Hty H1 H2). reflexivity.
Qed.

End CreateClient.

Lemma sampleExec_succeeds (n : nat) (cmd : string) :
  exists out, sampleExec n cmd = Ok out.
Proof.
  unfold sampleExec.
  destruct (String.eqb cmd "wg genkey"); [eexists; reflexivity|].
  destruct (String.eqb cmd "wg genpsk"); [eexists; reflexivity|].
  destruct (String.prefix "echo " cmd); [eexists; reflexivity|].
  destruct (String.eqb cmd "wg show wg0 dump"); eexists; reflexivity.
Qed.

(** At a loaded state with two stored peers (suffixes 2 and 3) and every
    command succeeding, creating a peer named "carol" throws at candidate 4. *)
Lemma createClient_never_returns_a_peer_witness :
  loaded sampleWorld 0%nat sampleConfig /\
  heap (snd (createClient sampleSettings "carol" sampleWorld))
    = heap sampleWorld /\
  fst (createClient sampleSettings "carol" sampleWorld) =
    Err (TypeError "Cannot read properties of undefined (reading 'address')").
Proof.
  split; [exact sampleWorld_loaded|].
  destruct (createClient_never_returns_a_peer sampleSettings
              sampleWorld 0%nat sampleConfig "carol" sampleWorld_loaded)
    as (_ & (Hheap & _) & Herr).
  split; [exact Hheap|].
  apply Herr.
  - reflexivity.
  - exact sampleExec_succeeds.
Defined.

Section CreateClientEmptyName.

Variable env : Settings.

(** C7 (as the code has it).  With an empty name [createClient] throws a
    plain [Error] whose message is "Missing: Name"; the error carries no
    status code, and the world is exactly as before: the configuration is
    not loaded, no key is generated, nothing is inserted or written. *)
Theorem createClient_empty_name (w : World) :
  createClient env EmptyString w = (Err (Error_ "Missing: Name"), w) /\
  message (Error_ "Missing: Name") = "Missing: Name" /\
  statusCode (Error_ "Missing: Name") = None.
Proof. repeat split. Qed.

End CreateClientEmptyName.

(** C7, as stated, fails: the error thrown for an empty name has no
    machine-readable status. *)
Lemma createClient_empty_name_has_no_status :
  ~ (exists e code,
       fst (createClient sampleSettings EmptyString sampleWorld) = Err e /\
       statusCode e = Some code).
Proof.
  intros (e & code & He & Hc). simpl in He.
  injection He as <-. discriminate Hc.
Qed.

(** ** Looking a peer up *)

Section Lookup.

Variable env : Settings.

Lemma getClient_absent (w w1 : World) (config : loc) (c : Config)
      (clientId : string) :
  getConfig env w = (Ok config, w1) ->
  nth_error (heap w1) config = Some c ->
  lookup clientId (clients c) = None ->
  truthyTarget (inherited (realm w1) clientId) = false ->
  getClient env clientId w
  = (Err (ServerError ("Client Not Found: " ++ clientId) 404), w1).
Proof.
  intros Hg Hh Hl Hi. unfold getClient, bind at 1. rewrite Hg.
  unfold bind. rewrite (deref_loaded w1 config c Hh).
  unfold getRealm, property. rewrite Hl, Hi. reflexivity.
Qed.

Lemma getClient_present (w w1 : World) (config : loc) (c : Config)
      (clientId : string) (client : Client) :
  getConfig env w = (Ok config, w1) ->
  nth_error (heap w1) config = Some c ->
  lookup clientId (clients c) = Some client ->
  getClient env clientId w = (Ok (TStored config clientId client), w1).
Proof.
  intros Hg Hh Hl. unfold getClient, bind at 1. rewrite Hg.
  unfold bind. rewrite (deref_loaded w1 config c Hh).
  unfold getRealm, property. rewrite Hl. reflexivity.
Qed.

Lemma getClient_inherited (w w1 : World) (config : loc) (c : Config)
      (clientId : string) (x : target) :
  getConfig env w = (Ok config, w1) ->
  nth_error (heap w1) config = Some c ->
  lookup clientId (clients c) = None ->
  inherited (realm w1) clientId = Some x ->
  truthyTarget (Some x) = true ->
  getClient env clientId w = (Ok x, w1).
Proof.
  intros Hg Hh Hl Hi Ht. unfold getClient, bind at 1. rewrite Hg.
  unfold bind. rewrite (deref_loaded w1 config c Hh).
  unfold getRealm, property. rewrite Hl, Hi, Ht. reflexivity.
Qed.

Lemma inherited_function (rl : Realm) (k : string) :
  In k prototypeFunctions -> inherited rl k = Some (TFunction k).
Proof.
  intros H. unfold inherited.
  replace (existsb (String.eqb k) prototypeFunctions) with true; [reflexivity|].
  symmetry. apply existsb_exists. exists k. split; [exact H|].
  apply String.eqb_refl.
Qed.

(** C5.  The configuration (already loaded, or loaded by this very call)
    holds no peer under [clientId].  Unless [clientId] names a property with
    a truthy value that the collection inherits from [Object.prototype],
    [getClient] and every operation that starts with the same lookup throw
    [ServerError] with status 404, and the world is the one [getConfig] alone
    leaves: for a process that has already loaded its configuration, exactly
    the world before the call.  When [clientId] does name such a property,
    as the names of the functions of [Object.prototype] always do,
    [getClient] returns the inherited value instead of throwing, and
    [enableClient] goes on to assign to it and to save. *)
Theorem unknown_client_is_404
        (w w1 : World) (config : loc) (c : Config) (clientId : string) :
  getConfig env w = (Ok config, w1) ->
  nth_error (heap w1) config = Some c ->
  lookup clientId (clients c) = None ->
  let notFound := ServerError ("Client Not Found: " ++ clientId) 404 in
  statusCode notFound = Some 404 /\
  (truthyTarget (inherited (realm w1) clientId) = false ->
   getClient env clientId w = (Err notFound, w1) /\
   enableClient env clientId w = (Err notFound, w1) /\
   disableClient env clientId w = (Err notFound, w1) /\
   (forall name_, updateClientName env clientId name_ w = (Err notFound, w1)) /\
   (forall address_,
       updateClientAddress env clientId address_ w = (Err notFound, w1)) /\
   (configPromise w <> None -> w1 = w)) /\
  (forall x,
      inherited (realm w1) clientId = Some x ->
      truthyTarget (Some x) = true ->
      getClient env clientId w = (Ok x, w1) /\
      enableClient env clientId w
      = (assignField x (FEnabled true) ;;;
         t <- now ;;
         assignField x (FUpdatedAt t) ;;;
         saveConfig env) w1) /\
  (In clientId prototypeFunctions ->
   getClient env clientId w = (Ok (TFunction clientId), w1)).
Proof.
  intros Hg Hh Hl notFound.
  split; [reflexivity|]. split; [|split].
  - intros Hi.
    pose proof (getClient_absent w w1 config c clientId Hg Hh Hl Hi) as H.
    split; [exact H|].
    split; [unfold enableClient, bind; rewrite H; reflexivity|].
    split; [unfold disableClient, bind; rewrite H; reflexivity|].
    split; [intros n; unfold updateClientName, bind; rewrite H; reflexivity|].
    split; [intros a; unfold updateClientAddress, bind; rewrite H;
            reflexivity|].
    intros Hp. destruct (configPromise w) as [r|] eqn:E; [|congruence].
    rewrite (getConfig_cached env w _ E) in Hg. congruence.
  - intros x Hi Ht.
    pose proof (getClient_inherited w w1 config c clientId x Hg Hh Hl Hi Ht)
      as H.
    split; [exact H|].
    unfold enableClient, bind at 1. rewrite H. reflexivity.
  - intros Hin.
    apply (getClient_inherited w w1 config c clientId _ Hg Hh Hl
             (inherited_function _ _ Hin) eq_refl).
Qed.

End Lookup.

(** On the sample state: [id-7] is refused with 404 by all five operations
    and nothing changes; [constructor], under which nothing is stored
    either, is found, and [enableClient] returns normally after writing the
    daemon's file. *)
Lemma unknown_client_is_404_witness :
  lookup "id-7" (clients sampleConfig) = None /\
  getClient sampleSettings "id-7" sampleWorld
    = (Err (ServerError "Client Not Found: id-7" 404), sampleWorld) /\
  enableClient sampleSettings "id-7" sampleWorld
    = (Err (ServerError "Client Not Found: id-7" 404), sampleWorld) /\
  disableClient sampleSettings "id-7" sampleWorld
    = (Err (ServerError "Client Not Found: id-7" 404), sampleWorld) /\
  updateClientName sampleSettings "id-7" "dave" sampleWorld
    = (Err (ServerError "Client Not Found: id-7" 404), sampleWorld) /\
  updateClientAddress sampleSettings "id-7" "10.8.0.5" sampleWorld
    = (Err (ServerError "Client Not Found: id-7" 404), sampleWorld) /\
  lookup "constructor" (clients sampleConfig) = None /\
  getClient sampleSettings "constructor" sampleWorld
    = (Ok (TFunction "constructor"), sampleWorld) /\
  fst (enableClient sampleSettings "constructor" sampleWorld) = Ok tt /\
  wg0_conf (snd (enableClient sampleSettings "constructor" sampleWorld))
    = Some (renderConfig sampleSettings sampleConfig).
Proof.
  destruct (unknown_client_is_404 sampleSettings sampleWorld sampleWorld
              0%nat sampleConfig "id-7" eq_refl eq_refl eq_refl)
    as (_ & H & _).
  destruct (H eq_refl) as (H1 & H2 & H3 & H4 & H5 & _).
  destruct (unknown_client_is_404 sampleSettings sampleWorld sampleWorld
              0%nat sampleConfig "constructor" eq_refl eq_refl eq_refl)
    as (_ & _ & Hx & Hf).
  destruct (Hx (TFunction "constructor") eq_refl eq_refl) as [_ He].
  split; [reflexivity|].
  split; [exact H1|]. split; [exact H2|]. split; [exact H3|].
  split; [exact (H4 "dave")|]. split; [exact (H5 "10.8.0.5")|].
  split; [reflexivity|].
  split; [apply Hf; simpl; tauto|].
  rewrite He. split; reflexivity.
Defined.

(** ** Saving, and the mutations that end with it *)

Section Save.

Variable env : Settings.

Lemma nth_error_replaceNth {A} (l : list A) (n : nat) (x y : A) :
  nth_error l n = Some y -> nth_error (replaceNth n x l) n = Some x.
Proof.
  revert n. induction l as [|h t IH]; intros [|n] H; simpl in *;
    try discriminate; auto.
Qed.

Lemma replaceNth_twice {A} (l : list A) (n : nat) (x y : A) :
  replaceNth n y (replaceNth n x l) = replaceNth n y l.
Proof.
  revert n. induction l as [|h t IH]; intros [|n]; simpl; auto.
  now rewrite IH.
Qed.

Lemma lookup_modify_same (k : string) (f : Client -> Client)
      (m : list (string * Client)) :
  lookup k (modify k f m) = option_map f (lookup k m).
Proof.
  induction m as [|[k' c] r IH]; simpl; [reflexivity|].
  destruct (String.eqb k' k) eqn:E; simpl; rewrite E; auto.
Qed.

Lemma lookup_modify_other (k k' : string) (f : Client -> Client)
      (m : list (string * Client)) :
  k' <> k -> lookup k' (modify k f m) = lookup k' m.
Proof.
  intros Hne. induction m as [|[k0 c] r IH]; simpl; [reflexivity|].
  destruct (String.eqb k0 k) eqn:E; simpl.
  - destruct (String.eqb k0 k') eqn:E'; [|reflexivity].
    apply String.eqb_eq in E, E'. congruence.
  - now rewrite IH.
Qed.

Lemma modify_keys (k : string) (f : Client -> Client)
      (m : list (string * Client)) :
  map fst (modify k f m) = map fst m.
Proof.
  induction m as [|[k0 c] r IH]; simpl; [reflexivity|].
  destruct (String.eqb k0 k); simpl; congruence.
Qed.

(** [__saveConfig] and [__syncConfig] never touch the objects in memory. *)
Lemma saveConfig_heap (w : World) (config : loc) :
  configPromise w = Some (Ok config) ->
  exists r w',
    saveConfig env w = (r, w') /\
    heap w' = heap w /\ configPromise w' = configPromise w.
Proof.
  intros Hp. unfold saveConfig, bind at 1.
  rewrite (getConfig_cached env w _ Hp).
  unfold __saveConfig, __syncConfig, bind, deref, writeJson, writeConf, exec.
  destruct (nth_error (heap w) config) as [c|];
    [|do 2 eexists; repeat split].
  destruct (writeOutcome w (length (trace w)) "wg0.json"); simpl;
    [do 2 eexists; repeat split|].
  destruct (writeOutcome w (S (length (trace w))) "wg0.conf"); simpl;
    [do 2 eexists; repeat split|].
  destruct (execOutcome w _ _); do 2 eexists; repeat split.
Qed.

(** Nor the objects outside the configuration. *)
Lemma saveConfig_realm (w : World) (config : loc) :
  configPromise w = Some (Ok config) ->
  realm (snd (saveConfig env w)) = realm w.
Proof.
  intros Hp. unfold saveConfig, bind at 1.
  rewrite (getConfig_cached env w _ Hp).
  unfold __saveConfig, __syncConfig, bind, deref, writeJson, writeConf, exec.
  destruct (nth_error (heap w) config) as [c|]; [|reflexivity].
  destruct (writeOutcome w (length (trace w)) "wg0.json"); simpl;
    [reflexivity|].
  destruct (writeOutcome w (S (length (trace w))) "wg0.conf"); simpl;
    [reflexivity|].
  destruct (execOutcome w _ _); reflexivity.
Qed.

(** When the files can be written and the daemon accepts the new
    configuration, [saveConfig] returns and both files reflect the object in
    memory. *)
Lemma saveConfig_ok (w : World) (config : loc) (c : Config) :
  loaded w config c ->
  writesSucceed w ->
  commandSucceeds w "wg syncconf wg0 <(wg-quick strip wg0)" ->
  exists w',
    saveConfig env w = (Ok tt, w') /\
    wg0_json w' = Some c /\
    wg0_conf w' = Some (renderConfig env c).
Proof.
  intros [Hp Hh] Hw Hs. unfold saveConfig, bind at 1.
  rewrite (getConfig_cached env w _ Hp).
  unfold __saveConfig, __syncConfig, bind, deref, writeJson, writeConf, exec.
  rewrite Hh. rewrite Hw. simpl. rewrite Hw. simpl.
  destruct (Hs (S (S (length (trace w))))) as [out Ho]. rewrite Ho.
  eexists. repeat split.
Qed.

Lemma mutate_then_stamp (w : World) (config : loc) (c : Config)
      (clientId : string) (f : Client -> Client) (k : M unit) :
  nth_error (heap w) config = Some c ->
  (writeClient config clientId f ;;;
   t <- now ;;
   writeClient config clientId (set_updatedAt t) ;;;
   k) w
  = k (log EvNow
         (set_heap (replaceNth config
                      (touched f (clock w (length (trace w))) clientId c)
                      (heap w)) w)).
Proof.
  intros Hh. unfold bind, writeClient, update, now. rewrite Hh. simpl.
  rewrite (nth_error_replaceNth _ _ _ _ Hh). simpl.
  rewrite replaceNth_twice. reflexivity.
Qed.

(** C6.  For a stored peer, [updateClientAddress] rejects an address that is
    not a valid dotted-quad with a [ServerError] of status 400 and leaves the
    world untouched; for a valid one the stored object ends up with the new
    address, with [updatedAt] set to the current time and with every other
    field as it was, every other peer and the server record are as they
    were, and, when the files can be
    written and the daemon takes the new configuration, returns with both
    files rewritten from the updated object.  "999.1.1.1" is rejected and
    "10.8.0.5" accepted. *)
Theorem updateClientAddress_validates
        (w : World) (config : loc) (c : Config)
        (clientId : string) (client : Client) (address_ : string) :
  loaded w config c ->
  lookup clientId (clients c) = Some client ->
  (isValidIPv4 address_ = false ->
   updateClientAddress env clientId address_ w
   = (Err (ServerError ("Invalid Address: " ++ address_) 400), w) /\
   statusCode (ServerError ("Invalid Address: " ++ address_) 400) = Some 400) /\
  (isValidIPv4 address_ = true ->
   exists r w' c',
     updateClientAddress env clientId address_ w = (r, w') /\
     nth_error (heap w') config = Some c' /\
     lookup clientId (clients c')
     = Some {| id := id client; name := name client;
               address := address_;
               privateKey := privateKey client;
               publicKey := publicKey client;
               preSharedKey := preSharedKey client;
               createdAt := createdAt client;
               updatedAt := clock w (length (trace w));
               enabled := enabled client;
               allowedIPs := allowedIPs client;
               cidrSubnet := cidrSubnet client |} /\
     (forall k, k <> clientId -> lookup k (clients c') = lookup k (clients c)) /\
     map fst (clients c') = map fst (clients c) /\
     server c' = server c /\
     (writesSucceed w ->
      commandSucceeds w "wg syncconf wg0 <(wg-quick strip wg0)" ->
      r = Ok tt /\
      wg0_json w' = Some c' /\
      wg0_conf w' = Some (renderConfig env c'))) /\
  isValidIPv4 "999.1.1.1" = false /\
  isValidIPv4 "10.8.0.5" = true.
Proof.
  intros [Hp Hh] Hl.
  assert (Hg : getClient env clientId w
               = (Ok (TStored config clientId client), w)).
  { apply (getClient_present env w w config c clientId client); auto.
    apply getConfig_cached; exact Hp. }
  split; [|split; [|split; reflexivity]].
  - intros Hv. split; [|reflexivity].
    unfold updateClientAddress, bind. rewrite Hg, Hv. reflexivity.
  - intros Hv. unfold updateClientAddress, bind at 1. rewrite Hg, Hv.
    cbv beta iota delta [negb]. cbn [assignField setter].
    rewrite (mutate_then_stamp w config c clientId _ _ Hh).
    set (t := clock w (length (trace w))).
    set (c' := touched (set_address address_) t clientId c).
    set (w0 := log EvNow (set_heap (replaceNth config c' (heap w)) w)).
    assert (Hl0 : loaded w0 config c').
    { split; [exact Hp|]. apply (nth_error_replaceNth _ _ _ _ Hh). }
    destruct (saveConfig_heap w0 config Hp) as (r & w' & E & Hheap & _).
    exists r, w', c'. split; [exact E|].
    split; [rewrite Hheap; apply Hl0|].
    split.
    { unfold c', touched. simpl. rewrite !lookup_modify_same, Hl.
      reflexivity. }
    split.
    { intros k Hk. unfold c', touched. simpl.
      rewrite !lookup_modify_other by exact Hk. reflexivity. }
    split; [unfold c', touched; simpl; now rewrite !modify_keys|].
    split; [reflexivity|].
    intros Hw Hs.
    destruct (saveConfig_ok w0 config c' Hl0 Hw Hs) as (w'' & E' & Hj & Hc).
    rewrite E' in E. injection E as <- <-. auto.
Qed.

End Save.

Lemma sampleWorld_writesSucceed : writesSucceed sampleWorld.
Proof. intros n file. reflexivity. Qed.

Lemma sampleWorld_commandSucceeds (cmd : string) :
  commandSucceeds sampleWorld cmd.
Proof. intros n. apply sampleExec_succeeds. Qed.

(** On the sample state: "999.1.1.1" is refused for alice with status 400 and
    nothing changes; "10.8.0.5" is stored with a fresh time stamp. *)
Lemma updateClientAddress_validates_witness :
  loaded sampleWorld 0%nat sampleConfig /\
  lookup "id-1" (clients sampleConfig) = Some alice /\
  updateClientAddress sampleSettings "id-1" "999.1.1.1" sampleWorld
  = (Err (ServerError "Invalid Address: 999.1.1.1" 400), sampleWorld) /\
  exists w' c',
    updateClientAddress sampleSettings "id-1" "10.8.0.5" sampleWorld
    = (Ok tt, w') /\
    nth_error (heap w') 0%nat = Some c' /\
    lookup "id-1" (clients c')
    = Some {| id := "id-1"; name := "alice"; address := "10.8.0.5";
              privateKey := Some "PRIV-1"; publicKey := "PUB-1";
              preSharedKey := Some "PSK-1"; createdAt := 1690000000000;
              updatedAt := 1700000000000; enabled := true;
              allowedIPs := None; cidrSubnet := None |} /\
    wg0_json w' = Some c'.
Proof.
  split; [exact sampleWorld_loaded|]. split; [reflexivity|].
  destruct (updateClientAddress_validates sampleSettings sampleWorld 0%nat
              sampleConfig "id-1" alice "999.1.1.1"
              sampleWorld_loaded eq_refl) as ((Hbad & _) & _).
  { reflexivity. }
  split; [exact Hbad|].
  destruct (updateClientAddress_validates sampleSettings sampleWorld 0%nat
              sampleConfig "id-1" alice "10.8.0.5"
              sampleWorld_loaded eq_refl) as (_ & Hgood & _).
  destruct (Hgood eq_refl) as (r & w' & c' & E & Hh & Hl & _ & _ & _ & Hsave).
  destruct (Hsave sampleWorld_writesSucceed
                  (sampleWorld_commandSucceeds _)) as (Hr & Hj & _).
  exists w', c'. subst r. auto.
Defined.

(** ** Splitting and joining *)

Section Strings.

Lemma append_assoc (a b c : string) : ((a ++ b) ++ c = a ++ (b ++ c))%string.
Proof. induction a as [|x a IH]; simpl; [reflexivity|now rewrite IH]. Qed.

Lemma lacks_app (ch : ascii) (a b : string) :
  lacks ch (a ++ b) = (lacks ch a && lacks ch b)%bool.
Proof.
  induction a as [|x a IH]; simpl; [reflexivity|].
  rewrite IH. now rewrite andb_assoc.
Qed.

Lemma split_nonempty (sep : ascii) (s : string) : split sep s <> [].
Proof.
  destruct s as [|c r]; simpl; [discriminate|].
  destruct (Ascii.eqb c sep); [discriminate|].
  destruct (split sep r); discriminate.
Qed.

(** A string without the separator is a single piece. *)
Lemma split_lacks (sep : ascii) (s : string) :
  lacks sep s = true -> split sep s = [s].
Proof.
  induction s as [|c r IH]; simpl; [reflexivity|].
  intros H. apply andb_true_iff in H as [Hc Hr].
  apply negb_true_iff in Hc. rewrite Hc, (IH Hr). reflexivity.
Qed.

(** The first piece ends at the first separator. *)
Lemma split_cons (sep : ascii) (a rest : string) :
  lacks sep a = true ->
  split sep (a ++ String sep rest) = a :: split sep rest.
Proof.
  induction a as [|c r IH]; simpl.
  - intros _. now rewrite Ascii.eqb_refl.
  - intros H. apply andb_true_iff in H as [Hc Hr].
    apply negb_true_iff in Hc. rewrite Hc, (IH Hr). reflexivity.
Qed.

Lemma split_unlines (l : list string) :
  l <> [] -> forallb singleLine l = true -> split "010"%char (unlines l) = l.
Proof.
  induction l as [|x r IH]; [congruence|].
  intros _ H. simpl in H. apply andb_true_iff in H as [Hx Hr].
  destruct r as [|y r'].
  - simpl. apply split_lacks. exact Hx.
  - change (unlines (x :: y :: r'))
      with (x ++ String "010"%char (unlines (y :: r'))).
    rewrite (split_cons _ _ _ Hx). rewrite IH; [reflexivity|discriminate|exact Hr].
Qed.

Lemma unlines_app (l r : list string) :
  l <> [] -> r <> [] ->
  unlines (l ++ r) = (unlines l ++ LF ++ unlines r)%string.
Proof.
  intros Hl Hr. induction l as [|x l IH]; [congruence|].
  destruct l as [|y l'].
  - destruct r as [|z r']; [congruence|]. reflexivity.
  - change (unlines ((x :: y :: l') ++ r))
      with (x ++ LF ++ unlines ((y :: l') ++ r))%string.
    rewrite IH by discriminate.
    change (unlines (x :: y :: l')) with (x ++ LF ++ unlines (y :: l'))%string.
    now rewrite !append_assoc.
Qed.

End Strings.

(** ** Loading: bootstrap and memoisation *)

Section Loading.

Variable env : Settings.

(** The bootstrap address of a block [a.b.c.d/n] is [a.b.c.1]. *)
Lemma bootstrapAddress_dotted (a b c d n : string) :
  plainComponent a = true -> plainComponent b = true ->
  plainComponent c = true -> plainComponent d = true ->
  WG_DEFAULT_ADDRESS env = a ++ "." ++ b ++ "." ++ c ++ "." ++ d ++ "/" ++ n ->
  bootstrapAddress env = a ++ "." ++ b ++ "." ++ c ++ ".1".
Proof.
  unfold plainComponent. intros Ha Hb Hc Hd HW.
  apply andb_true_iff in Ha as [Ha Ha'], Hb as [Hb Hb'],
        Hc as [Hc Hc'], Hd as [Hd Hd'].
  unfold bootstrapAddress. rewrite HW.
  replace (a ++ "." ++ b ++ "." ++ c ++ "." ++ d ++ "/" ++ n)
    with ((a ++ "." ++ b ++ "." ++ c ++ "." ++ d) ++ String "/" n).
  2:{ rewrite !append_assoc. reflexivity. }
  rewrite split_cons.
  2:{ rewrite !lacks_app. simpl. now rewrite Ha', Hb', Hc', Hd'. }
  simpl hd.
  change (a ++ "." ++ b ++ "." ++ c ++ "." ++ d)
    with (a ++ String "." (b ++ String "." (c ++ String "." d))).
  rewrite !split_cons by assumption.
  rewrite (split_lacks _ _ Hd). reflexivity.
Qed.

Lemma keeps_ret {A} (a : A) : keeps (ret a).
Proof. intros w r H. exact H. Qed.

Lemma keeps_throw {A} (e : error) : keeps (throw (A := A) e).
Proof. intros w r H. exact H. Qed.

Lemma keeps_bind {A B} (m : M A) (f : A -> M B) :
  keeps m -> (forall a, keeps (f a)) -> keeps (bind m f).
Proof.
  intros Hm Hf w r Hp. unfold bind. specialize (Hm w r Hp).
  destruct (m w) as [[a|e] w']; simpl in Hm.
  - apply Hf. exact Hm.
  - exact Hm.
Qed.

Lemma keeps_catch {A} (m : M A) (h : error -> M A) :
  keeps m -> (forall e, keeps (h e)) -> keeps (catch m h).
Proof.
  intros Hm Hh w r Hp. unfold catch. specialize (Hm w r Hp).
  destruct (m w) as [[a|e] w']; simpl in Hm.
  - exact Hm.
  - apply Hh. exact Hm.
Qed.

Lemma keeps_exec (cmd : string) : keeps (exec cmd).
Proof. intros w r H. exact H. Qed.

Lemma keeps_now : keeps now.
Proof. intros w r H. exact H. Qed.

Lemma keeps_randomUUID : keeps randomUUID.
Proof. intros w r H. exact H. Qed.

Lemma keeps_readConfigFile : keeps readConfigFile.
Proof. intros w r H. exact H. Qed.

Lemma keeps_writeJson (c : Config) : keeps (writeJson c).
Proof.
  intros w r H. unfold writeJson. destruct (writeOutcome w _ _); exact H.
Qed.

Lemma keeps_writeConf (s : string) : keeps (writeConf s).
Proof.
  intros w r H. unfold writeConf. destruct (writeOutcome w _ _); exact H.
Qed.

Lemma keeps_alloc (c : Config) : keeps (alloc c).
Proof. intros w r H. exact H. Qed.

Lemma keeps_deref (l : loc) : keeps (deref l).
Proof.
  intros w r H. unfold deref. destruct (nth_error (heap w) l); exact H.
Qed.

Lemma keeps_update (l : loc) (f : Config -> Config) : keeps (update l f).
Proof.
  intros w r H. unfold update. destruct (nth_error (heap w) l); exact H.
Qed.

Lemma keeps_getConfig : keeps (getConfig env).
Proof.
  intros w r H. rewrite (getConfig_cached env w r H). exact H.
Qed.

Lemma keeps_uninitialised {A} (x : string) : keeps (uninitialised (A := A) x).
Proof. intros w r H. exact H. Qed.

Lemma keeps_getRealm : keeps getRealm.
Proof. intros w r H. exact H. Qed.

Lemma keeps_modifyRealm (f : Realm -> Realm) : keeps (modifyRealm f).
Proof. intros w r H. exact H. Qed.

Lemma keeps_assignField (x : target) (f : field) : keeps (assignField x f).
Proof.
  destruct x; try destruct f; cbn [assignField];
    first [ apply keeps_update | apply keeps_modifyRealm | apply keeps_throw ].
Qed.

Create HintDb keeps.
#[local] Hint Resolve keeps_ret keeps_throw keeps_exec keeps_now
  keeps_randomUUID keeps_readConfigFile keeps_writeJson keeps_writeConf
  keeps_alloc keeps_deref keeps_update keeps_getConfig keeps_uninitialised
  keeps_getRealm keeps_modifyRealm keeps_assignField
  : keeps.

Ltac keeps_step :=
  match goal with
  | |- forall _, _ => intro
  | |- keeps (bind _ _) => apply keeps_bind
  | |- keeps (catch _ _) => apply keeps_catch
  | |- keeps (if ?b then _ else _) => destruct b
  | |- keeps (match ?x with Some _ => _ | None => _ end) => destruct x
  | |- keeps _ => solve [auto with keeps]
  end.

Lemma keeps_saveConfig : keeps (saveConfig env).
Proof. unfold saveConfig, __saveConfig, __syncConfig. repeat keeps_step. Qed.

Lemma keeps_getClient (clientId : string) : keeps (getClient env clientId).
Proof. unfold getClient. repeat keeps_step. Qed.

Lemma keeps_nextAddress (values : list Client) (cands : list Z) :
  keeps (nextAddress values cands).
Proof.
  induction cands as [|i rest IH]; simpl; [auto with keeps|].
  destruct (find (sameWithSuffix i) values); simpl; [exact IH|].
  unfold addressOf. repeat keeps_step.
Qed.

#[local] Hint Resolve keeps_saveConfig keeps_getClient keeps_nextAddress
  : keeps.

(** No operation replaces the memoised promise. *)
Lemma run_keeps_promise (o : operation) (w : World) (r : result loc) :
  configPromise w = Some r -> configPromise (run env o w) = Some r.
Proof.
  revert w r. change (keeps (fun w => (Ok tt, run env o w))).
  assert (H : forall A (m : M A), keeps m -> keeps (fun w => (Ok tt, snd (m w)))).
  { intros A m Hm w r Hp. apply Hm. exact Hp. }
  destruct o; simpl; apply H.
  - auto with keeps.
  - auto with keeps.
  - unfold getClients. repeat keeps_step.
  - auto with keeps.
  - unfold getClientConfiguration. repeat keeps_step.
  - unfold createClient, fallbackAddress. repeat keeps_step.
  - unfold deleteClient. repeat keeps_step.
  - unfold enableClient. repeat keeps_step.
  - unfold disableClient. repeat keeps_step.
  - unfold updateClientName. repeat keeps_step.
  - unfold updateClientAddress. repeat keeps_step.
  - unfold Shutdown. repeat keeps_step.
Qed.

Lemma runAll_keeps_promise (ops : list operation) (w : World) (r : result loc) :
  configPromise w = Some r -> configPromise (runAll env ops w) = Some r.
Proof.
  revert w. induction ops as [|o ops IH]; intros w H; simpl; [exact H|].
  apply IH. apply run_keeps_promise. exact H.
Qed.

(** A second call returns what the first one returned, whatever happened in
    between, and does nothing: the world, its trace of file reads and
    commands included, is unchanged. *)
Lemma getConfig_memoised (w : World) (ops : list operation) :
  let w2 := runAll env ops (snd (getConfig env w)) in
  getConfig env w2 = (fst (getConfig env w), w2).
Proof.
  intros w2. apply getConfig_cached. unfold w2.
  apply runAll_keeps_promise. apply getConfig_sets_promise.
Qed.

(** The bootstrap: with no readable [wg0.json], a host name configured, the
    daemon's commands succeeding and the files writable, the loader builds a
    configuration with the generated keys, the bootstrap address and no
    peers, and resolves the promise with it. *)
Lemma getConfig_bootstrap (w : World) :
  configPromise w = None ->
  wg0_json w = None ->
  truthy (WG_HOST env) = true ->
  (forall n cmd, cmd <> "wg-quick down wg0" ->
                 exists out, execOutcome w n cmd = Ok out) ->
  writesSucceed w ->
  exists config w1 privateKey_ publicKey_,
    getConfig env w = (Ok config, w1) /\
    loaded w1 config
           {| server := {| s_privateKey := privateKey_;
                           s_publicKey := publicKey_;
                           s_address := bootstrapAddress env;
                           s_cidrSubnet := None |};
              clients := [] |} /\
    wg0_conf w1
    = Some (renderConfig env
              {| server := {| s_privateKey := privateKey_;
                              s_publicKey := publicKey_;
                              s_address := bootstrapAddress env;
                              s_cidrSubnet := None |};
                 clients := [] |}).
Proof.
  intros Hp Hj Hhost Hx Hw.
  unfold getConfig. rewrite Hp. unfold loadConfig. rewrite Hhost.
  cbv beta iota delta [negb].
  unfold bind at 1, catch at 1, readConfigFile. rewrite Hj.
  unfold generateConfig, bind at 1, exec at 1.
  destruct (Hx (length (trace (log (EvReadFile "wg0.json") w))) "wg genkey")
    as [k1 E1]; [discriminate|].
  change (execOutcome (log (EvReadFile "wg0.json") w)) with (execOutcome w).
  rewrite E1.
  unfold bind at 1, exec at 1.
  match goal with
  | |- context [execOutcome ?w0 ?n ("echo " ++ k1 ++ " | wg pubkey")] =>
      destruct (Hx n ("echo " ++ k1 ++ " | wg pubkey")) as [k2 E2];
      [discriminate|];
      change (execOutcome w0) with (execOutcome w); rewrite E2
  end.
  unfold ret at 1.
  unfold bind at 1, alloc at 1.
  unfold bind at 1, __saveConfig, bind at 1, deref.
  match goal with
  | |- context [nth_error (heap ?w0) (length (heap ?w1))] =>
      replace (nth_error (heap w0) (length (heap w1)))
        with (Some {| server := {| s_privateKey := k1; s_publicKey := k2;
                                   s_address := bootstrapAddress env;
                                   s_cidrSubnet := None |};
                      clients := [] |})
  end.
  2:{ simpl. rewrite nth_error_app2 by lia. now rewrite Nat.sub_diag. }
  unfold bind at 1, writeJson.
  cbn [writeOutcome log set_json set_conf set_heap trace length].
  rewrite Hw.
  unfold writeConf.
  cbn [writeOutcome log set_json set_conf set_heap trace length].
  rewrite Hw.
  unfold bind at 1, catch at 1, exec at 1.
  cbn [execOutcome log set_json set_conf set_heap trace length heap].
  destruct (execOutcome w _ "wg-quick down wg0") as [o|e];
    unfold ret at 1;
    unfold bind at 1, catch at 1, exec at 1;
    cbn [execOutcome log set_json set_conf set_heap trace length heap];
    (match goal with
     | |- context [execOutcome w ?n "wg-quick up wg0"] =>
         destruct (Hx n "wg-quick up wg0") as [k3 E3]; [discriminate|];
         rewrite E3
     end);
    unfold __syncConfig, bind, exec, ret;
    cbn [execOutcome log set_json set_conf set_heap trace length heap];
    (match goal with
     | |- context [execOutcome w ?n "wg syncconf wg0 <(wg-quick strip wg0)"] =>
         destruct (Hx n "wg syncconf wg0 <(wg-quick strip wg0)") as [k4 E4];
         [discriminate|];
         rewrite E4
     end);
    exists (length (heap w)); eexists; exists k1, k2;
    (split; [reflexivity|]); (split; [|reflexivity]);
    (split; [reflexivity|]);
    simpl; rewrite nth_error_app2 by lia; now rewrite Nat.sub_diag.
Qed.

(** C2.  With no readable [wg0.json] (and a host name configured, the
    daemon's commands succeeding, the files writable), [getConfig] resolves
    with a new object whose server address is the host address [a.b.c.d] of
    the default block [a.b.c.d/n] with its last component replaced by 1, and
    whose peer collection is empty.  And in every process, whatever the
    first call returned and whatever operations ran since, a later call
    returns the same result, the same object, and leaves the world as it
    is: the file is not read again. *)
Theorem getConfig_bootstraps_once (w : World) (a b c d n : string) :
  (configPromise w = None ->
   wg0_json w = None ->
   truthy (WG_HOST env) = true ->
   (forall k cmd, cmd <> "wg-quick down wg0" ->
                  exists out, execOutcome w k cmd = Ok out) ->
   writesSucceed w ->
   plainComponent a = true -> plainComponent b = true ->
   plainComponent c = true -> plainComponent d = true ->
   WG_DEFAULT_ADDRESS env = a ++ "." ++ b ++ "." ++ c ++ "." ++ d ++ "/" ++ n ->
   exists config w1 cfg,
     getConfig env w = (Ok config, w1) /\
     loaded w1 config cfg /\
     s_address (server cfg) = a ++ "." ++ b ++ "." ++ c ++ ".1" /\
     clients cfg = []) /\
  (forall ops,
      let w2 := runAll env ops (snd (getConfig env w)) in
      getConfig env w2 = (fst (getConfig env w), w2) /\
      trace (snd (getConfig env w2)) = trace w2).
Proof.
  split.
  - intros Hp Hj Hhost Hx Hw Ha Hb Hc Hd HW.
    destruct (getConfig_bootstrap w Hp Hj Hhost Hx Hw)
      as (config & w1 & k1 & k2 & E & Hl & _).
    exists config, w1. eexists. split; [exact E|]. split; [exact Hl|].
    split; [|reflexivity]. simpl.
    apply (bootstrapAddress_dotted a b c d n); assumption.
  - intros ops w2. pose proof (getConfig_memoised w ops) as H.
    fold w2 in H. cbv zeta in H. rewrite H. split; reflexivity.
Qed.

End Loading.

Lemma sampleExec_succeeds_but (n : nat) (cmd : string) :
  cmd <> "wg-quick down wg0" -> exists out, sampleExec n cmd = Ok out.
Proof. intros _. apply sampleExec_succeeds. Qed.

(** A first start with the default block 10.8.0.0/24: the server gets
    10.8.0.1, there are no peers, and a second call after listing the peers
    returns the same object without another read. *)
Lemma getConfig_bootstraps_once_witness :
  exists config w1 cfg,
    getConfig sampleSettings freshWorld = (Ok config, w1) /\
    loaded w1 config cfg /\
    s_address (server cfg) = "10.8.0.1" /\
    clients cfg = [] /\
    getConfig sampleSettings (runAll sampleSettings [OpGetClients] w1)
    = (Ok config, runAll sampleSettings [OpGetClients] w1).
Proof.
  destruct (getConfig_bootstraps_once sampleSettings freshWorld
              "10" "8" "0" "0" "24") as [Hboot Hmemo].
  destruct (Hboot eq_refl eq_refl eq_refl sampleExec_succeeds_but
                  (fun _ _ => eq_refl) eq_refl eq_refl eq_refl eq_refl eq_refl)
    as (config & w1 & cfg & E & Hl & Ha & Hc).
  exists config, w1, cfg. split; [exact E|]. split; [exact Hl|].
  split; [exact Ha|]. split; [exact Hc|].
  destruct (Hmemo [OpGetClients]) as [H _]. rewrite E in H. exact H.
Defined.

(** ** Rendering the daemon's configuration, and listing the peers *)

Section Rendering.

Variable env : Settings.

Lemma append_nil_r (s : string) : (s ++ EmptyString)%string = s.
Proof. induction s as [|c s IH]; simpl; [reflexivity|now rewrite IH]. Qed.

(** The loop appends, to what it was given, the sections of the enabled
    entries in their order. *)
Lemma renderPeers_sections (result : string) (entries : list (string * Client)) :
  renderPeers result entries = result ++ peerSections entries.
Proof.
  revert result. induction entries as [|[k c] r IH]; intros result; simpl.
  - unfold peerSections. simpl. now rewrite append_nil_r.
  - unfold peerSections. simpl. destruct (enabled c); simpl.
    + rewrite IH. unfold peerSections. now rewrite append_assoc.
    + apply IH.
Qed.

(** Deleting a disabled peer changes nothing in the rendered sections. *)
Lemma peerSections_remove_disabled (k : string) (client : Client)
      (entries : list (string * Client)) :
  lookup k entries = Some client -> enabled client = false ->
  peerSections (remove k entries) = peerSections entries.
Proof.
  induction entries as [|[k' c'] r IH]; simpl; [discriminate|].
  intros Hl Hd. destruct (String.eqb k' k).
  - injection Hl as ->. unfold peerSections. simpl. now rewrite Hd.
  - unfold peerSections in *. simpl.
    destruct (enabled c'); simpl; now rewrite (IH Hl Hd).
Qed.

Lemma updateFound_map {B} (g : Entry -> B) (p : Entry -> bool)
      (f : Entry -> Entry) (l : list Entry) :
  (forall e, g (f e) = g e) -> map g (updateFound p f l) = map g l.
Proof.
  intros Hg. induction l as [|e r IH]; simpl; [reflexivity|].
  destruct (p e); simpl; [now rewrite Hg|now rewrite IH].
Qed.

(** Merging the live status changes neither which entries there are, nor
    their identity, nor whether they are enabled. *)
Lemma mergeDump_keeps {B} (g : Entry -> B) (dump : string) (l : list Entry) :
  (forall fields e, g (mergeStatus fields e) = g e) ->
  map g (mergeDump l dump) = map g l.
Proof.
  intros Hg. unfold mergeDump. generalize (dumpLines dump) as lines.
  intros lines. revert l. induction lines as [|line lines IH]; intros l; simpl.
  - reflexivity.
  - rewrite IH. unfold mergeLine. apply updateFound_map. intros e. apply Hg.
Qed.

Lemma getClients_run (w : World) (config : loc) (c : Config) (dump : string) :
  loaded w config c ->
  execOutcome w (length (trace w)) "wg show wg0 dump" = Ok dump ->
  getClients env w
  = (Ok (mergeDump (map toEntry (clients c)) dump),
     log (EvExec "wg show wg0 dump") w).
Proof.
  intros [Hp Hh] Hd. unfold getClients, bind at 1.
  rewrite (getConfig_cached env w _ Hp).
  unfold bind at 1. rewrite (deref_loaded w config c Hh).
  unfold bind, exec. rewrite Hd. reflexivity.
Qed.

(** The daemon's text, line by line. *)
Lemma interfaceSection_lines (c : Config) :
  interfaceSection env c = unlines (interfaceLines env c).
Proof.
  unfold interfaceSection, interfaceLines. cbn [unlines]. unfold LF.
  rewrite ?append_assoc. reflexivity.
Qed.

Lemma peerSection_lines (k : string) (client : Client) :
  peerSection k client = (LF ++ unlines (peerLines (k, client)))%string.
Proof.
  unfold peerSection, peerLines, presharedKeyLine. cbn [fst snd].
  destruct (truthyOpt (preSharedKey client));
    cbn [app unlines]; unfold LF; rewrite ?append_assoc; reflexivity.
Qed.

Lemma peerLines_nonempty (kv : string * Client) : peerLines kv <> [].
Proof. discriminate. Qed.

Lemma peerSections_lines (l : list string) (entries : list (string * Client)) :
  l <> [] ->
  (unlines l ++ peerSections entries)%string
  = unlines (l ++ concat (map peerLines
                            (filter (fun kv => enabled (snd kv)) entries))).
Proof.
  revert l. induction entries as [|[k client] r IH]; intros l Hl.
  - unfold peerSections. cbn. now rewrite append_nil_r, app_nil_r.
  - unfold peerSections in *. cbn [filter snd].
    destruct (enabled client); [|now apply IH].
    cbn [map fold_right concat fst snd].
    rewrite <- append_assoc, peerSection_lines.
    rewrite <- (unlines_app l (peerLines (k, client)) Hl
                  (peerLines_nonempty _)).
    rewrite IH.
    + now rewrite <- app_assoc.
    + destruct l; [congruence|discriminate].
Qed.

Lemma renderConfig_lines (c : Config) :
  renderConfig env c = unlines (renderedLines env c).
Proof.
  unfold renderConfig, renderedLines, enabledPeers.
  rewrite renderPeers_sections, interfaceSection_lines.
  apply peerSections_lines. discriminate.
Qed.

(** When the values fit on one line each, so do the lines. *)
Lemma interfaceLines_single (c : Config) :
  forallb singleLine (interfaceValues env c) = true ->
  forallb singleLine (interfaceLines env c) = true.
Proof.
  unfold interfaceValues, interfaceLines, singleLine.
  cbn [forallb]. intros H.
  repeat (apply andb_true_iff in H as [? H]).
  rewrite ?lacks_app;
    repeat match goal with
           | Hv : lacks _ ?v = true |- context [lacks _ ?v] => rewrite Hv
           end;
    reflexivity.
Qed.

Lemma peerLines_single (kv : string * Client) :
  forallb singleLine (peerValues kv) = true ->
  forallb singleLine (peerLines kv) = true.
Proof.
  unfold peerValues, peerLines, singleLine.
  cbn [forallb]. intros H.
  repeat (apply andb_true_iff in H as [? H]).
  destruct (truthyOpt (preSharedKey (snd kv)));
    cbn [app forallb]; rewrite ?lacks_app;
    repeat match goal with
           | Hv : lacks _ ?v = true |- context [lacks _ ?v] => rewrite Hv
           end;
    reflexivity.
Qed.

Lemma renderedLines_single (c : Config) :
  singleLineValues env c = true ->
  forallb singleLine (renderedLines env c) = true.
Proof.
  unfold singleLineValues, renderedLines, enabledPeers.
  intros H. apply andb_true_iff in H as [Hi Hp].
  rewrite forallb_app, (interfaceLines_single c Hi). cbn [andb].
  induction (clients c) as [|kv r IH]; [reflexivity|].
  cbn [forallb] in Hp. apply andb_true_iff in Hp as [Hkv Hr].
  cbn [filter]. destruct (enabled (snd kv)); [|now apply IH].
  cbn [map concat]. rewrite forallb_app, (IH Hr).
  now rewrite (peerLines_single kv Hkv).
Qed.

(** Each section has one line [[Peer]], the interface section none. *)
Lemma peerLines_count (kv : string * Client) :
  length (filter (String.eqb "[Peer]") (peerLines kv)) = 1%nat.
Proof.
  unfold peerLines. destruct (truthyOpt (preSharedKey (snd kv))); reflexivity.
Qed.

Lemma renderedLines_count (c : Config) :
  length (filter (String.eqb "[Peer]") (renderedLines env c))
  = length (enabledPeers c).
Proof.
  unfold renderedLines. rewrite filter_app, length_app.
  change (length (filter (String.eqb "[Peer]") (interfaceLines env c)))
    with 0%nat.
  cbn [Nat.add]. induction (enabledPeers c) as [|kv r IH]; [reflexivity|].
  cbn [map concat]. rewrite filter_app, length_app, peerLines_count, IH.
  reflexivity.
Qed.

(** The [PublicKey] lines are those of the enabled peers. *)
Lemma renderedLines_publicKeys (c : Config) (pk : string) :
  In ("PublicKey = " ++ pk) (renderedLines env c) <->
  exists kv, In kv (clients c) /\ enabled (snd kv) = true /\
             publicKey (snd kv) = pk.
Proof.
  unfold renderedLines, enabledPeers. split.
  - intros H. apply in_app_or in H as [H|H].
    + unfold interfaceLines in H. cbn [In append] in H.
      repeat (destruct H as [H|H]; [discriminate H|]). destruct H.
    + apply in_concat in H as (l & Hl & Hin).
      apply in_map_iff in Hl as (kv & <- & Hkv).
      apply filter_In in Hkv as [Hkv He].
      exists kv. split; [exact Hkv|]. split; [exact He|].
      unfold peerLines in Hin.
      destruct (truthyOpt (preSharedKey (snd kv)));
        cbn [app In append] in Hin;
        repeat (destruct Hin as [Hin|Hin];
                [first [discriminate Hin | now injection Hin]|]);
        destruct Hin.
  - intros (kv & Hkv & He & <-). apply in_or_app. right.
    apply in_concat. exists (peerLines kv). split.
    + apply in_map. apply filter_In. auto.
    + unfold peerLines. cbn [app In]. auto.
Qed.

(** C3, as amended.  In every state the text [__saveConfig] writes to
    [wg0.conf] is the interface section followed by the sections of the
    enabled peers only, in their stored order, so that deleting a disabled
    peer would leave the text unchanged.  When the values interpolated into
    the interface section and into the sections of the enabled peers
    contain no line break, the lines of the text are those of the interface
    section followed by those of one section per enabled peer, and the
    number of [[Peer]] lines is the number of enabled peers, and the
    [PublicKey] lines name the keys of the enabled peers and no other: a
    disabled peer has no section.  [getClients] returns one entry per
    stored peer, enabled or not, in the stored order. *)
Theorem disabled_peers_not_rendered_but_listed
        (w : World) (config : loc) (c : Config) :
  loaded w config c ->
  renderConfig env c
  = interfaceSection env c
    ++ fold_right append EmptyString
         (map (fun kv => peerSection (fst kv) (snd kv))
              (filter (fun kv => enabled (snd kv)) (clients c))) /\
  (forall k client,
      lookup k (clients c) = Some client -> enabled client = false ->
      renderConfig env (set_clients (remove k (clients c)) c)
      = renderConfig env c) /\
  (singleLineValues env c = true ->
   split "010"%char (renderConfig env c)
   = List.app (interfaceLines env c)
       (concat (map peerLines
                  (filter (fun kv => enabled (snd kv)) (clients c)))) /\
   sectionCount "[Peer]" (renderConfig env c)
   = length (filter (fun kv => enabled (snd kv)) (clients c)) /\
   (forall pk,
       In ("PublicKey = " ++ pk) (split "010"%char (renderConfig env c)) <->
       exists kv, In kv (clients c) /\ enabled (snd kv) = true /\
                  publicKey (snd kv) = pk)) /\
  (writesSucceed w ->
   fst (__saveConfig env config w) = Ok tt /\
   wg0_conf (snd (__saveConfig env config w)) = Some (renderConfig env c)) /\
  (forall dump,
      execOutcome w (length (trace w)) "wg show wg0 dump" = Ok dump ->
      exists entries w',
        getClients env w = (Ok entries, w') /\
        map e_id entries = map fst (clients c) /\
        map e_enabled entries = map (fun kv => enabled (snd kv)) (clients c)).
Proof.
  intros Hl. split; [|split; [|split; [|split]]].
  - unfold renderConfig. apply renderPeers_sections.
  - intros k client Hk Hd. unfold renderConfig. simpl.
    rewrite !renderPeers_sections.
    now rewrite (peerSections_remove_disabled k client _ Hk Hd).
  - intros Hv.
    assert (E : split "010"%char (renderConfig env c) = renderedLines env c).
    { rewrite renderConfig_lines. apply split_unlines.
      - discriminate.
      - now apply renderedLines_single. }
    split; [exact E|]. split.
    + unfold sectionCount. rewrite E. apply renderedLines_count.
    + intros pk. rewrite E. apply renderedLines_publicKeys.
  - intros Hw. destruct Hl as [Hp Hh].
    unfold __saveConfig, bind, writeJson, writeConf.
    rewrite (deref_loaded w config c Hh). rewrite Hw. simpl. rewrite Hw.
    split; reflexivity.
  - intros dump Hd. rewrite (getClients_run w config c dump Hl Hd).
    do 2 eexists. split; [reflexivity|]. split.
    + rewrite mergeDump_keeps by reflexivity. rewrite map_map.
      apply map_ext. intros [k cl]. reflexivity.
    + rewrite mergeDump_keeps by reflexivity. rewrite map_map.
      apply map_ext. intros [k cl]. reflexivity.
Qed.

End Rendering.

(** On the sample state, bob is disabled: the rendered text has alice's
    section only, with the one [[Peer]] line, and the listing has both. *)
Lemma disabled_peers_not_rendered_but_listed_witness :
  renderConfig sampleSettings sampleConfig
  = interfaceSection sampleSettings sampleConfig ++ peerSection "id-1" alice /\
  split "010"%char (renderConfig sampleSettings sampleConfig)
  = List.app (interfaceLines sampleSettings sampleConfig)
      [ EmptyString; "# Client: alice (id-1)"; "[Peer]";
        "PublicKey = PUB-1"; "PresharedKey = PSK-1";
        "AllowedIPs = 10.8.0.2/32" ] /\
  sectionCount "[Peer]" (renderConfig sampleSettings sampleConfig) = 1%nat /\
  ~ In "PublicKey = PUB-2"
       (split "010"%char (renderConfig sampleSettings sampleConfig)) /\
  exists entries w',
    getClients sampleSettings sampleWorld = (Ok entries, w') /\
    map e_id entries = ["id-1"; "id-2"] /\
    map e_enabled entries = [true; false].
Proof.
  destruct (disabled_peers_not_rendered_but_listed sampleSettings sampleWorld
              0%nat sampleConfig sampleWorld_loaded) as (H1 & _ & H3 & _ & H5).
  destruct (H3 eq_refl) as (Hlines & Hcount & Hkeys).
  split; [rewrite H1; reflexivity|].
  split; [rewrite Hlines; reflexivity|].
  split; [rewrite Hcount; reflexivity|].
  split.
  { intros Hin. apply (Hkeys "PUB-2") in Hin as (kv & Hkv & He & Hpk).
    destruct Hkv as [<-|[<-|[]]]; discriminate. }
  destruct (H5 (trim sampleDump) eq_refl) as (entries & w' & E & Hi & He).
  exists entries, w'. auto.
Defined.

(** C3, as the specification words it, fails.  [updateClientName] stores
    any name; given to alice, [smuggledName] is written into the comment
    line of her section and brings with it the section of bob, who is
    disabled: the daemon's text then holds bob's section word for word, and
    two [[Peer]] lines for one enabled peer. *)
Lemma disabled_peer_section_in_daemon_text :
  let w' := snd (updateClientName sampleSettings "id-1" smuggledName
                   sampleWorld) in
  fst (updateClientName sampleSettings "id-1" smuggledName sampleWorld)
  = Ok tt /\
  loaded w' 0%nat renamedConfig /\
  wg0_conf w' = Some (renderConfig sampleSettings renamedConfig) /\
  lookup "id-2" (clients renamedConfig) = Some bob /\
  ~ (forall k client,
        lookup k (clients renamedConfig) = Some client ->
        enabled client = false ->
        includes (peerSection k client)
          (renderConfig sampleSettings renamedConfig) = false) /\
  ~ (sectionCount "[Peer]" (renderConfig sampleSettings renamedConfig)
     = length (filter (fun kv => enabled (snd kv)) (clients renamedConfig))).
Proof.
  cbv zeta.
  split; [vm_compute; reflexivity|].
  split; [split; vm_compute; reflexivity|].
  split; [vm_compute; reflexivity|].
  split; [reflexivity|].
  split.
  - intros H. specialize (H "id-2" bob eq_refl eq_refl).
    vm_compute in H. discriminate H.
  - vm_compute. discriminate.
Qed.

(** ** Merging the live status *)

Section LiveStatus.

Variable env : Settings.














End LiveStatus.


(** ** What the listing reveals *)

Section Secrets.

Variable env : Settings.

(** An entry is computed from the redacted peer alone. *)
Lemma toEntry_redact (kv : string * Client) : toEntry (redact kv) = toEntry kv.
Proof.
  destruct kv as [k c]. unfold toEntry, redact. simpl.
  destruct (privateKey c); reflexivity.
Qed.

Lemma entries_of_redacted (m1 m2 : list (string * Client)) :
  map redact m1 = map redact m2 -> map toEntry m1 = map toEntry m2.
Proof.
  intros H.
  rewrite <- (map_ext _ _ toEntry_redact m1), <- (map_ext _ _ toEntry_redact m2).
  rewrite <- (map_map redact toEntry m1), <- (map_map redact toEntry m2).
  now rewrite H.
Qed.

(** C10.  Two processes whose stored peers differ at most in the values of
    their private and pre-shared keys (the presence of each key being the
    same), given the same answer to the dump command, get the same result
    from [getClients], error or list.  Of the keys, an entry carries the
    public key and whether a private key is stored, nothing else. *)
Theorem getClients_hides_key_material
        (w1 w2 : World) (config1 config2 : loc) (c1 c2 : Config) :
  loaded w1 config1 c1 ->
  loaded w2 config2 c2 ->
  map redact (clients c1) = map redact (clients c2) ->
  execOutcome w1 (length (trace w1)) "wg show wg0 dump"
  = execOutcome w2 (length (trace w2)) "wg show wg0 dump" ->
  fst (getClients env w1) = fst (getClients env w2) /\
  (forall entries,
      fst (getClients env w1) = Ok entries ->
      map e_downloadableConfig entries
      = map (fun kv => isSome (privateKey (snd kv))) (clients c1) /\
      map e_publicKey entries
      = map (fun kv => publicKey (snd kv)) (clients c1)).
Proof.
  intros [Hp1 Hh1] [Hp2 Hh2] Hr Hd.
  assert (E : forall w config c,
             configPromise w = Some (Ok config) ->
             nth_error (heap w) config = Some c ->
             fst (getClients env w)
             = match execOutcome w (length (trace w)) "wg show wg0 dump" with
               | Ok dump => Ok (mergeDump (map toEntry (clients c)) dump)
               | Err e => Err e
               end).
  { intros w config c Hp Hh. unfold getClients, bind at 1.
    rewrite (getConfig_cached env w _ Hp).
    unfold bind at 1. rewrite (deref_loaded w config c Hh).
    unfold bind, exec. destruct (execOutcome w _ _); reflexivity. }
  rewrite (E w1 config1 c1 Hp1 Hh1), (E w2 config2 c2 Hp2 Hh2).
  rewrite Hd, (entries_of_redacted _ _ Hr). split; [reflexivity|].
  intros entries He.
  destruct (execOutcome w2 _ _) as [dump|e]; [|discriminate].
  injection He as <-. rewrite <- (entries_of_redacted _ _ Hr).
  split; rewrite mergeDump_keeps by reflexivity; rewrite map_map;
    apply map_ext; intros [k cl]; reflexivity.
Qed.

End Secrets.

(** The sample state and the same state with other keys list alike. *)
Lemma getClients_hides_key_material_witness :
  clients sampleConfig <> clients rekeyedConfig /\
  fst (getClients sampleSettings sampleWorld)
  = fst (getClients sampleSettings rekeyedWorld).
Proof.
  split; [discriminate|].
  apply (getClients_hides_key_material sampleSettings sampleWorld rekeyedWorld
           0%nat 0%nat sampleConfig rekeyedConfig).
  - exact sampleWorld_loaded.
  - split; reflexivity.
  - reflexivity.
  - reflexivity.
Defined.

(** ** The configuration handed to a peer *)

Section ClientConfiguration.

Variable env : Settings.

(** The template literal of [getClientConfiguration], line by line. *)
Lemma clientConfiguration_lines (c : Config) (client : Client) :
  clientConfiguration env c client
  = unlines (clientConfigurationLines env c client).
Proof.
  unfold clientConfiguration, configurationText, clientConfigurationLines,
    privateKeyOrPlaceholder.
  change (interp (Some (address client))) with (address client).
  destruct (truthy (WG_DEFAULT_DNS env)), (truthy (WG_MTU env)),
    (truthyOpt (preSharedKey client));
    cbn [app unlines]; unfold LF; rewrite ?append_assoc; reflexivity.
Qed.





End ClientConfiguration.



(** ** The subnet width in the rendered addresses *)

Section SubnetWidth.

Variable env : Settings.

(** C8 (as the code has it).  On a first start with the default block
    [a.b.c.d/n], the configuration that is built and written has no
    [cidrSubnet] property: the width [n] is computed and dropped.  The
    [Address] line written to [wg0.conf] is therefore [a.b.c.1/undefined],
    and the [Address] line of the configuration handed to a peer that has no
    [cidrSubnet] property of its own ends in [/undefined] as well. *)
Theorem address_lines_render_undefined (w : World) (a b c d n : string) :
  configPromise w = None ->
  wg0_json w = None ->
  truthy (WG_HOST env) = true ->
  (forall k cmd, cmd <> "wg-quick down wg0" ->
                 exists out, execOutcome w k cmd = Ok out) ->
  writesSucceed w ->
  plainComponent a = true -> plainComponent b = true ->
  plainComponent c = true -> plainComponent d = true ->
  WG_DEFAULT_ADDRESS env = a ++ "." ++ b ++ "." ++ c ++ "." ++ d ++ "/" ++ n ->
  exists config w1 cfg,
    getConfig env w = (Ok config, w1) /\
    loaded w1 config cfg /\
    s_cidrSubnet (server cfg) = None /\
    wg0_conf w1 = Some (renderConfig env cfg) /\
    renderConfig env cfg
    = LF ++ "# Note: Do not edit this file directly." ++ LF ++
      "# Your changes will be overwritten!" ++ LF ++
      LF ++
      "# Server" ++ LF ++
      "[Interface]" ++ LF ++
      "PrivateKey = " ++ s_privateKey (server cfg) ++ LF ++
      "Address = " ++ a ++ "." ++ b ++ "." ++ c ++ ".1/undefined" ++ LF ++
      "ListenPort = " ++ WG_PORT env ++ LF ++
      "PreUp = " ++ WG_PRE_UP env ++ LF ++
      "PostUp = " ++ WG_POST_UP env ++ LF ++
      "PreDown = " ++ WG_PRE_DOWN env ++ LF ++
      "PostDown = " ++ WG_POST_DOWN env ++ LF /\
    (forall client,
        cidrSubnet client = None ->
        nth_error (clientConfigurationLines env cfg client) 3
        = Some ("Address = " ++ address client ++ "/undefined") /\
        clientConfiguration env cfg client
        = unlines (clientConfigurationLines env cfg client)).
Proof.
  intros Hp Hj Hhost Hx Hw Ha Hb Hc Hd HW.
  destruct (getConfig_bootstrap env w Hp Hj Hhost Hx Hw)
    as (config & w1 & k1 & k2 & E & Hl & Hconf).
  exists config, w1. eexists. split; [exact E|]. split; [exact Hl|].
  split; [reflexivity|]. split; [exact Hconf|]. split.
  - unfold renderConfig, interfaceSection. cbn [renderPeers clients server
      s_privateKey s_address s_cidrSubnet interp].
    rewrite (bootstrapAddress_dotted env a b c d n Ha Hb Hc Hd HW).
    rewrite !append_assoc. reflexivity.
  - intros client Hs. split; [|apply clientConfiguration_lines].
    unfold clientConfigurationLines. rewrite Hs. reflexivity.
Qed.

End SubnetWidth.

(** A first start with the block 10.8.0.0/24 writes "10.8.0.1/undefined". *)
Lemma address_lines_render_undefined_witness :
  exists text,
    wg0_conf (snd (getConfig sampleSettings freshWorld)) = Some text /\
    includes ("Address = 10.8.0.1/undefined" ++ LF) text = true /\
    includes "/24" text = false.
Proof.
  destruct (address_lines_render_undefined sampleSettings freshWorld
              "10" "8" "0" "0" "24"
              eq_refl eq_refl eq_refl sampleExec_succeeds_but
              (fun _ _ => eq_refl) eq_refl eq_refl eq_refl eq_refl eq_refl)
    as (config & w1 & cfg & E & [_ Hh] & _ & Hconf & _).
  exists (renderConfig sampleSettings cfg).
  rewrite E. split; [exact Hconf|].
  assert (Hw1 : w1 = snd (getConfig sampleSettings freshWorld))
    by (rewrite E; reflexivity).
  assert (H0 : Ok config = fst (getConfig sampleSettings freshWorld))
    by (rewrite E; reflexivity).
  vm_compute in H0. injection H0 as ->. clear E. subst w1.
  vm_compute in Hh. injection Hh as <-.
  split; reflexivity.
Defined.

(** ** Deleting a peer *)

Section Delete.

Variable env : Settings.

Lemma lookup_remove_same (k : string) (m : list (string * Client)) :
  NoDup (map fst m) -> lookup k (remove k m) = None.
Proof.
  induction m as [|[k' c] r IH]; simpl; [reflexivity|].
  intros Hn. apply NoDup_cons_iff in Hn as [Hk Hr].
  destruct (String.eqb k' k) eqn:E.
  - apply String.eqb_eq in E. subst k'.
    clear IH. induction r as [|[k0 c0] r IH]; simpl; [reflexivity|].
    destruct (String.eqb k0 k) eqn:E0.
    + apply String.eqb_eq in E0. subst k0. destruct Hk. now left.
    + apply IH.
      * intros Hin. apply Hk. now right.
      * now apply NoDup_cons_iff in Hr as [_ Hr].
  - simpl. rewrite E. now apply IH.
Qed.

Lemma lookup_remove_other (k k' : string) (m : list (string * Client)) :
  k' <> k -> lookup k' (remove k m) = lookup k' m.
Proof.
  intros Hne. induction m as [|[k0 c] r IH]; simpl; [reflexivity|].
  destruct (String.eqb k0 k) eqn:E; simpl.
  - destruct (String.eqb k0 k') eqn:E'; [|reflexivity].
    apply String.eqb_eq in E, E'. congruence.
  - now rewrite IH.
Qed.

(** An assignment to the configuration object followed by [saveConfig]. *)
Lemma update_then_save (w : World) (config : loc) (c : Config)
      (f : Config -> Config) :
  loaded w config c ->
  exists r w',
    (update config f ;;; saveConfig env) w = (r, w') /\
    loaded w' config (f c) /\
    (writesSucceed w ->
     commandSucceeds w "wg syncconf wg0 <(wg-quick strip wg0)" ->
     r = Ok tt /\
     wg0_json w' = Some (f c) /\
     wg0_conf w' = Some (renderConfig env (f c))).
Proof.
  intros [Hp Hh]. unfold bind at 1, update. rewrite Hh.
  set (w0 := set_heap (replaceNth config (f c) (heap w)) w).
  assert (Hl0 : loaded w0 config (f c)).
  { split; [exact Hp|]. apply (nth_error_replaceNth _ _ _ _ Hh). }
  destruct (saveConfig_heap env w0 config Hp) as (r & w' & E & Hheap & Hprom).
  exists r, w'. split; [exact E|]. split.
  { split; [rewrite Hprom; exact Hp|rewrite Hheap; apply Hl0]. }
  intros Hw Hs.
  destruct (saveConfig_ok env w0 config (f c) Hl0 Hw Hs) as (w'' & E' & Hj & Hc).
  rewrite E' in E. injection E as <- <-. auto.
Qed.

Lemma remove_absent (k : string) (m : list (string * Client)) :
  lookup k m = None -> remove k m = m.
Proof.
  induction m as [|[k' c] r IH]; simpl; [reflexivity|].
  destruct (String.eqb k' k); [discriminate|].
  intros H. now rewrite IH.
Qed.

Lemma replaceNth_same {A} (l : list A) (n : nat) (x : A) :
  nth_error l n = Some x -> replaceNth n x l = l.
Proof.
  revert n. induction l as [|h t IH]; intros [|n] H; simpl in *;
    try discriminate.
  - now injection H as ->.
  - now rewrite IH.
Qed.

(** What [deleteClient] does when the property is falsy, and when it is
    truthy. *)
Lemma deleteClient_falsy (w : World) (config : loc) (c : Config)
      (clientId : string) :
  loaded w config c ->
  truthyTarget (property config c (realm w) clientId) = false ->
  deleteClient env clientId w = (Ok tt, w).
Proof.
  intros [Hp Hh] Hf. unfold deleteClient, bind at 1.
  rewrite (getConfig_cached env w _ Hp). unfold bind at 1.
  rewrite (deref_loaded w config c Hh). unfold bind, getRealm.
  rewrite Hf. reflexivity.
Qed.

Lemma deleteClient_truthy (w : World) (config : loc) (c : Config)
      (clientId : string) :
  loaded w config c ->
  truthyTarget (property config c (realm w) clientId) = true ->
  deleteClient env clientId w
  = (update config (fun c => set_clients (remove clientId (clients c)) c) ;;;
     saveConfig env) w.
Proof.
  intros [Hp Hh] Ht. unfold deleteClient, bind at 1.
  rewrite (getConfig_cached env w _ Hp). unfold bind at 1.
  rewrite (deref_loaded w config c Hh). unfold bind at 1, getRealm.
  rewrite Ht. reflexivity.
Qed.

(** On an identifier under which nothing is stored. *)
Lemma deleteClient_unstored (w : World) (config : loc) (c : Config)
      (clientId : string) :
  loaded w config c ->
  lookup clientId (clients c) = None ->
  deleteClient env clientId w
  = if truthyTarget (inherited (realm w) clientId)
    then saveConfig env w else (Ok tt, w).
Proof.
  intros Hl Hn.
  destruct (truthyTarget (inherited (realm w) clientId)) eqn:Hi.
  - rewrite (deleteClient_truthy w config c clientId Hl)
      by (unfold property; now rewrite Hn).
    destruct Hl as [Hp Hh]. unfold bind, update. rewrite Hh.
    rewrite (remove_absent _ _ Hn).
    replace (set_clients (clients c) c) with c by (now destruct c).
    rewrite (replaceNth_same _ _ _ Hh). now destruct w.
  - apply (deleteClient_falsy w config c clientId Hl).
    unfold property. now rewrite Hn.
Qed.

(** X1.  Deleting an identifier under which nothing is stored: when the
    identifier does not name a truthy property inherited from
    [Object.prototype] either, nothing happens at all, no file is written and
    the daemon is not told anything; when it does (as [constructor] or
    [__proto__] do), no peer is removed, but the call is one whole
    [saveConfig]. *)
Theorem deleteClient_absent (w : World) (config : loc) (c : Config)
        (clientId : string) :
  loaded w config c ->
  lookup clientId (clients c) = None ->
  (truthyTarget (inherited (realm w) clientId) = false ->
   deleteClient env clientId w = (Ok tt, w)) /\
  (truthyTarget (inherited (realm w) clientId) = true ->
   deleteClient env clientId w = saveConfig env w).
Proof.
  intros Hl Hn. rewrite (deleteClient_unstored w config c clientId Hl Hn).
  split; intros ->; reflexivity.
Qed.

(** X2.  Deleting a stored peer removes it from the object in memory and
    leaves the other peers, the server record and the objects outside the
    configuration alone.  Afterwards, unless the identifier names a truthy
    property inherited from [Object.prototype], it is unknown and deleting it
    again does nothing.  When the files can be written and the daemon takes
    the new configuration, the call returns with both files rewritten. *)
Theorem deleteClient_removes (w : World) (config : loc) (c : Config)
        (clientId : string) (client : Client) :
  loaded w config c ->
  NoDup (map fst (clients c)) ->
  lookup clientId (clients c) = Some client ->
  exists r w' c',
    deleteClient env clientId w = (r, w') /\
    loaded w' config c' /\
    clients c' = remove clientId (clients c) /\
    lookup clientId (clients c') = None /\
    server c' = server c /\
    (forall k, k <> clientId -> lookup k (clients c') = lookup k (clients c)) /\
    realm w' = realm w /\
    (truthyTarget (inherited (realm w) clientId) = false ->
     getClient env clientId w'
     = (Err (ServerError ("Client Not Found: " ++ clientId) 404), w') /\
     deleteClient env clientId w' = (Ok tt, w')) /\
    (writesSucceed w ->
     commandSucceeds w "wg syncconf wg0 <(wg-quick strip wg0)" ->
     r = Ok tt /\
     wg0_json w' = Some c' /\
     wg0_conf w' = Some (renderConfig env c')).
Proof.
  intros Hl Hn Hk. pose proof Hl as [Hp Hh].
  rewrite (deleteClient_truthy w config c clientId Hl)
    by (unfold property; now rewrite Hk).
  destruct (update_then_save w config c
              (fun c => set_clients (remove clientId (clients c)) c) Hl)
    as (r & w' & E & Hl' & Hok).
  assert (Hgone : lookup clientId
                    (clients (set_clients (remove clientId (clients c)) c))
                  = None).
  { simpl. now apply lookup_remove_same. }
  assert (Hr : realm w' = realm w).
  { change w' with (snd (r, w')). rewrite <- E.
    unfold bind at 1, update. rewrite Hh.
    cbv beta iota.
    rewrite (saveConfig_realm env
               (set_heap (replaceNth config
                            (set_clients (remove clientId (clients c)) c)
                            (heap w)) w) config Hp).
    reflexivity. }
  exists r, w', (set_clients (remove clientId (clients c)) c).
  split; [exact E|]. split; [exact Hl'|]. split; [reflexivity|].
  split; [exact Hgone|].
  split; [reflexivity|]. split.
  { intros k Hne. simpl. now apply lookup_remove_other. }
  split; [exact Hr|].
  split; [|exact Hok].
  intros Hi. rewrite <- Hr in Hi. split.
  - destruct Hl' as [Hp' Hh'].
    apply (getClient_absent env w' w' config _ clientId
             (getConfig_cached env w' _ Hp') Hh' Hgone Hi).
  - apply (deleteClient_falsy w' config _ clientId Hl').
    unfold property. now rewrite Hgone.
Qed.

End Delete.

Lemma sampleConfig_NoDup : NoDup (map fst (clients sampleConfig)).
Proof.
  simpl. repeat constructor; simpl; intuition discriminate.
Qed.

(** On the sample state, deleting [id-7] does nothing, and deleting
    [constructor] writes both files again with the two peers still stored. *)
Lemma deleteClient_absent_witness :
  deleteClient sampleSettings "id-7" sampleWorld = (Ok tt, sampleWorld) /\
  deleteClient sampleSettings "constructor" sampleWorld
  = saveConfig sampleSettings sampleWorld /\
  wg0_conf (snd (deleteClient sampleSettings "constructor" sampleWorld))
  = Some (renderConfig sampleSettings sampleConfig) /\
  heap (snd (deleteClient sampleSettings "constructor" sampleWorld))
  = [sampleConfig].
Proof.
  destruct (deleteClient_absent sampleSettings sampleWorld 0%nat sampleConfig
              "id-7" sampleWorld_loaded eq_refl) as [H1 _].
  destruct (deleteClient_absent sampleSettings sampleWorld 0%nat sampleConfig
              "constructor" sampleWorld_loaded eq_refl) as [_ H2].
  split; [exact (H1 eq_refl)|]. split; [exact (H2 eq_refl)|].
  rewrite (H2 eq_refl). split; reflexivity.
Defined.

Lemma deleteClient_removes_witness :
  exists w' c',
    deleteClient sampleSettings "id-1" sampleWorld = (Ok tt, w') /\
    loaded w' 0%nat c' /\
    clients c' = [("id-2", bob)] /\
    wg0_json w' = Some c' /\
    getClient sampleSettings "id-1" w'
    = (Err (ServerError "Client Not Found: id-1" 404), w') /\
    deleteClient sampleSettings "id-1" w' = (Ok tt, w').
Proof.
  destruct (deleteClient_removes sampleSettings sampleWorld 0%nat sampleConfig
              "id-1" alice sampleWorld_loaded sampleConfig_NoDup eq_refl)
    as (r & w' & c' & E & Hl & Hc & _ & _ & _ & _ & Hgone & Hok).
  destruct (Hok sampleWorld_writesSucceed (sampleWorld_commandSucceeds _))
    as (-> & Hj & _).
  destruct (Hgone eq_refl) as [Hg Hd].
  exists w', c'. auto 10.
Defined.

(** ** Enabling, disabling and renaming a peer *)

Section Mutations.

Variable env : Settings.

(** The common tail of the mutations: two assignments to the stored object
    around a reading of the clock, then [saveConfig]. *)
Lemma touch_then_save (w : World) (config : loc) (c : Config)
      (clientId : string) (f : Client -> Client) :
  loaded w config c ->
  exists r w',
    (writeClient config clientId f ;;;
     t <- now ;;
     writeClient config clientId (set_updatedAt t) ;;;
     saveConfig env) w = (r, w') /\
    loaded w' config (touched f (clock w (length (trace w))) clientId c) /\
    (writesSucceed w ->
     commandSucceeds w "wg syncconf wg0 <(wg-quick strip wg0)" ->
     r = Ok tt /\
     wg0_json w'
     = Some (touched f (clock w (length (trace w))) clientId c) /\
     wg0_conf w'
     = Some (renderConfig env
               (touched f (clock w (length (trace w))) clientId c))).
Proof.
  intros [Hp Hh].
  rewrite (mutate_then_stamp w config c clientId f _ Hh).
  set (c' := touched f (clock w (length (trace w))) clientId c).
  set (w0 := log EvNow (set_heap (replaceNth config c' (heap w)) w)).
  assert (Hl0 : loaded w0 config c').
  { split; [exact Hp|]. apply (nth_error_replaceNth _ _ _ _ Hh). }
  destruct (saveConfig_heap env w0 config Hp) as (r & w' & E & Hheap & Hprom).
  exists r, w'. split; [exact E|]. split.
  { split; [rewrite Hprom; exact Hp|rewrite Hheap; apply Hl0]. }
  intros Hw Hs.
  destruct (saveConfig_ok env w0 config c' Hl0 Hw Hs) as (w'' & E' & Hj & Hc).
  rewrite E' in E. injection E as <- <-. auto.
Qed.

Lemma touched_lookup (f : Client -> Client) (t : Z) (clientId : string)
      (c : Config) (client : Client) :
  lookup clientId (clients c) = Some client ->
  lookup clientId (clients (touched f t clientId c))
  = Some (set_updatedAt t (f client)) /\
  (forall k, k <> clientId ->
             lookup k (clients (touched f t clientId c)) = lookup k (clients c)) /\
  map fst (clients (touched f t clientId c)) = map fst (clients c) /\
  server (touched f t clientId c) = server c.
Proof.
  intros Hl. unfold touched. simpl. split.
  { rewrite !lookup_modify_same, Hl. reflexivity. }
  split.
  { intros k Hk. now rewrite !lookup_modify_other by exact Hk. }
  split; [now rewrite !modify_keys|reflexivity].
Qed.


(** X3.  [enableClient] and [disableClient] set the flag of the stored peer and
    stamp it with the current time; its name, address, keys and creation
    time, the other peers, their order and the server record stay as they
    were.  When the save succeeds both files are rewritten from the
    result. *)
Theorem enable_disable_set_the_flag
        (w : World) (config : loc) (c : Config)
        (clientId : string) (client : Client) (b : bool) :
  loaded w config c ->
  lookup clientId (clients c) = Some client ->
  let t := clock w (length (trace w)) in
  exists r w' c',
    (if b then enableClient env clientId w else disableClient env clientId w)
    = (r, w') /\
    loaded w' config c' /\
    lookup clientId (clients c')
    = Some {| id := id client; name := name client;
              address := address client; privateKey := privateKey client;
              publicKey := publicKey client;
              preSharedKey := preSharedKey client;
              createdAt := createdAt client; updatedAt := t; enabled := b;
              allowedIPs := allowedIPs client;
              cidrSubnet := cidrSubnet client |} /\
    (forall k, k <> clientId -> lookup k (clients c') = lookup k (clients c)) /\
    map fst (clients c') = map fst (clients c) /\
    server c' = server c /\
    (writesSucceed w ->
     commandSucceeds w "wg syncconf wg0 <(wg-quick strip wg0)" ->
     r = Ok tt /\
     wg0_json w' = Some c' /\
     wg0_conf w' = Some (renderConfig env c')).
Proof.
  intros Hl Hk t. pose proof Hl as [Hp Hh].
  assert (Hg : getClient env clientId w
               = (Ok (TStored config clientId client), w)).
  { apply (getClient_present env w w config c clientId client); auto.
    apply getConfig_cached; exact Hp. }
  destruct (touch_then_save w config c clientId (set_enabled b) Hl)
    as (r & w' & E & Hl' & Hok).
  destruct (touched_lookup (set_enabled b) t clientId c client Hk)
    as (H1 & H2 & H3 & H4).
  exists r, w', (touched (set_enabled b) t clientId c).
  split.
  { destruct b; [unfold enableClient|unfold disableClient];
      unfold bind at 1; rewrite Hg; exact E. }
  split; [exact Hl'|]. split; [exact H1|]. split; [exact H2|].
  split; [exact H3|]. split; [exact H4|]. exact Hok.
Qed.


(** X5.  [updateClientName] stores whatever name it is given, the empty one
    included: the stored peer ends up with that name, with [updatedAt] set
    to the current time and with every other field as it was; the other
    peers and the server record do not change. *)
Theorem updateClientName_stores_any_name
        (w : World) (config : loc) (c : Config)
        (clientId : string) (client : Client) (name_ : string) :
  loaded w config c ->
  lookup clientId (clients c) = Some client ->
  exists r w' c',
    updateClientName env clientId name_ w = (r, w') /\
    loaded w' config c' /\
    lookup clientId (clients c')
    = Some {| id := id client; name := name_;
              address := address client; privateKey := privateKey client;
              publicKey := publicKey client;
              preSharedKey := preSharedKey client;
              createdAt := createdAt client;
              updatedAt := clock w (length (trace w));
              enabled := enabled client;
              allowedIPs := allowedIPs client;
              cidrSubnet := cidrSubnet client |} /\
    (forall k, k <> clientId -> lookup k (clients c') = lookup k (clients c)) /\
    map fst (clients c') = map fst (clients c) /\
    server c' = server c /\
    (writesSucceed w ->
     commandSucceeds w "wg syncconf wg0 <(wg-quick strip wg0)" ->
     r = Ok tt /\
     wg0_json w' = Some c' /\
     wg0_conf w' = Some (renderConfig env c')).
Proof.
  intros Hl Hk. pose proof Hl as [Hp Hh].
  assert (Hg : getClient env clientId w
               = (Ok (TStored config clientId client), w)).
  { apply (getClient_present env w w config c clientId client); auto.
    apply getConfig_cached; exact Hp. }
  destruct (touch_then_save w config c clientId (set_name name_) Hl)
    as (r & w' & E & Hl' & Hok).
  destruct (touched_lookup (set_name name_) (clock w (length (trace w)))
              clientId c client Hk) as (H1 & H2 & H3 & H4).
  exists r, w', (touched (set_name name_) (clock w (length (trace w)))
                         clientId c).
  split; [unfold updateClientName, bind at 1; rewrite Hg; exact E|].
  split; [exact Hl'|]. split; [exact H1|]. split; [exact H2|].
  split; [exact H3|]. split; [exact H4|]. exact Hok.
Qed.

End Mutations.

(** Disabling alice and enabling bob on the sample state. *)
Lemma enable_disable_set_the_flag_witness :
  exists w1 c1 w2 c2,
    disableClient sampleSettings "id-1" sampleWorld = (Ok tt, w1) /\
    loaded w1 0%nat c1 /\
    option_map enabled (lookup "id-1" (clients c1)) = Some false /\
    enableClient sampleSettings "id-2" sampleWorld = (Ok tt, w2) /\
    loaded w2 0%nat c2 /\
    option_map enabled (lookup "id-2" (clients c2)) = Some true /\
    option_map updatedAt (lookup "id-2" (clients c2)) = Some 1700000000000.
Proof.
  destruct (enable_disable_set_the_flag sampleSettings sampleWorld 0%nat
              sampleConfig "id-1" alice false sampleWorld_loaded eq_refl)
    as (r1 & w1 & c1 & E1 & Hl1 & Hk1 & _ & _ & _ & Hok1).
  destruct (Hok1 sampleWorld_writesSucceed (sampleWorld_commandSucceeds _))
    as (-> & _).
  destruct (enable_disable_set_the_flag sampleSettings sampleWorld 0%nat
              sampleConfig "id-2" bob true sampleWorld_loaded eq_refl)
    as (r2 & w2 & c2 & E2 & Hl2 & Hk2 & _ & _ & _ & Hok2).
  destruct (Hok2 sampleWorld_writesSucceed (sampleWorld_commandSucceeds _))
    as (-> & _).
  exists w1, c1, w2, c2. rewrite Hk1, Hk2.
  exact (conj E1 (conj Hl1 (conj eq_refl
           (conj E2 (conj Hl2 (conj eq_refl eq_refl)))))).
Defined.


(** Bob can be given the empty name. *)
Lemma updateClientName_stores_any_name_witness :
  exists w' c',
    updateClientName sampleSettings "id-2" EmptyString sampleWorld
    = (Ok tt, w') /\
    loaded w' 0%nat c' /\
    lookup "id-2" (clients c')
    = Some {| id := "id-2"; name := EmptyString; address := "10.8.0.3";
              privateKey := None; publicKey := "PUB-2";
              preSharedKey := Some "PSK-2"; createdAt := 1690000000001;
              updatedAt := 1700000000000; enabled := false;
              allowedIPs := None; cidrSubnet := None |}.
Proof.
  destruct (updateClientName_stores_any_name sampleSettings sampleWorld 0%nat
              sampleConfig "id-2" bob EmptyString sampleWorld_loaded eq_refl)
    as (r & w' & c' & E & Hl & Hk & _ & _ & _ & Hok).
  destruct (Hok sampleWorld_writesSucceed (sampleWorld_commandSucceeds _))
    as (-> & _).
  exists w', c'. rewrite Hk. auto.
Defined.

(** ** The loader: failures, and starting from an existing document *)

Section LoaderEdges.

Variable env : Settings.

Ltac world_simpl :=
  cbn [execOutcome writeOutcome log set_json set_conf set_heap
       set_configPromise set_realm realm trace length heap wg0_json wg0_conf
       configPromise].

(** X6.  Without a host name the loader gives up before touching anything: no
    file is read, even a valid one, and no command is run.  The rejection is
    what the promise holds from then on. *)
Theorem getConfig_requires_host (w : World) :
  truthy (WG_HOST env) = false ->
  configPromise w = None ->
  getConfig env w
  = (Err (Error_ "WG_HOST Environment Variable Not Set!"),
     set_configPromise
       (Some (Err (Error_ "WG_HOST Environment Variable Not Set!"))) w).
Proof.
  intros Hh Hp. unfold getConfig. rewrite Hp. unfold loadConfig.
  rewrite Hh. reflexivity.
Qed.

(** X7.  A load that failed is never tried again: once the promise is rejected,
    every operation that needs the configuration fails with the same error
    and does nothing, whatever ran in between. *)
Theorem rejected_load_is_final (w : World) (e : error) (ops : list operation) :
  configPromise w = Some (Err e) ->
  let w' := runAll env ops w in
  getConfig env w' = (Err e, w') /\
  saveConfig env w' = (Err e, w') /\
  getClients env w' = (Err e, w') /\
  (forall clientId,
      getClient env clientId w' = (Err e, w') /\
      getClientConfiguration env clientId w' = (Err e, w') /\
      deleteClient env clientId w' = (Err e, w') /\
      enableClient env clientId w' = (Err e, w') /\
      disableClient env clientId w' = (Err e, w') /\
      (forall name_, updateClientName env clientId name_ w' = (Err e, w')) /\
      (forall address_,
          updateClientAddress env clientId address_ w' = (Err e, w'))) /\
  (forall name_, truthy name_ = true ->
                 createClient env name_ w' = (Err e, w')).
Proof.
  intros Hp w'.
  assert (Hg : getConfig env w' = (Err e, w')).
  { apply getConfig_cached. unfold w'. now apply runAll_keeps_promise. }
  assert (Hc : forall clientId, getClient env clientId w' = (Err e, w')).
  { intros clientId. unfold getClient, bind. now rewrite Hg. }
  split; [exact Hg|].
  split; [unfold saveConfig, bind; now rewrite Hg|].
  split; [unfold getClients, bind; now rewrite Hg|].
  split.
  - intros clientId. split; [apply Hc|].
    split; [unfold getClientConfiguration, bind; now rewrite Hg|].
    split; [unfold deleteClient, bind; now rewrite Hg|].
    split; [unfold enableClient, bind; now rewrite Hc|].
    split; [unfold disableClient, bind; now rewrite Hc|].
    split; [intros n; unfold updateClientName, bind; now rewrite Hc|].
    intros a; unfold updateClientAddress, bind; now rewrite Hc.
  - intros n Hn. unfold createClient. rewrite Hn.
    cbv beta iota delta [negb]. unfold bind. now rewrite Hg.
Qed.

(** The loader on an existing document, step by step. *)
Lemma loadConfig_from_document (w : World) (c : Config) :
  configPromise w = None ->
  wg0_json w = Some c ->
  truthy (WG_HOST env) = true ->
  writesSucceed w ->
  commandSucceeds w "wg-quick up wg0" ->
  commandSucceeds w "wg syncconf wg0 <(wg-quick strip wg0)" ->
  exists w1,
    getConfig env w = (Ok (length (heap w)), w1) /\
    loaded w1 (length (heap w)) c /\
    wg0_json w1 = Some c /\
    wg0_conf w1 = Some (renderConfig env c) /\
    trace w1
    = EvExec "wg syncconf wg0 <(wg-quick strip wg0)"
        :: EvExec "wg-quick up wg0" :: EvExec "wg-quick down wg0"
        :: EvWriteFile "wg0.conf" :: EvWriteFile "wg0.json"
        :: EvReadFile "wg0.json" :: trace w.
Proof.
  intros Hp Hj Hhost Hw Hup Hsync.
  unfold getConfig. rewrite Hp. unfold loadConfig. rewrite Hhost.
  cbv beta iota delta [negb].
  unfold bind at 1, catch at 1, readConfigFile. rewrite Hj.
  unfold bind at 1, alloc.
  unfold bind at 1, __saveConfig, bind at 1, deref. world_simpl.
  rewrite nth_error_app2 by lia. rewrite Nat.sub_diag. cbn [nth_error].
  unfold bind at 1, writeJson. world_simpl. rewrite Hw.
  unfold writeConf. world_simpl. rewrite Hw.
  unfold bind at 1, catch at 1, exec at 1. world_simpl.
  destruct (execOutcome w _ "wg-quick down wg0") as [o|e];
    unfold ret at 1;
    unfold bind at 1, catch at 1, exec at 1; world_simpl;
    (match goal with
     | |- context [execOutcome w ?n "wg-quick up wg0"] =>
         destruct (Hup n) as [k3 E3]; rewrite E3
     end);
    unfold __syncConfig, bind, exec, ret; world_simpl;
    (match goal with
     | |- context [execOutcome w ?n "wg syncconf wg0 <(wg-quick strip wg0)"] =>
         destruct (Hsync n) as [k4 E4]; rewrite E4
     end);
    eexists; (split; [reflexivity|]);
    (split; [split; [reflexivity|];
             world_simpl; rewrite nth_error_app2 by lia;
             now rewrite Nat.sub_diag|]);
    repeat split.
Qed.

(** X8.  Starting from an existing document: the loader takes it as it is,
    generates no key, rewrites both files from it, and restarts the
    interface, in that order. *)
Theorem getConfig_from_document (w : World) (c : Config) :
  configPromise w = None ->
  wg0_json w = Some c ->
  truthy (WG_HOST env) = true ->
  writesSucceed w ->
  commandSucceeds w "wg-quick up wg0" ->
  commandSucceeds w "wg syncconf wg0 <(wg-quick strip wg0)" ->
  exists w1,
    getConfig env w = (Ok (length (heap w)), w1) /\
    loaded w1 (length (heap w)) c /\
    wg0_json w1 = Some c /\
    wg0_conf w1 = Some (renderConfig env c) /\
    trace w1
    = EvExec "wg syncconf wg0 <(wg-quick strip wg0)"
        :: EvExec "wg-quick up wg0" :: EvExec "wg-quick down wg0"
        :: EvWriteFile "wg0.conf" :: EvWriteFile "wg0.json"
        :: EvReadFile "wg0.json" :: trace w.
Proof. exact (loadConfig_from_document w c). Qed.

(** X10.  When the interface cannot be brought up the loader rejects, after the
    files have been written and without telling the daemon to synchronise.
    A message saying that the device wg0 cannot be found is replaced by the
    diagnostic about kernel support; any other error is passed on as it
    is.  A failure of the preceding [wg-quick down] is ignored. *)
Theorem getConfig_interface_does_not_start (w : World) (c : Config) (err : error) :
  configPromise w = None ->
  wg0_json w = Some c ->
  truthy (WG_HOST env) = true ->
  writesSucceed w ->
  (forall n, execOutcome w n "wg-quick up wg0" = Err err) ->
  let reported :=
    if (truthy (message err) && includes deviceNotFound (message err))%bool
    then Error_ kernelDiagnostic else err in
  exists w1,
    getConfig env w = (Err reported, w1) /\
    configPromise w1 = Some (Err reported) /\
    wg0_json w1 = Some c /\
    wg0_conf w1 = Some (renderConfig env c) /\
    trace w1
    = EvExec "wg-quick up wg0" :: EvExec "wg-quick down wg0"
        :: EvWriteFile "wg0.conf" :: EvWriteFile "wg0.json"
        :: EvReadFile "wg0.json" :: trace w.
Proof.
  intros Hp Hj Hhost Hw Hup reported.
  unfold getConfig. rewrite Hp. unfold loadConfig. rewrite Hhost.
  cbv beta iota delta [negb].
  unfold bind at 1, catch at 1, readConfigFile. rewrite Hj.
  unfold bind at 1, alloc.
  unfold bind at 1, __saveConfig, bind at 1, deref. world_simpl.
  rewrite nth_error_app2 by lia. rewrite Nat.sub_diag. cbn [nth_error].
  unfold bind at 1, writeJson. world_simpl. rewrite Hw.
  unfold writeConf. world_simpl. rewrite Hw.
  unfold bind at 1, catch at 1, exec at 1. world_simpl.
  destruct (execOutcome w _ "wg-quick down wg0") as [o|e];
    unfold ret at 1;
    unfold bind at 1, catch at 1, exec at 1; world_simpl;
    rewrite Hup; fold reported;
    destruct (truthy (message err) && includes deviceNotFound (message err))%bool
      eqn:Ed; unfold reported; rewrite ?Ed;
    eexists; repeat split.
Qed.

(** X11.  When the key cannot be generated on a first start the loader rejects
    with the error of the command and leaves the disk and the memory as they
    were: no object is created and no file written. *)
Theorem getConfig_key_generation_fails (w : World) (e : error) :
  configPromise w = None ->
  wg0_json w = None ->
  truthy (WG_HOST env) = true ->
  (forall n, execOutcome w n "wg genkey" = Err e) ->
  exists w1,
    getConfig env w = (Err e, w1) /\
    configPromise w1 = Some (Err e) /\
    heap w1 = heap w /\
    wg0_json w1 = None /\
    wg0_conf w1 = wg0_conf w /\
    trace w1 = EvExec "wg genkey" :: EvReadFile "wg0.json" :: trace w.
Proof.
  intros Hp Hj Hhost Hk.
  unfold getConfig. rewrite Hp. unfold loadConfig. rewrite Hhost.
  cbv beta iota delta [negb].
  unfold bind at 1, catch at 1, readConfigFile. rewrite Hj.
  unfold generateConfig, bind at 1, exec at 1. world_simpl. rewrite Hk.
  eexists. repeat split. exact Hj.
Qed.

(** X9.  On a first start the private key of the server is the output of
    [wg genkey], and its public key the output of [wg pubkey] fed with that
    very key; both files are then written and the interface restarted, in
    that order. *)
Theorem getConfig_bootstrap_keys (w : World) (k1 k2 : string) :
  configPromise w = None ->
  wg0_json w = None ->
  truthy (WG_HOST env) = true ->
  execOutcome w (S (length (trace w))) "wg genkey" = Ok k1 ->
  execOutcome w (S (S (length (trace w)))) ("echo " ++ k1 ++ " | wg pubkey")
  = Ok k2 ->
  writesSucceed w ->
  commandSucceeds w "wg-quick up wg0" ->
  commandSucceeds w "wg syncconf wg0 <(wg-quick strip wg0)" ->
  exists w1 c,
    getConfig env w = (Ok (length (heap w)), w1) /\
    loaded w1 (length (heap w)) c /\
    s_privateKey (server c) = k1 /\
    s_publicKey (server c) = k2 /\
    clients c = [] /\
    wg0_json w1 = Some c /\
    trace w1
    = EvExec "wg syncconf wg0 <(wg-quick strip wg0)"
        :: EvExec "wg-quick up wg0" :: EvExec "wg-quick down wg0"
        :: EvWriteFile "wg0.conf" :: EvWriteFile "wg0.json"
        :: EvExec ("echo " ++ k1 ++ " | wg pubkey") :: EvExec "wg genkey"
        :: EvReadFile "wg0.json" :: trace w.
Proof.
  intros Hp Hj Hhost E1 E2 Hw Hup Hsync.
  unfold getConfig. rewrite Hp. unfold loadConfig. rewrite Hhost.
  cbv beta iota delta [negb].
  unfold bind at 1, catch at 1, readConfigFile. rewrite Hj.
  unfold generateConfig, bind at 1, exec at 1. world_simpl. rewrite E1.
  unfold bind at 1, exec at 1. world_simpl. rewrite E2.
  unfold ret at 1.
  unfold bind at 1, alloc.
  unfold bind at 1, __saveConfig, bind at 1, deref. world_simpl.
  rewrite nth_error_app2 by lia. rewrite Nat.sub_diag. cbn [nth_error].
  unfold bind at 1, writeJson. world_simpl. rewrite Hw.
  unfold writeConf. world_simpl. rewrite Hw.
  unfold bind at 1, catch at 1, exec at 1. world_simpl.
  destruct (execOutcome w _ "wg-quick down wg0") as [o|e];
    unfold ret at 1;
    unfold bind at 1, catch at 1, exec at 1; world_simpl;
    (match goal with
     | |- context [execOutcome w ?n "wg-quick up wg0"] =>
         destruct (Hup n) as [k3 E3]; rewrite E3
     end);
    unfold __syncConfig, bind, exec, ret; world_simpl;
    (match goal with
     | |- context [execOutcome w ?n "wg syncconf wg0 <(wg-quick strip wg0)"] =>
         destruct (Hsync n) as [k4 E4]; rewrite E4
     end);
    do 2 eexists; (split; [reflexivity|]);
    (split; [split; [reflexivity|];
             world_simpl; rewrite nth_error_app2 by lia;
             now rewrite Nat.sub_diag|]);
    repeat split.
Qed.

End LoaderEdges.

Lemma storedWorld_succeeds (cmd : string) : commandSucceeds storedWorld cmd.
Proof. intros n. apply sampleExec_succeeds. Qed.

(** No host name: nothing happens, although a document is there. *)
Lemma getConfig_requires_host_witness :
  fst (getConfig noHostSettings storedWorld)
  = Err (Error_ "WG_HOST Environment Variable Not Set!") /\
  trace (snd (getConfig noHostSettings storedWorld)) = [].
Proof.
  rewrite (getConfig_requires_host noHostSettings storedWorld eq_refl eq_refl).
  split; reflexivity.
Defined.

(** After that failure, listing the peers fails in the same way. *)
Lemma rejected_load_is_final_witness :
  fst (getClients noHostSettings
         (runAll noHostSettings [OpGetConfig; OpShutdown]
            (snd (getConfig noHostSettings storedWorld))))
  = Err (Error_ "WG_HOST Environment Variable Not Set!").
Proof.
  destruct (rejected_load_is_final noHostSettings
              (snd (getConfig noHostSettings storedWorld))
              (Error_ "WG_HOST Environment Variable Not Set!")
              [OpGetConfig; OpShutdown] eq_refl) as (_ & _ & H & _).
  rewrite H. reflexivity.
Defined.

(** A start on the sample document. *)
Lemma getConfig_from_document_witness :
  exists w1,
    getConfig sampleSettings storedWorld = (Ok 0%nat, w1) /\
    loaded w1 0%nat sampleConfig /\
    wg0_conf w1 = Some (renderConfig sampleSettings sampleConfig).
Proof.
  destruct (getConfig_from_document sampleSettings storedWorld sampleConfig
              eq_refl eq_refl eq_refl (fun _ _ => eq_refl)
              (storedWorld_succeeds _) (storedWorld_succeeds _))
    as (w1 & E & Hl & _ & Hc & _).
  exists w1. auto.
Defined.

(** A host without the kernel module: the error of [wg-quick up] is
    replaced by the diagnostic. *)
Lemma getConfig_interface_does_not_start_witness :
  fst (getConfig sampleSettings
         (sampleWorldWith (Some sampleConfig) [] None
            (sampleExecFailing "wg-quick up wg0"
               (Error_ ("RTNETLINK: " ++ deviceNotFound)))
            (fun _ _ => None)))
  = Err (Error_ kernelDiagnostic).
Proof.
  destruct (getConfig_interface_does_not_start sampleSettings
              (sampleWorldWith (Some sampleConfig) [] None
                 (sampleExecFailing "wg-quick up wg0"
                    (Error_ ("RTNETLINK: " ++ deviceNotFound)))
                 (fun _ _ => None))
              sampleConfig (Error_ ("RTNETLINK: " ++ deviceNotFound))
              eq_refl eq_refl eq_refl (fun _ _ => eq_refl) (fun _ => eq_refl))
    as (w1 & E & _).
  rewrite E. reflexivity.
Defined.

(** A first start in the sample environment. *)
Lemma getConfig_bootstrap_keys_witness :
  exists w1 c,
    getConfig sampleSettings freshWorld = (Ok 0%nat, w1) /\
    loaded w1 0%nat c /\
    s_privateKey (server c) = "PRIV" /\ s_publicKey (server c) = "PUB".
Proof.
  destruct (getConfig_bootstrap_keys sampleSettings freshWorld "PRIV" "PUB"
              eq_refl eq_refl eq_refl eq_refl eq_refl (fun _ _ => eq_refl)
              (fun n => sampleExec_succeeds n _)
              (fun n => sampleExec_succeeds n _))
    as (w1 & c & E & Hl & H1 & H2 & _).
  exists w1, c. auto.
Defined.

(** A host without the [wg] tool and without a document. *)
Lemma getConfig_key_generation_fails_witness :
  exists w1,
    getConfig sampleSettings
      (sampleWorldWith None [] None
         (sampleExecFailing "wg genkey" (Error_ "wg: not found"))
         (fun _ _ => None))
    = (Err (Error_ "wg: not found"), w1) /\
    heap w1 = [] /\ wg0_json w1 = None /\ wg0_conf w1 = None.
Proof.
  destruct (getConfig_key_generation_fails sampleSettings
              (sampleWorldWith None [] None
                 (sampleExecFailing "wg genkey" (Error_ "wg: not found"))
                 (fun _ _ => None))
              (Error_ "wg: not found")
              eq_refl eq_refl eq_refl (fun _ => eq_refl))
    as (w1 & E & _ & Hh & Hj & Hc & _).
  exists w1. auto.
Defined.

(** ** Saving: what a failure leaves behind, and reading back *)

Section SaveEdges.

Variable env : Settings.

Ltac world_simpl :=
  cbn [execOutcome writeOutcome log set_json set_conf set_heap
       set_configPromise set_realm realm trace length heap wg0_json wg0_conf
       configPromise].

(** X12.  [saveConfig] stops at the first step that fails.  If [wg0.json] cannot be
    written, neither file changes.  If [wg0.json] is written and [wg0.conf]
    cannot be, the two files disagree from then on.  In both cases the
    daemon is not told to synchronise.  If only the synchronisation fails,
    both files are already written. *)
Theorem saveConfig_stops_at_first_failure
        (w : World) (config : loc) (c : Config) (e : error) :
  loaded w config c ->
  (writeOutcome w (length (trace w)) "wg0.json" = Some e ->
   exists w',
     saveConfig env w = (Err e, w') /\
     wg0_json w' = wg0_json w /\ wg0_conf w' = wg0_conf w /\
     trace w' = EvWriteFile "wg0.json" :: trace w) /\
  (writeOutcome w (length (trace w)) "wg0.json" = None ->
   writeOutcome w (S (length (trace w))) "wg0.conf" = Some e ->
   exists w',
     saveConfig env w = (Err e, w') /\
     wg0_json w' = Some c /\ wg0_conf w' = wg0_conf w /\
     trace w' = EvWriteFile "wg0.conf" :: EvWriteFile "wg0.json" :: trace w) /\
  (writeOutcome w (length (trace w)) "wg0.json" = None ->
   writeOutcome w (S (length (trace w))) "wg0.conf" = None ->
   execOutcome w (S (S (length (trace w))))
     "wg syncconf wg0 <(wg-quick strip wg0)" = Err e ->
   exists w',
     saveConfig env w = (Err e, w') /\
     wg0_json w' = Some c /\ wg0_conf w' = Some (renderConfig env c)).
Proof.
  intros [Hp Hh].
  assert (E : saveConfig env w
              = (__saveConfig env config ;;; __syncConfig) w).
  { unfold saveConfig, bind at 1. now rewrite (getConfig_cached env w _ Hp). }
  rewrite E. clear E.
  unfold __saveConfig, __syncConfig, bind, deref, writeJson, writeConf, exec.
  rewrite Hh. split; [|split].
  - intros H1. rewrite H1. eexists. repeat split.
  - intros H1 H2. rewrite H1. world_simpl. rewrite H2. eexists.
    repeat split.
  - intros H1 H2 H3. rewrite H1. world_simpl. rewrite H2. world_simpl.
    rewrite H3. eexists. repeat split.
Qed.

(** When [saveConfig] returns, both files hold the object in memory, which
    is untouched, and the environment is the same. *)
Lemma saveConfig_returns (w w' : World) (config : loc) (c : Config) :
  loaded w config c ->
  saveConfig env w = (Ok tt, w') ->
  wg0_json w' = Some c /\
  wg0_conf w' = Some (renderConfig env c) /\
  heap w' = heap w /\
  execOutcome w' = execOutcome w /\
  writeOutcome w' = writeOutcome w.
Proof.
  intros [Hp Hh]. unfold saveConfig, bind at 1.
  rewrite (getConfig_cached env w _ Hp).
  unfold __saveConfig, __syncConfig, bind, deref, writeJson, writeConf, exec.
  rewrite Hh. world_simpl.
  destruct (writeOutcome w (length (trace w)) "wg0.json"); [discriminate|].
  world_simpl.
  destruct (writeOutcome w (S (length (trace w))) "wg0.conf"); [discriminate|].
  world_simpl.
  destruct (execOutcome w _ _); [|discriminate].
  unfold ret. intros H. injection H as <-. repeat split.
Qed.

(** X13.  Saving and starting again: a new process started on the files a
    successful [saveConfig] leaves behind loads exactly the configuration
    that was in memory, peers, keys and time stamps included. *)
Theorem save_then_restart_reads_back
        (w w' : World) (config : loc) (c : Config) :
  loaded w config c ->
  saveConfig env w = (Ok tt, w') ->
  truthy (WG_HOST env) = true ->
  writesSucceed w ->
  commandSucceeds w "wg-quick up wg0" ->
  commandSucceeds w "wg syncconf wg0 <(wg-quick strip wg0)" ->
  exists config2 w2,
    getConfig env (restart w') = (Ok config2, w2) /\
    loaded w2 config2 c /\
    wg0_conf w2 = wg0_conf w'.
Proof.
  intros Hl Hs Hhost Hw Hup Hsync.
  destruct (saveConfig_returns w w' config c Hl Hs)
    as (Hj & Hc & _ & Hx & Hwo).
  destruct (loadConfig_from_document env (restart w') c)
    as (w2 & E & Hl2 & _ & Hc2 & _).
  - reflexivity.
  - exact Hj.
  - exact Hhost.
  - intros n file. unfold restart. world_simpl. rewrite Hwo. apply Hw.
  - intros n. unfold restart. world_simpl. rewrite Hx. apply Hup.
  - intros n. unfold restart. world_simpl. rewrite Hx. apply Hsync.
  - exists (length (heap (restart w'))), w2.
    split; [exact E|]. split; [exact Hl2|]. now rewrite Hc2, Hc.
Qed.

End SaveEdges.

(** The configuration file cannot be written: [wg0.json] is, [wg0.conf] is
    not, and the call fails. *)
Lemma saveConfig_stops_at_first_failure_witness :
  exists w',
    saveConfig sampleSettings
      (sampleWorldWith None [sampleConfig] (Some (Ok 0%nat)) sampleExec
         (fun _ file => if String.eqb file "wg0.conf"
                        then Some (Error_ "EACCES") else None))
    = (Err (Error_ "EACCES"), w') /\
    wg0_json w' = Some sampleConfig /\ wg0_conf w' = None.
Proof.
  destruct (saveConfig_stops_at_first_failure sampleSettings
              (sampleWorldWith None [sampleConfig] (Some (Ok 0%nat)) sampleExec
                 (fun _ file => if String.eqb file "wg0.conf"
                                then Some (Error_ "EACCES") else None))
              0%nat sampleConfig (Error_ "EACCES") (conj eq_refl eq_refl))
    as (_ & H & _).
  destruct (H eq_refl eq_refl) as (w' & E & Hj & Hc & _).
  exists w'. auto.
Defined.

(** The sample state, saved and loaded again by a new process. *)
Lemma save_then_restart_reads_back_witness :
  exists w' config2 w2,
    saveConfig sampleSettings sampleWorld = (Ok tt, w') /\
    getConfig sampleSettings (restart w') = (Ok config2, w2) /\
    loaded w2 config2 sampleConfig.
Proof.
  destruct (saveConfig_ok sampleSettings sampleWorld 0%nat sampleConfig
              sampleWorld_loaded sampleWorld_writesSucceed
              (sampleWorld_commandSucceeds _)) as (w' & E & _).
  destruct (save_then_restart_reads_back sampleSettings sampleWorld w' 0%nat
              sampleConfig sampleWorld_loaded E eq_refl
              sampleWorld_writesSucceed (sampleWorld_commandSucceeds _)
              (sampleWorld_commandSucceeds _))
    as (config2 & w2 & E2 & Hl & _).
  exists w', config2, w2. auto.
Defined.

(** ** Reading *)

Section Reading.

Variable env : Settings.
Variable toSVG : string -> result string.

(** X14.  Listing the peers and looking one up never change what is stored: the
    objects in memory, both files and the promise are the same afterwards,
    whether the call succeeds or not.  [getClients] runs exactly one
    command; the two lookups run none. *)
Theorem reading_changes_nothing
        (w : World) (config : loc) (c : Config) (clientId : string) :
  loaded w config c ->
  (exists r,
      getClients env w = (r, log (EvExec "wg show wg0 dump") w)) /\
  (exists r, getClient env clientId w = (r, w)) /\
  (exists r, getClientConfiguration env clientId w = (r, w)) /\
  (exists r, getClientQRCodeSVG env toSVG clientId w = (r, w)).
Proof.
  intros [Hp Hh].
  assert (Hg : exists r, getClient env clientId w = (r, w)).
  { unfold getClient, bind at 1. rewrite (getConfig_cached env w _ Hp).
    unfold bind. rewrite (deref_loaded w config c Hh). unfold getRealm.
    destruct (truthyTarget (property config c (realm w) clientId));
      [destruct (property config c (realm w) clientId)|];
      eexists; reflexivity. }
  assert (Hc : exists r, getClientConfiguration env clientId w = (r, w)).
  { unfold getClientConfiguration, bind at 1.
    rewrite (getConfig_cached env w _ Hp). unfold bind at 1.
    destruct Hg as [[x|e] Hg]; rewrite Hg.
    - unfold bind. rewrite (deref_loaded w config c Hh). eexists. reflexivity.
    - eexists. reflexivity. }
  split; [|split; [exact Hg|split; [exact Hc|]]].
  - unfold getClients, bind at 1. rewrite (getConfig_cached env w _ Hp).
    unfold bind at 1. rewrite (deref_loaded w config c Hh).
    unfold bind, exec. destruct (execOutcome w _ _); eexists; reflexivity.
  - unfold getClientQRCodeSVG, bind. destruct Hc as [[t|e] Hc]; rewrite Hc;
      eexists; reflexivity.
Qed.

Lemma inherited_outside (rl : Realm) (k : string) (x : target) :
  inherited rl k = Some x -> outside x = true.
Proof.
  unfold inherited.
  destruct (existsb (String.eqb k) prototypeFunctions);
    [intros H; injection H as <-; reflexivity|].
  destruct (String.eqb k "__proto__");
    [intros H; injection H as <-; reflexivity|].
  destruct (String.eqb k "enabled");
    [destruct (o_enabled (prototypeProps rl)); cbn [option_map]; intros H;
     [injection H as <-; reflexivity|discriminate H]|].
  destruct (String.eqb k "updatedAt");
    [destruct (o_updatedAt (prototypeProps rl)); cbn [option_map]; intros H;
     [injection H as <-; reflexivity|discriminate H]|].
  destruct (String.eqb k "name");
    [destruct (o_name (prototypeProps rl)); cbn [option_map]; intros H;
     [injection H as <-; reflexivity|discriminate H]|].
  destruct (String.eqb k "address");
    [destruct (o_address (prototypeProps rl)); cbn [option_map]; intros H;
     [injection H as <-; reflexivity|discriminate H]|].
  discriminate.
Qed.

Lemma outside_reads (x : target) :
  outside x = true ->
  read_privateKey x = None /\ read_cidrSubnet x = None /\
  read_preSharedKey x = None.
Proof. destruct x; [discriminate|..]; repeat split. Qed.

(** X15.  For a stored peer the encoder is given exactly the text of
    [getClientConfiguration], and its answer, picture or error, is the
    result.  An identifier that is neither stored nor the name of a truthy
    property inherited from [Object.prototype] is refused with status 404
    before the encoder is asked anything.  For the name of such a property
    the encoder is asked as well: the text it is given has the placeholder
    key, no pre-shared key, an undefined subnet width, and the address the
    inherited value has, if any. *)
Theorem getClientQRCodeSVG_encodes_the_configuration
        (w : World) (config : loc) (c : Config) (clientId : string) :
  loaded w config c ->
  (forall client,
      lookup clientId (clients c) = Some client ->
      getClientQRCodeSVG env toSVG clientId w
      = (toSVG (clientConfiguration env c client), w)) /\
  (lookup clientId (clients c) = None ->
   truthyTarget (inherited (realm w) clientId) = false ->
   getClientQRCodeSVG env toSVG clientId w
   = (Err (ServerError ("Client Not Found: " ++ clientId) 404), w)) /\
  (forall x,
      lookup clientId (clients c) = None ->
      inherited (realm w) clientId = Some x ->
      truthyTarget (Some x) = true ->
      getClientQRCodeSVG env toSVG clientId w
      = (toSVG (configurationText env c None (read_address (realm w) x)
                  None None), w)).
Proof.
  intros [Hp Hh].
  pose proof (getConfig_cached env w _ Hp) as Hg.
  split; [|split].
  - intros client Hl. unfold getClientQRCodeSVG, bind at 1.
    unfold getClientConfiguration, bind at 1. rewrite Hg. unfold bind at 1.
    rewrite (getClient_present env w w config c clientId client Hg Hh Hl).
    unfold bind. rewrite (deref_loaded w config c Hh). reflexivity.
  - intros Hl Hi. unfold getClientQRCodeSVG, bind at 1.
    unfold getClientConfiguration, bind at 1. rewrite Hg. unfold bind at 1.
    rewrite (getClient_absent env w w config c clientId Hg Hh Hl Hi).
    reflexivity.
  - intros x Hl Hi Ht. unfold getClientQRCodeSVG, bind at 1.
    unfold getClientConfiguration, bind at 1. rewrite Hg. unfold bind at 1.
    rewrite (getClient_inherited env w w config c clientId x Hg Hh Hl Hi Ht).
    unfold bind. rewrite (deref_loaded w config c Hh). unfold getRealm.
    destruct (outside_reads _ (inherited_outside _ _ _ Hi)) as (-> & -> & ->).
    reflexivity.
Qed.

(** X16.  A dump that consists of its header line alone, or is empty, leaves every
    entry with its defaults: the first line is never matched to a peer. *)
Theorem getClients_header_only_dump
        (w : World) (config : loc) (c : Config) (dump : string) :
  loaded w config c ->
  execOutcome w (length (trace w)) "wg show wg0 dump" = Ok dump ->
  singleLine (trim dump) = true ->
  fst (getClients env w) = Ok (map toEntry (clients c)) /\
  (forall e, In e (map toEntry (clients c)) ->
             e_latestHandshakeAt e = None /\ e_transferRx e = None /\
             e_transferTx e = None /\ e_persistentKeepalive e = Null).
Proof.
  intros Hl Hd Hs. rewrite (getClients_run env w config c dump Hl Hd).
  split.
  - simpl. unfold mergeDump, dumpLines.
    rewrite (split_lacks _ _ Hs). reflexivity.
  - intros e He. apply in_map_iff in He as ([k cl] & <- & _).
    repeat split.
Qed.

End Reading.

(** Looking at the sample state in every way leaves it as it is. *)
Lemma reading_changes_nothing_witness :
  (exists r, getClient sampleSettings "id-1" sampleWorld = (r, sampleWorld)) /\
  (exists r, getClientConfiguration sampleSettings "id-7" sampleWorld
             = (r, sampleWorld)).
Proof.
  destruct (reading_changes_nothing sampleSettings (fun t => Ok t) sampleWorld
              0%nat sampleConfig "id-1" sampleWorld_loaded)
    as (_ & H1 & _).
  destruct (reading_changes_nothing sampleSettings (fun t => Ok t) sampleWorld
              0%nat sampleConfig "id-7" sampleWorld_loaded)
    as (_ & _ & H2 & _).
  exact (conj H1 H2).
Defined.

(** With an encoder that fails on every text, the unknown peer still gets
    404 and the stored one the encoder's error; so does [constructor], whose
    text has the placeholder key and an undefined address. *)
Lemma getClientQRCodeSVG_encodes_the_configuration_witness :
  fst (getClientQRCodeSVG sampleSettings (fun _ => Err (Error_ "too long"))
         "id-7" sampleWorld)
  = Err (ServerError "Client Not Found: id-7" 404) /\
  fst (getClientQRCodeSVG sampleSettings (fun _ => Err (Error_ "too long"))
         "id-1" sampleWorld)
  = Err (Error_ "too long") /\
  fst (getClientQRCodeSVG sampleSettings (fun _ => Err (Error_ "too long"))
         "constructor" sampleWorld)
  = Err (Error_ "too long") /\
  fst (getClientQRCodeSVG sampleSettings (fun t => Ok t)
         "constructor" sampleWorld)
  = Ok (configurationText sampleSettings sampleConfig None None None None) /\
  firstn 4 (split "010"%char
              (configurationText sampleSettings sampleConfig
                 None None None None))
  = [ EmptyString; "[Interface]"; "PrivateKey = REPLACE_ME";
      "Address = undefined/undefined" ].
Proof.
  destruct (getClientQRCodeSVG_encodes_the_configuration sampleSettings
              (fun _ => Err (Error_ "too long")) sampleWorld 0%nat sampleConfig
              "id-7" sampleWorld_loaded) as (_ & H1 & _).
  destruct (getClientQRCodeSVG_encodes_the_configuration sampleSettings
              (fun _ => Err (Error_ "too long")) sampleWorld 0%nat sampleConfig
              "id-1" sampleWorld_loaded) as (H2 & _).
  destruct (getClientQRCodeSVG_encodes_the_configuration sampleSettings
              (fun _ => Err (Error_ "too long")) sampleWorld 0%nat sampleConfig
              "constructor" sampleWorld_loaded) as (_ & _ & H3).
  destruct (getClientQRCodeSVG_encodes_the_configuration sampleSettings
              (fun t => Ok t) sampleWorld 0%nat sampleConfig
              "constructor" sampleWorld_loaded) as (_ & _ & H4).
  rewrite (H1 eq_refl eq_refl), (H2 alice eq_refl),
    (H3 (TFunction "constructor") eq_refl eq_refl eq_refl),
    (H4 (TFunction "constructor") eq_refl eq_refl eq_refl).
  repeat split.
Defined.

(** The daemon knows no peer yet: the dump is its header. *)
Lemma getClients_header_only_dump_witness :
  fst (getClients sampleSettings
         (sampleWorldWith None [sampleConfig] (Some (Ok 0%nat))
            (fun _ _ => Ok ("PRIV" ++ TAB ++ "PUB" ++ TAB ++ "51820" ++ TAB ++ "off"))
            (fun _ _ => None)))
  = Ok (map toEntry (clients sampleConfig)).
Proof.
  apply (getClients_header_only_dump sampleSettings
           (sampleWorldWith None [sampleConfig] (Some (Ok 0%nat))
              (fun _ _ => Ok ("PRIV" ++ TAB ++ "PUB" ++ TAB ++ "51820" ++ TAB ++ "off"))
              (fun _ _ => None))
           0%nat sampleConfig
           ("PRIV" ++ TAB ++ "PUB" ++ TAB ++ "51820" ++ TAB ++ "off")
           (conj eq_refl eq_refl) eq_refl eq_refl).
Defined.

(** ** Identifiers that name inherited properties *)

Section Inherited.

Variable env : Settings.

(** An assignment to a value that is not a stored peer leaves the objects
    in memory, the promise, the files and the environment alone. *)
Lemma assignField_outside (x : target) (f : field) (w : World) :
  outside x = true ->
  heap (snd (assignField x f w)) = heap w /\
  configPromise (snd (assignField x f w)) = configPromise w /\
  trace (snd (assignField x f w)) = trace w.
Proof.
  destruct x; [discriminate|..]; intros _; try destruct f;
    repeat split.
Qed.

(** The assignments and the save that follow the lookup in a mutation. *)
Lemma assignments_outside (x : target) (f : field) (w : World)
      (config : loc) :
  outside x = true ->
  configPromise w = Some (Ok config) ->
  exists r w',
    (assignField x f ;;;
     t <- now ;;
     assignField x (FUpdatedAt t) ;;;
     saveConfig env) w = (r, w') /\
    heap w' = heap w /\ configPromise w' = configPromise w.
Proof.
  intros Hx Hp. unfold bind at 1.
  destruct (assignField_outside x f w Hx) as (H1 & P1 & _).
  destruct (assignField x f w) as [[u|e] w1]; cbn [snd] in *;
    [|do 2 eexists; split; [reflexivity|split; assumption]].
  unfold bind at 1, now.
  set (w2 := log EvNow w1).
  unfold bind at 1.
  destruct (assignField_outside x (FUpdatedAt (clock w1 (length (trace w1))))
              w2 Hx) as (H3 & P3 & _).
  destruct (assignField x (FUpdatedAt (clock w1 (length (trace w1)))) w2)
    as [[u'|e] w3]; cbn [snd] in *.
  - assert (Hp3 : configPromise w3 = Some (Ok config)).
    { rewrite P3. unfold w2. cbn [log configPromise]. now rewrite P1. }
    destruct (saveConfig_heap env w3 config Hp3) as (r & w4 & E & H4 & P4).
    exists r, w4. split; [exact E|]. split.
    + rewrite H4, H3. exact H1.
    + rewrite P4, P3. exact P1.
  - do 2 eexists. split; [reflexivity|].
    split; [rewrite H3; exact H1|rewrite P3; exact P1].
Qed.

(** What [getClient] answers for an identifier that is not stored. *)
Lemma getClient_unstored (w : World) (config : loc) (c : Config)
      (clientId : string) :
  loaded w config c ->
  lookup clientId (clients c) = None ->
  getClient env clientId w
  = (Err (ServerError ("Client Not Found: " ++ clientId) 404), w) \/
  exists x, outside x = true /\ getClient env clientId w = (Ok x, w).
Proof.
  intros [Hp Hh] Hl.
  pose proof (getConfig_cached env w _ Hp) as Hg.
  destruct (truthyTarget (inherited (realm w) clientId)) eqn:Ht.
  - destruct (inherited (realm w) clientId) as [x|] eqn:Hi; [|discriminate].
    right. exists x. split; [exact (inherited_outside _ _ _ Hi)|].
    exact (getClient_inherited env w w config c clientId x Hg Hh Hl Hi Ht).
  - left. exact (getClient_absent env w w config c clientId Hg Hh Hl Ht).
Qed.

(** X19.  An operation on an identifier under which nothing is stored never
    changes the stored peers, whether it is refused with 404, fails on the
    assignment, or, for the name of an inherited property, runs to the end:
    the objects in memory and the promise are the same afterwards. *)
Theorem unstored_ids_leave_the_peers_alone
        (w : World) (config : loc) (c : Config)
        (clientId name_ address_ : string) (o : operation) :
  loaded w config c ->
  lookup clientId (clients c) = None ->
  In o [ OpGetClient clientId; OpGetClientConfiguration clientId;
         OpDeleteClient clientId; OpEnableClient clientId;
         OpDisableClient clientId; OpUpdateClientName clientId name_;
         OpUpdateClientAddress clientId address_ ] ->
  heap (run env o w) = heap w /\
  configPromise (run env o w) = configPromise w /\
  loaded (run env o w) config c.
Proof.
  intros Hl Hn Ho. pose proof Hl as [Hp Hh].
  assert (Hrun : forall A (m : M A),
             (exists r w', m w = (r, w') /\ heap w' = heap w /\
                           configPromise w' = configPromise w) ->
             heap (snd (m w)) = heap w /\
             configPromise (snd (m w)) = configPromise w).
  { intros A m (r & w' & -> & H1 & H2). split; assumption. }
  assert (Hsame : forall A (r : result A),
             exists r' w', (r, w) = (r', w') /\ heap w' = heap w /\
                           configPromise w' = configPromise w).
  { intros A r. exists r, w. repeat split. }
  assert (H : heap (run env o w) = heap w /\
              configPromise (run env o w) = configPromise w).
  { pose proof (getClient_unstored w config c clientId Hl Hn) as Hg.
    cbn [In] in Ho.
    destruct Ho as [<-|[<-|[<-|[<-|[<-|[<-|[<-|[]]]]]]]]; cbn [run];
      apply Hrun.
    - destruct Hg as [Hg|(x & Hx & Hg)]; rewrite Hg; apply Hsame.
    - unfold getClientConfiguration, bind at 1.
      rewrite (getConfig_cached env w _ Hp). unfold bind at 1.
      destruct Hg as [Hg|(x & Hx & Hg)]; rewrite Hg; [apply Hsame|].
      unfold bind. rewrite (deref_loaded w config c Hh). apply Hsame.
    - rewrite (deleteClient_unstored env w config c clientId Hl Hn).
      destruct (truthyTarget (inherited (realm w) clientId));
        [|apply Hsame].
      exact (saveConfig_heap env w config Hp).
    - unfold enableClient, bind at 1.
      destruct Hg as [Hg|(x & Hx & Hg)]; rewrite Hg; [apply Hsame|].
      exact (assignments_outside x (FEnabled true) w config Hx Hp).
    - unfold disableClient, bind at 1.
      destruct Hg as [Hg|(x & Hx & Hg)]; rewrite Hg; [apply Hsame|].
      exact (assignments_outside x (FEnabled false) w config Hx Hp).
    - unfold updateClientName, bind at 1.
      destruct Hg as [Hg|(x & Hx & Hg)]; rewrite Hg; [apply Hsame|].
      exact (assignments_outside x (FName name_) w config Hx Hp).
    - unfold updateClientAddress, bind at 1.
      destruct Hg as [Hg|(x & Hx & Hg)]; rewrite Hg; [apply Hsame|].
      destruct (negb (isValidIPv4 address_)); [apply Hsame|].
      exact (assignments_outside x (FAddress address_) w config Hx Hp). }
  destruct H as [H1 H2]. split; [exact H1|]. split; [exact H2|].
  split; [rewrite H2; exact Hp|rewrite H1; exact Hh].
Qed.

(** What the assignments of a mutation make of the objects outside the
    configuration, when the value looked up is [Object.prototype] or a
    [Date]: both assignments go through. *)
Lemma assignments_realm (x : target) (f : field) (w : World) (config : loc) :
  configPromise w = Some (Ok config) ->
  (x = TPrototype \/ exists d, x = TDate d) ->
  exists r w',
    (assignField x f ;;;
     t <- now ;;
     assignField x (FUpdatedAt t) ;;;
     saveConfig env) w = (r, w') /\
    realm w'
    = assignOutside x (FUpdatedAt (clock w (length (trace w))))
        (assignOutside x f (realm w)) /\
    configPromise w' = configPromise w /\
    heap w' = heap w.
Proof.
  intros Hp Hx.
  assert (Ho : outside x = true) by (destruct Hx as [->|[d ->]]; reflexivity).
  destruct (assignments_outside x f w config Ho Hp) as (r & w' & E & Hh & Hq).
  exists r, w'. split; [exact E|]. split; [|split; [exact Hq|exact Hh]].
  change w' with (snd (r, w')). rewrite <- E.
  assert (Ea : forall g w0,
             assignField x g w0
             = (Ok tt, set_realm (assignOutside x g (realm w0)) w0)).
  { intros g w0. destruct Hx as [->|[d ->]]; reflexivity. }
  unfold bind at 1. rewrite Ea. unfold bind at 1, now.
  unfold bind at 1. rewrite Ea.
  rewrite (saveConfig_realm env _ config) by exact Hp.
  reflexivity.
Qed.

(** X20.  An identifier naming a function of [Object.prototype] cannot be
    renamed: the function's [name] is read-only, the assignment throws a
    [TypeError] and nothing is saved.  The identifier [__proto__] reaches
    [Object.prototype] itself: enabling or disabling it gives every object
    an inherited [enabled]; after enabling, the identifier [enabled] is found
    (as [true]) and an attempt to enable it throws a [TypeError]; after
    disabling, [enabled] is not found. *)
Theorem assignments_to_inherited_values
        (w : World) (config : loc) (c : Config) :
  loaded w config c ->
  (forall member name_,
      In member prototypeFunctions ->
      lookup member (clients c) = None ->
      exists m, updateClientName env member name_ w = (Err (TypeError m), w)) /\
  (lookup "__proto__" (clients c) = None ->
   lookup "enabled" (clients c) = None ->
   getClient env "__proto__" w = (Ok TPrototype, w) /\
   (let w1 := snd (enableClient env "__proto__" w) in
    loaded w1 config c /\
    getClient env "enabled" w1 = (Ok (TBoolean true), w1) /\
    exists m, enableClient env "enabled" w1 = (Err (TypeError m), w1)) /\
   (let w2 := snd (disableClient env "__proto__" w) in
    loaded w2 config c /\
    getClient env "enabled" w2
    = (Err (ServerError "Client Not Found: enabled" 404), w2))).
Proof.
  intros Hl. pose proof Hl as [Hp Hh].
  pose proof (getConfig_cached env w _ Hp) as Hg.
  split.
  - intros member name_ Hin Hn.
    eexists. unfold updateClientName, bind at 1.
    rewrite (getClient_inherited env w w config c member _ Hg Hh Hn
               (inherited_function _ _ Hin) eq_refl).
    reflexivity.
  - intros Hn He.
    assert (Hproto : getClient env "__proto__" w = (Ok TPrototype, w)).
    { exact (getClient_inherited env w w config c "__proto__" _ Hg Hh Hn
               eq_refl eq_refl). }
    split; [exact Hproto|]. split.
    + destruct (assignments_realm TPrototype (FEnabled true) w config Hp
                  (or_introl eq_refl)) as (r & w1 & E & Hr & Hq & Hhp).
      assert (Ee : enableClient env "__proto__" w = (r, w1)).
      { unfold enableClient, bind at 1. rewrite Hproto. exact E. }
      rewrite Ee. cbn [snd].
      assert (Hl1 : loaded w1 config c).
      { split; [rewrite Hq; exact Hp|rewrite Hhp; exact Hh]. }
      assert (Hi : inherited (realm w1) "enabled" = Some (TBoolean true)).
      { rewrite Hr. reflexivity. }
      pose proof (getClient_inherited env w1 w1 config c "enabled" _
                    (getConfig_cached env w1 _ (proj1 Hl1)) (proj2 Hl1)
                    He Hi eq_refl) as Hg1.
      split; [exact Hl1|]. split; [exact Hg1|].
      eexists. unfold enableClient, bind at 1. rewrite Hg1. reflexivity.
    + destruct (assignments_realm TPrototype (FEnabled false) w config Hp
                  (or_introl eq_refl)) as (r & w2 & E & Hr & Hq & Hhp).
      assert (Ed : disableClient env "__proto__" w = (r, w2)).
      { unfold disableClient, bind at 1. rewrite Hproto. exact E. }
      rewrite Ed. cbn [snd].
      assert (Hl2 : loaded w2 config c).
      { split; [rewrite Hq; exact Hp|rewrite Hhp; exact Hh]. }
      split; [exact Hl2|].
      apply (getClient_absent env w2 w2 config c "enabled"
               (getConfig_cached env w2 _ (proj1 Hl2)) (proj2 Hl2) He).
      rewrite Hr. reflexivity.
Qed.

End Inherited.

(** On the sample state: enabling [toString] changes no peer, and the call
    returns. *)
Lemma unstored_ids_leave_the_peers_alone_witness :
  heap (run sampleSettings (OpEnableClient "toString") sampleWorld)
  = [sampleConfig] /\
  fst (enableClient sampleSettings "toString" sampleWorld) = Ok tt.
Proof.
  destruct (unstored_ids_leave_the_peers_alone sampleSettings sampleWorld
              0%nat sampleConfig "toString" EmptyString EmptyString
              (OpEnableClient "toString") sampleWorld_loaded eq_refl)
    as (H & _).
  { cbn [In]. tauto. }
  split; [exact H|reflexivity].
Defined.

(** On the sample state: [valueOf] cannot be renamed; after enabling
    [__proto__], [enabled] is found and cannot be enabled. *)
Lemma assignments_to_inherited_values_witness :
  (exists m,
      updateClientName sampleSettings "valueOf" "dave" sampleWorld
      = (Err (TypeError m), sampleWorld)) /\
  fst (enableClient sampleSettings "__proto__" sampleWorld) = Ok tt /\
  fst (getClient sampleSettings "enabled"
         (snd (enableClient sampleSettings "__proto__" sampleWorld)))
  = Ok (TBoolean true) /\
  fst (getClient sampleSettings "enabled" sampleWorld)
  = Err (ServerError "Client Not Found: enabled" 404).
Proof.
  destruct (assignments_to_inherited_values sampleSettings sampleWorld 0%nat
              sampleConfig sampleWorld_loaded) as [H1 H2].
  destruct (H2 eq_refl eq_refl) as (_ & (_ & Hg & _) & _).
  split.
  { apply (H1 "valueOf" "dave"); [cbn [In prototypeFunctions]; tauto
                                  |reflexivity]. }
  split; [reflexivity|]. split; [rewrite Hg; reflexivity|reflexivity].
Defined.

(** ** The address scan of [createClient] *)

Section Scan.

Lemma eqb_app_l (a x y : string) :
  String.eqb (a ++ x) (a ++ y) = String.eqb x y.
Proof.
  induction a as [|ch a IH]; simpl; [reflexivity|].
  now rewrite Ascii.eqb_refl.
Qed.

(** X17.  The test the scan applies to a stored peer is not vacuous: for an
    address of four components it holds exactly when the last component is
    the decimal writing of the candidate. *)
Theorem sameWithSuffix_compares_last_component
        (client : Client) (a b c d : string) (i : Z) :
  lacks "." a = true -> lacks "." b = true ->
  lacks "." c = true -> lacks "." d = true ->
  address client = a ++ "." ++ b ++ "." ++ c ++ "." ++ d ->
  sameWithSuffix i client = String.eqb d (Z_to_string i).
Proof.
  intros Ha Hb Hc Hd HA. unfold sameWithSuffix. rewrite HA.
  change (a ++ "." ++ b ++ "." ++ c ++ "." ++ d)
    with (a ++ String "." (b ++ String "." (c ++ String "." d))).
  rewrite !split_cons by assumption. rewrite (split_lacks _ _ Hd).
  cbn [map assignIndex join elemToString].
  rewrite eqb_app_l. change ("." ++ b ++ "." ++ c ++ "." ++ Z_to_string i)
    with (String "." (b ++ "." ++ c ++ "." ++ Z_to_string i)).
  cbn [String.eqb]. rewrite Ascii.eqb_refl.
  rewrite eqb_app_l.
  change ("." ++ c ++ "." ++ Z_to_string i)
    with (String "." (c ++ "." ++ Z_to_string i)).
  cbn [String.eqb]. rewrite Ascii.eqb_refl.
  rewrite eqb_app_l.
  change ("." ++ Z_to_string i) with (String "." (Z_to_string i)).
  cbn [String.eqb]. rewrite Ascii.eqb_refl. reflexivity.
Qed.

End Scan.

(** Alice holds 10.8.0.2: candidate 2 is taken by her, candidate 3 is not. *)
Lemma sameWithSuffix_compares_last_component_witness :
  sameWithSuffix 2 alice = true /\ sameWithSuffix 3 alice = false.
Proof.
  rewrite (sameWithSuffix_compares_last_component alice "10" "8" "0" "2" 2
             eq_refl eq_refl eq_refl eq_refl eq_refl).
  rewrite (sameWithSuffix_compares_last_component alice "10" "8" "0" "2" 3
             eq_refl eq_refl eq_refl eq_refl eq_refl).
  split; reflexivity.
Defined.

(** ** What no operation changes *)

Section Stability.

Variable env : Settings.
Variable config : loc.
Variable n : nat.
Variable c0 : Config.

Let I := settled config n c0.

Lemma settled_frame (w w' : World) :
  configPromise w' = configPromise w -> heap w' = heap w -> I w -> I w'.
Proof.
  intros Hp Hh (H1 & H2 & H3). unfold I, settled. now rewrite Hp, Hh.
Qed.

Lemma pres_ret {A} (a : A) : preserves I (ret a).
Proof. intros w H. exact H. Qed.

Lemma pres_throw {A} (e : error) : preserves I (throw (A := A) e).
Proof. intros w H. exact H. Qed.

Lemma pres_bind {A B} (m : M A) (f : A -> M B) :
  preserves I m -> (forall a, preserves I (f a)) -> preserves I (bind m f).
Proof.
  intros Hm Hf w H. unfold bind. specialize (Hm w H).
  destruct (m w) as [[a|e] w']; simpl in Hm; [apply Hf|]; exact Hm.
Qed.

Lemma pres_exec (cmd : string) : preserves I (exec cmd).
Proof. intros w H. apply (settled_frame w); auto. Qed.

Lemma pres_now : preserves I now.
Proof. intros w H. apply (settled_frame w); auto. Qed.

Lemma pres_randomUUID : preserves I randomUUID.
Proof. intros w H. apply (settled_frame w); auto. Qed.

Lemma pres_writeJson (c : Config) : preserves I (writeJson c).
Proof.
  intros w H. unfold writeJson.
  destruct (writeOutcome w _ _); apply (settled_frame w); auto.
Qed.

Lemma pres_writeConf (s : string) : preserves I (writeConf s).
Proof.
  intros w H. unfold writeConf.
  destruct (writeOutcome w _ _); apply (settled_frame w); auto.
Qed.

Lemma pres_deref (l : loc) : preserves I (deref l).
Proof.
  intros w H. unfold deref. destruct (nth_error (heap w) l); exact H.
Qed.

Lemma pres_getConfig : preserves I (getConfig env).
Proof.
  intros w H. destruct H as (Hp & H). rewrite (getConfig_cached env w _ Hp).
  split; assumption.
Qed.

Lemma length_replaceNth {A} (l : list A) (k : nat) (x : A) :
  length (replaceNth k x l) = length l.
Proof.
  revert k. induction l as [|h t IH]; intros [|k]; simpl; auto.
Qed.

Lemma nth_error_replaceNth_other {A} (l : list A) (k k' : nat) (x : A) :
  k <> k' -> nth_error (replaceNth k x l) k' = nth_error l k'.
Proof.
  revert k k'. induction l as [|h t IH]; intros [|k] [|k'] H; simpl; auto;
    try congruence.
Qed.

(** An assignment to an object keeps the property when it maps a descendant
    of [c0] to a descendant of [c0]. *)
Lemma pres_update (l : loc) (f : Config -> Config) :
  (forall c, descends c0 c -> descends c0 (f c)) ->
  preserves I (update l f).
Proof.
  intros Hf w (Hp & Hn & c & Hc & Hd). unfold update.
  destruct (nth_error (heap w) l) as [c1|] eqn:E;
    [|split; [exact Hp|split; [exact Hn|exists c; auto]]].
  split; [exact Hp|]. split; [simpl; now rewrite length_replaceNth|].
  simpl. destruct (Nat.eq_dec l config) as [->|Hne].
  - rewrite Hc in E. injection E as <-.
    exists (f c). split; [apply (nth_error_replaceNth _ _ _ _ Hc)|auto].
  - exists c. split; [|exact Hd].
    now rewrite nth_error_replaceNth_other.
Qed.

Lemma descends_modify (k : string) (g : Client -> Client) (c : Config) :
  (forall cl, immutablePart (g cl) = immutablePart cl) ->
  descends c0 c ->
  descends c0 (set_clients (modify k g (clients c)) c).
Proof.
  intros Hg (Hs & Hn & Hk). split; [exact Hs|]. split.
  { simpl. now rewrite modify_keys. }
  intros k' cl Hl. simpl in Hl.
  destruct (string_dec k' k) as [->|Hne].
  - rewrite lookup_modify_same in Hl.
    destruct (lookup k (clients c)) as [cl1|] eqn:E; [|discriminate].
    injection Hl as <-. destruct (Hk k cl1 E) as (cl0 & H0 & Hi).
    exists cl0. split; [exact H0|]. now rewrite Hg.
  - rewrite lookup_modify_other in Hl by exact Hne. now apply Hk.
Qed.

Lemma remove_keys_incl (k : string) (m : list (string * Client)) (x : string) :
  In x (map fst (remove k m)) -> In x (map fst m).
Proof.
  induction m as [|[k' c] r IH]; simpl; [auto|].
  destruct (String.eqb k' k); simpl; [now right|].
  intros [H|H]; [now left|right; now apply IH].
Qed.

Lemma NoDup_remove (k : string) (m : list (string * Client)) :
  NoDup (map fst m) -> NoDup (map fst (remove k m)).
Proof.
  induction m as [|[k' c] r IH]; simpl; [auto|].
  intros H. apply NoDup_cons_iff in H as [Hk Hr].
  destruct (String.eqb k' k); [exact Hr|].
  simpl. constructor; [|now apply IH].
  intros Hin. apply Hk. now apply (remove_keys_incl k).
Qed.

Lemma descends_remove (k : string) (c : Config) :
  descends c0 c ->
  descends c0 (set_clients (remove k (clients c)) c).
Proof.
  intros (Hs & Hn & Hk). split; [exact Hs|]. split.
  { simpl. now apply NoDup_remove. }
  intros k' cl Hl. simpl in Hl.
  destruct (string_dec k' k) as [->|Hne].
  - rewrite (lookup_remove_same k _ Hn) in Hl. discriminate.
  - rewrite lookup_remove_other in Hl by exact Hne. now apply Hk.
Qed.

Lemma pres_getRealm : preserves I getRealm.
Proof. intros w H. exact H. Qed.

Lemma pres_modifyRealm (f : Realm -> Realm) : preserves I (modifyRealm f).
Proof. intros w H. apply (settled_frame w); auto. Qed.

(** An assignment of a mutation edits a stored peer or an object outside
    the configuration. *)
Lemma pres_assignField (x : target) (f : field) :
  preserves I (assignField x f).
Proof.
  destruct x as [l k cl|member| |d|b|s]; cbn [assignField].
  - apply pres_update. intros c Hd. apply descends_modify; [|exact Hd].
    intros cl'. destruct f; reflexivity.
  - destruct f; first [apply pres_modifyRealm | apply pres_throw].
  - apply pres_modifyRealm.
  - apply pres_modifyRealm.
  - apply pres_throw.
  - apply pres_throw.
Qed.

Ltac pres_step :=
  match goal with
  | |- forall _, preserves _ _ => intro
  | |- preserves _ (bind _ _) => apply pres_bind
  | |- preserves _ getRealm => apply pres_getRealm
  | |- preserves _ (assignField _ _) => apply pres_assignField
  | |- preserves _ (ret _) => apply pres_ret
  | |- preserves _ (throw _) => apply pres_throw
  | |- preserves _ (exec _) => apply pres_exec
  | |- preserves _ now => apply pres_now
  | |- preserves _ (writeJson _) => apply pres_writeJson
  | |- preserves _ (writeConf _) => apply pres_writeConf
  | |- preserves _ (deref _) => apply pres_deref
  | |- preserves _ (getConfig _) => apply pres_getConfig
  | |- preserves _ (update _ (fun c => set_clients (modify _ _ (clients c)) c)) =>
      apply pres_update; intros; apply descends_modify;
      [intros; reflexivity|assumption]
  | |- preserves _ (update _ (fun c => set_clients (remove _ (clients c)) c)) =>
      apply pres_update; intros; apply descends_remove; assumption
  | |- preserves _ (if ?b then _ else _) => destruct b
  | |- preserves _ (match ?x with Some _ => _ | None => _ end) => destruct x
  end.

Lemma pres_saveConfig : preserves I (saveConfig env).
Proof.
  unfold saveConfig, __saveConfig, __syncConfig. repeat pres_step.
Qed.

Lemma pres_getClient (clientId : string) : preserves I (getClient env clientId).
Proof. unfold getClient. repeat pres_step. Qed.

Lemma pres_mutation (clientId : string) (f : field) :
  preserves I
    (client <- getClient env clientId ;;
     assignField client f ;;;
     t <- now ;;
     assignField client (FUpdatedAt t) ;;;
     saveConfig env).
Proof.
  apply pres_bind; [apply pres_getClient|]. intros x.
  apply pres_bind; [apply pres_assignField|].
  intros _. apply pres_bind; [apply pres_now|]. intros t.
  apply pres_bind; [apply pres_assignField|].
  intros _. apply pres_saveConfig.
Qed.

(** [createClient] throws before it assigns anything. *)
Lemma pres_createClient (name_ : string) :
  preserves I (createClient env name_).
Proof.
  intros w H. pose proof H as (Hp & Hn & c & Hc & Hd).
  destruct (createClient_run env w config c name_ (conj Hp Hc))
    as (e & w' & E & (Hh & _) & _).
  apply (settled_frame w); [|rewrite E; exact Hh|exact H].
  transitivity (Some (Ok (A := loc) config)); [|symmetry; exact Hp].
  exact (run_keeps_promise env (OpCreateClient name_) w _ Hp).
Qed.

Lemma pres_getClients : preserves I (getClients env).
Proof. unfold getClients. repeat pres_step. Qed.

Lemma pres_getClientConfiguration (clientId : string) :
  preserves I (getClientConfiguration env clientId).
Proof.
  unfold getClientConfiguration.
  apply pres_bind; [apply pres_getConfig|]. intros l.
  apply pres_bind; [apply pres_getClient|]. intros r.
  repeat pres_step.
Qed.

Lemma pres_deleteClient (clientId : string) :
  preserves I (deleteClient env clientId).
Proof.
  unfold deleteClient.
  apply pres_bind; [apply pres_getConfig|]. intros l.
  apply pres_bind; [apply pres_deref|]. intros c.
  apply pres_bind; [apply pres_getRealm|]. intros rl.
  destruct (truthyTarget (property l c rl clientId)); [|apply pres_ret].
  apply pres_bind; [|intros _; apply pres_saveConfig].
  apply pres_update. intros c1 Hd. now apply descends_remove.
Qed.

Lemma pres_updateClientAddress (clientId address_ : string) :
  preserves I (updateClientAddress env clientId address_).
Proof.
  unfold updateClientAddress.
  apply pres_bind; [apply pres_getClient|]. intros x.
  destruct (negb (isValidIPv4 address_)); [apply pres_throw|].
  apply pres_bind; [apply pres_assignField|].
  intros _. apply pres_bind; [apply pres_now|]. intros t.
  apply pres_bind; [apply pres_assignField|].
  intros _. apply pres_saveConfig.
Qed.

Lemma pres_Shutdown : preserves I Shutdown.
Proof.
  intros w H. unfold Shutdown, bind, catch, exec.
  destruct (execOutcome w _ _); apply (settled_frame w); auto.
Qed.

Lemma pres_run (o : operation) (w : World) : I w -> I (run env o w).
Proof.
  revert w. destruct o; simpl.
  - apply pres_getConfig.
  - apply pres_saveConfig.
  - apply pres_getClients.
  - apply pres_getClient.
  - apply pres_getClientConfiguration.
  - apply pres_createClient.
  - apply pres_deleteClient.
  - apply (pres_mutation clientId (FEnabled true)).
  - apply (pres_mutation clientId (FEnabled false)).
  - apply (pres_mutation clientId (FName name_)).
  - apply pres_updateClientAddress.
  - apply pres_Shutdown.
Qed.

Lemma settled_runAll (ops : list operation) (w : World) :
  I w -> I (runAll env ops w).
Proof.
  revert w. induction ops as [|o ops IH]; intros w H; simpl; [exact H|].
  apply IH. now apply pres_run.
Qed.

End Stability.

Lemma descends_refl (c : Config) :
  NoDup (map fst (clients c)) -> descends c c.
Proof.
  intros Hn. split; [reflexivity|]. split; [exact Hn|].
  intros k cl H. exists cl. auto.
Qed.

Section Lifetime.

Variable env : Settings.

(** X18.  Whatever operations run on a loaded process, they work on the one
    configuration object that was loaded, never create another, and only
    remove peers or edit them: the server record stays as loaded, and every
    peer stored afterwards was stored at the start under the same identifier
    with the same keys and creation time.  In particular no operation adds a
    peer. *)
Theorem operations_only_remove_or_edit_peers
        (w : World) (config : loc) (c : Config) (ops : list operation) :
  loaded w config c ->
  NoDup (map fst (clients c)) ->
  exists c',
    loaded (runAll env ops w) config c' /\
    length (heap (runAll env ops w)) = length (heap w) /\
    server c' = server c /\
    NoDup (map fst (clients c')) /\
    forall k cl',
      lookup k (clients c') = Some cl' ->
      exists cl,
        lookup k (clients c) = Some cl /\
        id cl' = id cl /\ publicKey cl' = publicKey cl /\
        privateKey cl' = privateKey cl /\
        preSharedKey cl' = preSharedKey cl /\
        createdAt cl' = createdAt cl.
Proof.
  intros [Hp Hh] Hn.
  destruct (settled_runAll env config (length (heap w)) c ops w)
    as (Hp' & Hlen & c' & Hc' & Hs & Hn' & Hk).
  { split; [exact Hp|]. split; [reflexivity|].
    exists c. split; [exact Hh|]. now apply descends_refl. }
  exists c'. split; [split; assumption|]. split; [exact Hlen|].
  split; [exact Hs|]. split; [exact Hn'|].
  intros k cl' Hl. destruct (Hk k cl' Hl) as (cl & H0 & Hi).
  exists cl. split; [exact H0|].
  unfold immutablePart in Hi. injection Hi as H1 H2 H3 H4 H5. auto.
Qed.

End Lifetime.

(** On the sample state: after disabling alice, a failing attempt to create
    carol, renaming and deleting bob, alice is still there with her keys,
    and nobody else. *)
Lemma operations_only_remove_or_edit_peers_witness :
  exists c',
    loaded (runAll sampleSettings
              [OpDisableClient "id-1"; OpCreateClient "carol";
               OpUpdateClientName "id-2" "robert"; OpDeleteClient "id-2"]
              sampleWorld) 0%nat c' /\
    server c' = server sampleConfig /\
    forall k cl',
      lookup k (clients c') = Some cl' ->
      exists cl,
        lookup k (clients sampleConfig) = Some cl /\
        publicKey cl' = publicKey cl /\ privateKey cl' = privateKey cl.
Proof.
  destruct (operations_only_remove_or_edit_peers sampleSettings sampleWorld
              0%nat sampleConfig
              [OpDisableClient "id-1"; OpCreateClient "carol";
               OpUpdateClientName "id-2" "robert"; OpDeleteClient "id-2"]
              sampleWorld_loaded sampleConfig_NoDup)
    as (c' & Hl & _ & Hs & _ & Hk).
  exists c'. split; [exact Hl|]. split; [exact Hs|].
  intros k cl' H. destruct (Hk k cl' H) as (cl & H0 & _ & H2 & H3 & _).
  exists cl. auto.
Defined.
